(** * code_review_agent: a shallow embedding of the review orchestration engine

    The development follows [code_review_agent.py]: the configuration model
    [CodeReviewConfig], the reviewer [CodeReviewer] (cache key, result cache,
    bounded retries, single-file and batch review, changed-file extraction
    from a diff) and the file inspector [FileAnalyzer].

    Data model.  A Python [str] is represented by its UTF-8 encoding, a Rocq
    [string] of bytes; [str.encode()] is then the identity.  Python [int]s are
    [Z].  Result dictionaries are association lists in insertion order; the
    mapping from paths to results of a batch is a finite map.  The outside
    world (source files, cache directory, remote service, clock, version
    control) is an explicit [world] record threaded through a
    state-and-exception monad [M].  The pool of a batch runs its tasks one
    after the other. *)

From Stdlib Require Import ZArith Lia Ascii.
From stdpp Require Import base strings list gmap.

Local Open Scope Z_scope.

(* ================================================================== *)
(** * Python string operations used by the program *)
(* ================================================================== *)

Module PyStr.

(** A string given by its byte values. *)
Definition of_bytes (l : list nat) : string :=
  foldr (fun n s => String (ascii_of_nat n) s) EmptyString l.

Definition newline : string := of_bytes [10%nat].
Definition dquote : string := of_bytes [34%nat].

(** [sep.join(l)] *)
Fixpoint join (sep : string) (l : list string) : string :=
  match l with
  | [] => EmptyString
  | [s] => s
  | s :: r => s +:+ sep +:+ join sep r
  end.

(** [s[n:]] *)
Fixpoint skip (n : nat) (s : string) : string :=
  match n, s with
  | O, _ => s
  | S k, String _ r => skip k r
  | S _, EmptyString => EmptyString
  end.

(** [s.startswith(p)] *)
Definition startswith (s p : string) : bool := String.prefix p s.

(** [sub in s] *)
Fixpoint contains (sub s : string) : bool :=
  String.prefix sub s ||
  match s with
  | EmptyString => false
  | String _ r => contains sub r
  end.

(** [s.split(sep, 1)]: [None] stands for the one-element list [[s]] (no
    occurrence), [Some (a, b)] for the two-element list [[a, b]]. *)
Fixpoint split_once (sep s : string) : option (string * string) :=
  if String.prefix sep s then Some (EmptyString, skip (String.length sep) s)
  else match s with
       | EmptyString => None
       | String c r =>
           match split_once sep r with
           | Some (a, b) => Some (String c a, b)
           | None => None
           end
       end.

(** [s.split(c)] for a one-character separator. *)
Fixpoint split (c : ascii) (s : string) : list string :=
  match s with
  | EmptyString => [EmptyString]
  | String x r =>
      if Ascii.eqb x c then EmptyString :: split c r
      else match split c r with
           | h :: t => String x h :: t
           | [] => [String x EmptyString]
           end
  end.

(** The characters for which [str.isspace] holds, as UTF-8 byte strings:
    U+0009..U+000D, U+001C..U+001F, U+0020, U+0085, U+00A0, U+1680,
    U+2000..U+200A, U+2028, U+2029, U+202F, U+205F, U+3000. *)
Definition whitespace : list string :=
  map of_bytes
    [ [9]; [10]; [11]; [12]; [13]; [28]; [29]; [30]; [31]; [32];
      [194; 133]; [194; 160]; [225; 154; 128];
      [226; 128; 128]; [226; 128; 129]; [226; 128; 130]; [226; 128; 131];
      [226; 128; 132]; [226; 128; 133]; [226; 128; 134]; [226; 128; 135];
      [226; 128; 136]; [226; 128; 137]; [226; 128; 138];
      [226; 128; 168]; [226; 128; 169]; [226; 128; 175];
      [226; 129; 159]; [227; 128; 128] ]%nat.

(** The whitespace character [s] starts with, if any. *)
Definition leading (pats : list string) (s : string) : option string :=
  List.find (fun w => String.prefix w s) pats.

Fixpoint strip_leading (pats : list string) (fuel : nat) (s : string) : string :=
  match fuel with
  | O => s
  | S k =>
      match leading pats s with
      | Some w => strip_leading pats k (skip (String.length w) s)
      | None => s
      end
  end.

(** [s.lstrip()], [s.rstrip()], [s.strip()] *)
Definition lstrip (s : string) : string :=
  strip_leading whitespace (String.length s) s.
Definition rstrip (s : string) : string :=
  String.rev (strip_leading (map String.rev whitespace) (String.length s) (String.rev s)).
Definition strip (s : string) : string := rstrip (lstrip s).

(** [len(s.split())]: the number of maximal runs of non-whitespace. *)
Fixpoint count_words (fuel : nat) (in_word : bool) (s : string) : Z :=
  match fuel with
  | O => 0
  | S k =>
      match leading whitespace s with
      | Some w => count_words k false (skip (String.length w) s)
      | None =>
          match s with
          | EmptyString => 0
          | String _ r => (if in_word then 0 else 1) + count_words k true r
          end
      end
  end.
Definition word_count (s : string) : Z := count_words (S (String.length s)) false s.

(** [s.lstrip(chars)]: drop leading characters that belong to the set [chars]. *)
Fixpoint mem_char (c : ascii) (chars : string) : bool :=
  match chars with
  | EmptyString => false
  | String x r => Ascii.eqb c x || mem_char c r
  end.
Fixpoint lstrip_chars (chars s : string) : string :=
  match s with
  | EmptyString => EmptyString
  | String c r => if mem_char c chars then lstrip_chars chars r else s
  end.

(** [s.rfind(c)] for a one-character [c]: the last index, or [-1]. *)
Fixpoint rfind_from (c : ascii) (s : string) (i : Z) (last : Z) : Z :=
  match s with
  | EmptyString => last
  | String x r => rfind_from c r (i + 1) (if Ascii.eqb x c then i else last)
  end.
Definition rfind (c : ascii) (s : string) : Z := rfind_from c s 0 (-1).

(** [s[i:j]] for [0 <= i]. *)
Definition slice (s : string) (i j : Z) : string :=
  String.substring (Z.to_nat i) (Z.to_nat (j - i)) s.

(** [s.lower()] on the ASCII letters; the extension tables of the program
    are ASCII. *)
Definition lower_char (c : ascii) : ascii :=
  let n := nat_of_ascii c in
  if ((65 <=? n)%nat && (n <=? 90)%nat)%bool then ascii_of_nat (n + 32) else c.
Fixpoint lower (s : string) : string :=
  match s with
  | EmptyString => EmptyString
  | String c r => String (lower_char c) (lower r)
  end.

(** [len(s)] and [s[:n]] count characters, not bytes: a byte of the form
    [10xxxxxx] continues the character before it. *)
Definition continuation (c : ascii) : bool :=
  let n := nat_of_ascii c in ((128 <=? n)%nat && (n <? 192)%nat)%bool.
Fixpoint len (s : string) : Z :=
  match s with
  | EmptyString => 0
  | String c r => (if continuation c then 0 else 1) + len r
  end.
Fixpoint take_chars (n : nat) (s : string) : string :=
  match s with
  | EmptyString => EmptyString
  | String c r =>
      if continuation c then String c (take_chars n r)
      else match n with
           | O => EmptyString
           | S k => String c (take_chars k r)
           end
  end.

(** [str(n)] for an integer. *)
Fixpoint digits (fuel : nat) (n : Z) (acc : string) : string :=
  match fuel with
  | O => acc
  | S k =>
      let acc' := String (ascii_of_nat (48 + Z.to_nat (n mod 10))) acc in
      if n <? 10 then acc' else digits k (n / 10) acc'
  end.
Definition of_Z (n : Z) : string :=
  if n <? 0 then String "-"%char (digits (S (Z.to_nat (Z.log2 (- n)))) (- n) EmptyString)
  else digits (S (Z.to_nat (Z.log2 n))) n EmptyString.

End PyStr.

(* ================================================================== *)
(** * Paths ([os.path], POSIX flavour) *)
(* ================================================================== *)

Module OsPath.

(** [os.path.join(a, b)] *)
Definition join (a b : string) : string :=
  if PyStr.startswith b "/" then b
  else match a with
       | EmptyString => b
       | _ => if String.prefix "/" (String.rev a) then a +:+ b
              else a +:+ "/" +:+ b
       end.

(** [os.path.basename(p)] *)
Definition basename (p : string) : string :=
  PyStr.skip (Z.to_nat (PyStr.rfind "/"%char p + 1)) p.

(** [os.path.splitext(p)]: the extension starts at the last dot of the last
    component, unless only dots precede it there. *)
Definition splitext (p : string) : string * string :=
  let sepIndex := PyStr.rfind "/"%char p in
  let dotIndex := PyStr.rfind "."%char p in
  if (sepIndex <? dotIndex)
     && negb (String.eqb (PyStr.slice p (sepIndex + 1) dotIndex)
                         (PyStr.of_bytes (repeat 46%nat (Z.to_nat (dotIndex - sepIndex - 1)))))
  then (PyStr.slice p 0 dotIndex, PyStr.skip (Z.to_nat dotIndex) p)
  else (p, EmptyString).

End OsPath.


(* ================================================================== *)
(** * [hashlib.md5] (RFC 1321) on byte strings *)
(* ================================================================== *)

Module MD5.

Definition word (x : Z) : Z := x mod 2 ^ 32.

Definition rotl (x c : Z) : Z :=
  word (Z.lor (Z.shiftl x c) (Z.shiftr x (32 - c))).

Definition lnot32 (x : Z) : Z := Z.lxor x 0xffffffff.

(** Per-round shift amounts. *)
Definition shifts : list Z :=
  [ 7; 12; 17; 22; 7; 12; 17; 22; 7; 12; 17; 22; 7; 12; 17; 22;
    5; 9; 14; 20; 5; 9; 14; 20; 5; 9; 14; 20; 5; 9; 14; 20;
    4; 11; 16; 23; 4; 11; 16; 23; 4; 11; 16; 23; 4; 11; 16; 23;
    6; 10; 15; 21; 6; 10; 15; 21; 6; 10; 15; 21; 6; 10; 15; 21 ].

(** [floor (2^32 * abs (sin (i + 1)))] for [i] in [0..63]. *)
Definition sines : list Z :=
  [ 0xd76aa478; 0xe8c7b756; 0x242070db; 0xc1bdceee;
    0xf57c0faf; 0x4787c62a; 0xa8304613; 0xfd469501;
    0x698098d8; 0x8b44f7af; 0xffff5bb1; 0x895cd7be;
    0x6b901122; 0xfd987193; 0xa679438e; 0x49b40821;
    0xf61e2562; 0xc040b340; 0x265e5a51; 0xe9b6c7aa;
    0xd62f105d; 0x02441453; 0xd8a1e681; 0xe7d3fbc8;
    0x21e1cde6; 0xc33707d6; 0xf4d50d87; 0x455a14ed;
    0xa9e3e905; 0xfcefa3f8; 0x676f02d9; 0x8d2a4c8a;
    0xfffa3942; 0x8771f681; 0x6d9d6122; 0xfde5380c;
    0xa4beea44; 0x4bdecfa9; 0xf6bb4b60; 0xbebfbc70;
    0x289b7ec6; 0xeaa127fa; 0xd4ef3085; 0x04881d05;
    0xd9d4d039; 0xe6db99e5; 0x1fa27cf8; 0xc4ac5665;
    0xf4292244; 0x432aff97; 0xab9423a7; 0xfc93a039;
    0x655b59c3; 0x8f0ccc92; 0xffeff47d; 0x85845dd1;
    0x6fa87e4f; 0xfe2ce6e0; 0xa3014314; 0x4e0811a1;
    0xf7537e82; 0xbd3af235; 0x2ad7d2bb; 0xeb86d391 ].

Record state := State { sa : Z; sb : Z; sc : Z; sd : Z }.

Definition init : state :=
  State 0x67452301 0xefcdab89 0x98badcfe 0x10325476.

(** One of the 64 operations of a block; [m] holds the block's 16 words. *)
Definition step (m : list Z) (st : state) (i : Z) : state :=
  let '(State a b c d) := st in
  let '(f, g) :=
    if i <? 16 then (Z.lor (Z.land b c) (Z.land (lnot32 b) d), i)
    else if i <? 32 then (Z.lor (Z.land d b) (Z.land (lnot32 d) c), (5 * i + 1) mod 16)
    else if i <? 48 then (Z.lxor (Z.lxor b c) d, (3 * i + 5) mod 16)
    else (Z.lxor c (Z.lor b (lnot32 d)), (7 * i) mod 16) in
  let f' := word (f + a + nth (Z.to_nat i) sines 0 + nth (Z.to_nat g) m 0) in
  State d (word (b + rotl f' (nth (Z.to_nat i) shifts 0))) b c.

Definition rounds : list Z := map Z.of_nat (seq 0 64).

Definition block (st : state) (m : list Z) : state :=
  let '(State a b c d) := foldl (step m) st rounds in
  State (word (sa st + a)) (word (sb st + b)) (word (sc st + c)) (word (sd st + d)).

(** Little-endian words of a byte list. *)
Fixpoint words_le (fuel : nat) (bs : list Z) : list Z :=
  match fuel, bs with
  | S k, b0 :: b1 :: b2 :: b3 :: r =>
      (b0 + 256 * b1 + 65536 * b2 + 16777216 * b3) :: words_le k r
  | _, _ => []
  end.

Fixpoint blocks (fuel : nat) (ws : list Z) : list (list Z) :=
  match fuel, ws with
  | O, _ | _, [] => []
  | S k, _ => take 16 ws :: blocks k (drop 16 ws)
  end.

Definition le_bytes (n : nat) (x : Z) : list Z :=
  map (fun k => (x / 256 ^ Z.of_nat k) mod 256) (seq 0 n).

(** The message followed by the bit 1, zeros up to 56 modulo 64 bytes, and
    the bit length on 64 bits. *)
Definition pad (msg : list Z) : list Z :=
  let len := Z.of_nat (length msg) in
  let zeros := Z.to_nat ((55 - len) mod 64) in
  msg ++ [128] ++ repeat 0 zeros ++ le_bytes 8 ((8 * len) mod 2 ^ 64).

Definition digest_state (msg : list Z) : state :=
  let padded := pad msg in
  let ws := words_le (length padded) padded in
  foldl block init (blocks (length ws) ws).

(** [md5(msg).digest()] *)
Definition digest (msg : list Z) : list Z :=
  let '(State a b c d) := digest_state msg in
  le_bytes 4 a ++ le_bytes 4 b ++ le_bytes 4 c ++ le_bytes 4 d.

Definition hex_digit (x : Z) : ascii :=
  ascii_of_nat (Z.to_nat (if x <? 10 then 48 + x else 87 + x)).

Fixpoint hex (bs : list Z) : string :=
  match bs with
  | [] => EmptyString
  | b :: r => String (hex_digit (b / 16)) (String (hex_digit (b mod 16)) (hex r))
  end.

Fixpoint bytes_of (s : string) : list Z :=
  match s with
  | EmptyString => []
  | String c r => Z.of_nat (nat_of_ascii c) :: bytes_of r
  end.

(** [hashlib.md5(data).hexdigest()] *)
Definition hexdigest (data : string) : string := hex (digest (bytes_of data)).

End MD5.

(* ================================================================== *)
(** * Values, results and the outside world *)
(* ================================================================== *)

Set Warnings "-register-all".

(** JSON values, as [json.loads] builds them and [json.dump] writes them. *)
Inductive json :=
| JNull
| JBool (b : bool)
| JInt (n : Z)
| JFloat (mantissa exponent : Z)
| JStr (s : string)
| JList (l : list json)
| JDict (d : list (string * json)).

(** A [Dict[str, Any]]: keys in insertion order. *)
Abbreviation dict := (list (string * json)).

(** [key in d] *)
Definition has_key (key : string) (d : dict) : bool :=
  existsb (fun kv => String.eqb key (fst kv)) d.

(** [d[key]] *)
Definition get_key (key : string) (d : dict) : option json :=
  snd <$> List.find (fun kv => String.eqb key (fst kv)) d.

(** An error payload [{"error": reason}]. *)
Definition error_payload (reason : string) : dict := [("error", JStr reason)].

(** A computation either returns a value or raises an exception, of which
    [str(e)] is kept. *)
Inductive res (A : Type) :=
| Return (a : A)
| Raise (e : string).
Arguments Return {A} a.
Arguments Raise {A} e.

(** What opening a source file for reading as UTF-8 text gives; a path that
    is absent from the file table raises [FileNotFoundError]. *)
Inductive file_read :=
| Text (content : string) (size : Z)
| NotUtf8
| Unreadable (reason : string).

(** A cache file: a stored result, or a file that [json.load] rejects. *)
Inductive cache_file :=
| Stored (result : dict)
| Corrupt.

(** The outcome of one request to the completion service. *)
Inductive api_outcome :=
| Parsed (result : dict)        (* the body parses; the request asks for a JSON object *)
| NotJson (body : string)       (* json.JSONDecodeError *)
| RateLimitError
| APIError (reason : string)
| OtherError (reason : string).

Abbreviation messages := (list (string * string)).

(** What the version-control tool answers for a repository path and a diff
    specification. *)
Inductive git_outcome :=
| Diff (text : string)
| InvalidGitRepositoryError
| GitCommandError (reason : string)
| GitOtherError (reason : string).

(** The last field is what the platform raises for the [n]-th sleep of the
    run when it is asked for a length that converts and is not negative:
    an [OSError] when the deadline leaves the range of the monotonic clock,
    which depends on the time the machine has been up. *)
Record world := Platform {
  files : gmap string file_read;
  cache_files : gmap string cache_file;
  cache_writable : bool;
  service : nat -> messages -> api_outcome;
  requests : nat;
  slept : list Z;
  now : string;
  git : string -> string -> git_outcome;
  sleep_refused : nat -> Z -> option string
}.

(** A world on a platform that refuses no sleep. *)
Definition World (files : gmap string file_read) (cache_files : gmap string cache_file)
    (cache_writable : bool) (service : nat -> messages -> api_outcome)
    (requests : nat) (slept : list Z) (now : string)
    (git : string -> string -> git_outcome) : world :=
  Platform files cache_files cache_writable service requests slept now git
    (fun _ _ => None).

Definition set_cache_files (w : world) (c : gmap string cache_file) : world :=
  Platform (files w) c (cache_writable w) (service w) (requests w) (slept w) (now w)
    (git w) (sleep_refused w).
Definition set_requests (w : world) (n : nat) : world :=
  Platform (files w) (cache_files w) (cache_writable w) (service w) n (slept w) (now w)
    (git w) (sleep_refused w).
Definition set_slept (w : world) (l : list Z) : world :=
  Platform (files w) (cache_files w) (cache_writable w) (service w) (requests w) l (now w)
    (git w) (sleep_refused w).

(** State and exceptions. *)
Definition M (A : Type) : Type := world -> res A * world.

Definition ret {A} (a : A) : M A := fun w => (Return a, w).
Definition raise {A} (e : string) : M A := fun w => (Raise e, w).
Definition bind {A B} (m : M A) (k : A -> M B) : M B :=
  fun w => match m w with
           | (Return a, w') => k a w'
           | (Raise e, w') => (Raise e, w')
           end.
(** [try: ... except Exception as e: ...], with the exception reified. *)
Definition try {A} (m : M A) : M (res A) :=
  fun w => let (r, w') := m w in (Return r, w').
Definition get {A} (f : world -> A) : M A := fun w => (Return (f w), w).
Definition lift {A} (r : res A) : M A := fun w => (r, w).

Declare Scope py_scope.
Delimit Scope py_scope with py.
Notation "x <- m ;; k" := (bind m (fun x => k))
  (at level 100, m at next level, right associativity) : py_scope.
Notation "m ;;; k" := (bind m (fun _ => k))
  (at level 100, right associativity) : py_scope.
Local Open Scope py_scope.

(** The most seconds [time.sleep] converts (CPython 3.11): it counts
    nanoseconds in 64 bits. *)
Definition SLEEP_MAX : Z := 9223372036.

(** What [time.sleep(secs)] raises for an integer [secs], as the [n]-th
    sleep of the run: [OverflowError] when the length does not convert,
    else [ValueError] when it is negative, else what the platform raises. *)
Definition sleep_error (refused : nat -> Z -> option string) (n : nat) (secs : Z)
    : option string :=
  if (secs <? - SLEEP_MAX) || (SLEEP_MAX <? secs)
  then Some "timestamp too large to convert to C _PyTime_t"
  else if secs <? 0 then Some "sleep length must be non-negative"
  else refused n secs.

(** [time.sleep(secs)] *)
Definition sleep (secs : Z) : M unit :=
  fun w => match sleep_error (sleep_refused w) (length (slept w)) secs with
           | Some e => (Raise e, w)
           | None => (Return tt, set_slept w (slept w ++ [secs]))
           end.

(* ================================================================== *)
(** * [CodeReviewConfig] *)
(* ================================================================== *)

(** A Python [float]. *)
Inductive pyfloat :=
| Finite (num : Z) (den : positive)
| PosInf
| NegInf
| NaN.

(** [n <= v] and [v <= n] for an integer [n]. *)
Definition int_le_float (n : Z) (v : pyfloat) : bool :=
  match v with
  | Finite num den => n * Z.pos den <=? num
  | PosInf => true
  | NegInf | NaN => false
  end.
Definition float_le_int (v : pyfloat) (n : Z) : bool :=
  match v with
  | Finite num den => num <=? n * Z.pos den
  | NegInf => true
  | PosInf | NaN => false
  end.

Record CodeReviewConfig := Config {
  model : string;
  temperature : pyfloat;
  max_tokens : Z;
  api_base : option string;
  retry_count : Z;
  retry_delay : Z;
  concurrent_workers : Z;
  cache_dir : string
}.

Definition validate_temperature (v : pyfloat) : res pyfloat :=
  if negb (int_le_float 0 v && float_le_int v 2)
  then Raise "温度必须在0到2之间" else Return v.

Definition validate_retry_count (v : Z) : res Z :=
  if v <? 0 then Raise "重试次数不能为负数" else Return v.

Definition validate_concurrent_workers (v : Z) : res Z :=
  if v <? 1 then Raise "并发工作线程至少为1" else Return v.

Definition errors_of {A} (r : res A) : list string :=
  match r with Return _ => [] | Raise e => [e] end.
Definition value_of {A} (r : res A) (default : A) : A :=
  match r with Return a => a | Raise _ => default end.

(** Construction of a [CodeReviewConfig]: every field validator runs on the value
    given for its field; when any of them raises, construction fails with
    the collected errors and no object is built. *)
Definition new_config (model : string) (temperature : pyfloat) (max_tokens : Z)
    (api_base : option string) (retry_count retry_delay concurrent_workers : Z)
    (cache_dir : string) : list string + CodeReviewConfig :=
  let t := validate_temperature temperature in
  let r := validate_retry_count retry_count in
  let c := validate_concurrent_workers concurrent_workers in
  match errors_of t ++ errors_of r ++ errors_of c with
  | [] => inr (Config model (value_of t temperature) max_tokens api_base
                 (value_of r retry_count) retry_delay
                 (value_of c concurrent_workers) cache_dir)
  | errs => inl errs
  end.

(** The defaults of the class. *)
Definition default_config : CodeReviewConfig :=
  Config "gpt-4o" (Finite 2 10) 4096 None 3 2 2 ".cache".

(* ================================================================== *)
(** * [FileAnalyzer] *)
(* ================================================================== *)

Module FileAnalyzer.

(** The counters of the line loop of [analyze_file]. *)
Record counters := Counters {
  code_lines : Z;
  comment_lines : Z;
  blank_lines : Z;
  in_multi_comment : bool
}.

Definition single_comment_markers : list string := ["#"; "//"].
Definition multi_comment_start : string := "/*".
Definition multi_comment_end : string := "*/".

(** One iteration of [for line in lines]; each branch ends in [continue]. *)
Definition count_line (st : counters) (line : string) : counters :=
  let '(Counters code comment blank in_multi) := st in
  let stripped_line := PyStr.strip line in
  if String.eqb stripped_line EmptyString then
    Counters code comment (blank + 1) in_multi
  else if in_multi then
    Counters code (comment + 1) blank
      (if PyStr.contains multi_comment_end stripped_line then false else in_multi)
  else if existsb (PyStr.startswith stripped_line) single_comment_markers then
    Counters code (comment + 1) blank in_multi
  else if PyStr.contains multi_comment_start stripped_line then
    (* [stripped_line.split(multi_comment_start, 1)[1]]: the part after the
       first starter, which exists since the starter occurs *)
    match PyStr.split_once multi_comment_start stripped_line with
    | Some (_, rest) =>
        Counters code (comment + 1) blank
          (if negb (PyStr.contains multi_comment_end rest) then true else in_multi)
    | None => Counters code (comment + 1) blank in_multi
    end
  else
    Counters (code + 1) comment blank in_multi.

Definition count_lines (lines : list string) : counters :=
  foldl count_line (Counters 0 0 0 false) lines.

(** [analyze_file(file_path)], reading the file table [fs]. *)
Definition analyze_file (fs : gmap string file_read) (file_path : string) : dict :=
  match fs !! file_path with
  | Some (Text content size) =>
      let lines := PyStr.split "010" content in
      let c := count_lines lines in
      [ ("file_path", JStr file_path);
        ("file_name", JStr (OsPath.basename file_path));
        ("file_size", JInt size);
        ("line_count", JInt (Z.of_nat (length lines)));
        ("code_lines", JInt (code_lines c));
        ("comment_lines", JInt (comment_lines c));
        ("blank_lines", JInt (blank_lines c));
        ("estimated_tokens", JInt (PyStr.word_count content));
        ("content", JStr content) ]
  | Some NotUtf8 =>
      error_payload ("文件 " +:+ file_path +:+ " 不是有效的UTF-8编码文件")
  | None =>
      error_payload ("文件 " +:+ file_path +:+ " 不存在")
  | Some (Unreadable reason) =>
      error_payload ("分析文件时发生错误: " +:+ reason)
  end.

(** A directory tree: the entries of a directory in listing order. *)
Inductive entry :=
| File (name : string)
| Dir (name : string) (children : list entry).

Definition file_names (es : list entry) : list string :=
  flat_map (fun e => match e with File n => [n] | Dir _ _ => [] end) es.
Definition dir_names (es : list entry) : list string :=
  flat_map (fun e => match e with File _ => [] | Dir n _ => [n] end) es.

(** [os.walk(top)], top-down: the triple of a directory comes before the
    triples of its subdirectories; a path that is not a directory yields
    nothing. *)
Fixpoint os_walk (top : string) (e : entry)
    : list (string * list string * list string) :=
  match e with
  | File _ => []
  | Dir _ es =>
      (top, dir_names es, file_names es)
      :: flat_map (fun c => match c with
                            | File _ => []
                            | Dir n _ => os_walk (OsPath.join top n) c
                            end) es
  end.

(** The body of [for file in files]. *)
Definition visit_file (extensions : option (list string)) (root : string)
    (result_files : list string) (file : string) : list string :=
  if PyStr.startswith file "." then result_files
  else
    match extensions with
    | Some ((_ :: _) as exts) =>
        let file_ext := PyStr.lower (snd (OsPath.splitext file)) in
        if existsb (String.eqb file_ext) exts
        then result_files ++ [OsPath.join root file]
        else result_files
    | _ => result_files ++ [OsPath.join root file]
    end.

(** [find_files(directory, extensions)] on the tree found at [directory]. *)
Definition find_files (tree : entry) (directory : string)
    (extensions : option (list string)) : list string :=
  foldl (fun result_files '(root, _, files) =>
           foldl (visit_file extensions root) result_files files)
        [] (os_walk directory tree).

(** One iteration of the loop of [filter_files_by_size]; [sizes] gives
    [os.path.getsize] of a path and has no entry where it raises. *)
Definition keep_by_size (sizes : gmap string Z) (min_size : Z) (max_size : option Z)
    (filtered : list string) (file_path : string) : list string :=
  match sizes !! file_path with
  | Some size =>
      if (min_size <=? size)
         && match max_size with
            | None => true
            | Some m => size <=? m
            end
      then filtered ++ [file_path]
      else filtered
  | None => filtered                       (* logged *)
  end.

(** [filter_files_by_size(file_paths, min_size, max_size)] *)
Definition filter_files_by_size (sizes : gmap string Z) (file_paths : list string)
    (min_size : Z) (max_size : option Z) : list string :=
  foldl (keep_by_size sizes min_size max_size) [] file_paths.

End FileAnalyzer.

(* ================================================================== *)
(** * Formatted string literals *)
(* ================================================================== *)

(** A part of an f-string: literal text, or a replacement field
    [{value:spec}] whose expression evaluated to the string [value]. *)
Inductive fpart :=
| Lit (text : string)
| Field (value spec : string).

Definition invalid_format_specifier (spec : string) : string :=
  "Invalid format specifier '" +:+ spec +:+ "' for object of type 'str'".

(** [format(value, spec)] for a string value, on the specifications that
    occur in the program: the empty one returns the value; the others are
    field descriptions written in braces, which are not format
    specifications, and raise [ValueError]. *)
Definition format_field (value spec : string) : res string :=
  if String.eqb spec EmptyString then Return value
  else Raise (invalid_format_specifier spec).

(** Evaluation of an f-string, fields from left to right. *)
Fixpoint fstring (parts : list fpart) : res string :=
  match parts with
  | [] => Return EmptyString
  | Lit text :: rest =>
      match fstring rest with
      | Return s => Return (text +:+ s)
      | Raise e => Raise e
      end
  | Field value spec :: rest =>
      match format_field value spec with
      | Return v =>
          match fstring rest with
          | Return s => Return (v +:+ s)
          | Raise e => Raise e
          end
      | Raise e => Raise e
      end
  end.

(** The lines of a multi-line literal. *)
Fixpoint flines (lines : list (list fpart)) : list fpart :=
  match lines with
  | [] => []
  | [l] => l
  | l :: rest => l ++ Lit PyStr.newline :: flines rest
  end.

(** A text in double quotes. *)
Definition quoted (s : string) : string := PyStr.dquote +:+ s +:+ PyStr.dquote.

(* ================================================================== *)
(** * [CodeReviewer] *)
(* ================================================================== *)

Module CodeReviewer.

Definition SUPPORTED_LANGUAGES : list (string * list string) :=
  [ ("python", [".py"]);
    ("javascript", [".js"; ".jsx"]);
    ("typescript", [".ts"; ".tsx"]);
    ("java", [".java"]);
    ("csharp", [".cs"]);
    ("go", [".go"]);
    ("rust", [".rs"]);
    ("cpp", [".cpp"; ".cc"; ".cxx"; ".c++"; ".h"; ".hpp"]);
    ("c", [".c"; ".h"]);
    ("php", [".php"]);
    ("ruby", [".rb"]);
    ("swift", [".swift"]);
    ("kotlin", [".kt"]);
    ("html", [".html"; ".htm"]);
    ("css", [".css"]);
    ("scss", [".scss"]);
    ("json", [".json"]);
    ("yaml", [".yaml"; ".yml"]);
    ("markdown", [".md"]);
    ("sql", [".sql"]) ].

Definition LANGUAGE_SPECIFIC_PROMPTS : list (string * string) :=
  [ ("python", "特别注意PEP 8规范的遵守情况，包括缩进、命名约定、导入顺序等。检查是否有使用Python 3的新特性来简化代码。");
    ("javascript", "特别注意ES6+特性的使用，检查是否有回调地狱问题，以及异步代码的处理方式。");
    ("typescript", "特别注意类型定义的完整性和准确性，检查是否有未使用的变量或导入。");
    ("java", "特别注意异常处理和资源管理，检查是否有内存泄漏风险。");
    ("csharp", "特别注意空引用问题，检查是否有适当的null检查。");
    ("go", "特别注意错误处理方式，检查是否有goroutine泄漏风险。") ].

Definition _get_file_language (file_path : string) : option string :=
  let ext := PyStr.lower (snd (OsPath.splitext file_path)) in
  fst <$> List.find (fun le => existsb (String.eqb ext) (snd le)) SUPPORTED_LANGUAGES.

Definition _get_cache_key (content prompt : string) : string :=
  let combined := content +:+ PyStr.newline +:+ "---" +:+ PyStr.newline +:+ prompt in
  MD5.hexdigest combined.

Definition cache_path (cfg : CodeReviewConfig) (cache_key : string) : string :=
  OsPath.join (cache_dir cfg) (cache_key +:+ ".json").

Definition _get_cached_result (cfg : CodeReviewConfig) (cache_key : string)
    : M (option dict) :=
  fun w =>
    match cache_files w !! cache_path cfg cache_key with
    | Some (Stored result) => (Return (Some result), w)
    | Some Corrupt => (Return None, w)     (* logged, then falls through *)
    | None => (Return None, w)
    end.

Definition _cache_result (cfg : CodeReviewConfig) (cache_key : string)
    (result : dict) : M unit :=
  fun w =>
    if cache_writable w
    then (Return tt,
          set_cache_files w (<[cache_path cfg cache_key := Stored result]> (cache_files w)))
    else (Return tt, w).                   (* logged *)

Definition invalid_json_error : dict := error_payload "API返回的内容格式无效".
Definition max_retries_error (cfg : CodeReviewConfig) : dict :=
  error_payload ("达到最大重试次数 " +:+ PyStr.of_Z (retry_count cfg)).

(** One request to the service. *)
Definition create (msgs : messages) : M api_outcome :=
  fun w => (Return (service w (requests w) msgs), set_requests w (S (requests w))).

(** The iterations [attempt, attempt + 1, ...] of the loop of
    [_call_openai_api], [remaining] of them, then the statements after it. *)
Fixpoint attempts (cfg : CodeReviewConfig) (msgs : messages)
    (remaining : nat) (attempt : Z) : M dict :=
  match remaining with
  | O => ret (max_retries_error cfg)
  | S k =>
      response <- create msgs ;;
      match response with
      | Parsed result => ret result
      | NotJson _ => ret invalid_json_error
      | RateLimitError =>
          sleep (retry_delay cfg * 2 ^ attempt) ;;;
          attempts cfg msgs k (attempt + 1)
      | APIError _ =>
          sleep (retry_delay cfg * 2 ^ attempt) ;;;
          attempts cfg msgs k (attempt + 1)
      | OtherError e => ret (error_payload e)
      end
  end.

Definition _call_openai_api (cfg : CodeReviewConfig) (msgs : messages) : M dict :=
  attempts cfg msgs (Z.to_nat (retry_count cfg)) 0.

(** The conversation sent for a prompt: a system message and the prompt as
    the user message, each a pair of role and content. *)
Definition chat (system_content prompt : string) : messages :=
  [("system", system_content); ("user", prompt)].

(** The statements that follow the construction of the prompt in
    [review_file] (lines 218 to 241) and in [review_git_diff] (lines 302
    to 325): cache lookup, service call, store on success.  The condition
    [if cached_result:] holds for a stored result that is not empty. *)
Definition review_with_prompt (cfg : CodeReviewConfig)
    (content prompt system_content : string) : M dict :=
  let cache_key := _get_cache_key content prompt in
  cached_result <- _get_cached_result cfg cache_key ;;
  match cached_result with
  | Some ((_ :: _) as result) => ret result
  | _ =>
      let msgs := chat system_content prompt in
      result <- _call_openai_api cfg msgs ;;
      (if negb (has_key "error" result)
       then _cache_result cfg cache_key result else ret tt) ;;;
      ret result
  end.

Definition review_file_prompt (file_path : string) (language : option string)
    (file_content language_prompt : string) : list fpart :=
  flines
    [ [Lit "你是一名经验丰富的代码审查专家，请审查以下代码文件："];
      [];
      [Lit "文件路径："; Field file_path ""];
      [Field (match language with
              | Some l => "编程语言：" +:+ l
              | None => ""
              end) ""];
      [];
      [Lit "代码内容："];
      [Lit "```"];
      [Field file_content ""];
      [Lit "```"];
      [];
      [Lit "请从以下几个方面进行审查："];
      [Lit "1. 代码质量和可读性"];
      [Lit "2. 潜在的bug和逻辑问题"];
      [Lit "3. 性能优化建议"];
      [Lit "4. 安全性考虑"];
      [Lit "5. 最佳实践符合性"];
      [Lit "6. 代码复杂度分析"];
      [Lit "7. 代码重复检测"];
      [Lit "8. 代码风格一致性"];
      [];
      [Field language_prompt ""];
      [];
      [Lit "请提供具体的反馈和改进建议，返回格式必须是JSON对象，包含以下字段："];
      [Lit "- code_quality: ";
       Field "rating" (" 评分(1-5), " +:+ quoted "comments" +:+ ": [评论列表]")];
      [Lit "- potential_issues: [";
       Field "line" (" 行号, " +:+ quoted "description" +:+ ": 问题描述, "
                     +:+ quoted "severity" +:+ ": " +:+ quoted "low|medium|high"
                     +:+ ", " +:+ quoted "suggestion" +:+ ": 改进建议");
       Lit "]"];
      [Lit "- performance_suggestions: [性能优化建议列表]"];
      [Lit "- security_considerations: [安全考虑建议列表]"];
      [Lit "- best_practices: [最佳实践建议列表]"];
      [Lit "- complexity_analysis: ";
       Field "score" (" 复杂度分数, " +:+ quoted "hotspots" +:+ ": [热点代码行号列表]")];
      [Lit "- code_duplication: [";
       Field "line" (" 行号, " +:+ quoted "description" +:+ ": 重复代码描述");
       Lit "]"];
      [Lit "- style_consistency: ";
       Field "rating" (" 评分(1-5), " +:+ quoted "issues" +:+ ": [风格问题列表]")];
      [Lit "- summary: 总体总结"];
      [];
      [Lit "请确保返回的JSON可以被正确解析，不要包含任何JSON之外的内容。"] ].

Definition review_file (cfg : CodeReviewConfig) (file_path file_content : string)
    : M dict :=
  let language := _get_file_language file_path in
  let language_prompt :=
    match language with
    | Some l =>
        match List.find (fun kv => String.eqb l (fst kv)) LANGUAGE_SPECIFIC_PROMPTS with
        | Some kv => snd kv
        | None => ""
        end
    | None => ""
    end in
  prompt <- lift (fstring (review_file_prompt file_path language file_content language_prompt)) ;;
  review_with_prompt cfg file_content prompt
    "你是一名经验丰富的代码审查专家，擅长多语言代码分析和优化。".

(** The changed files of a diff (lines 262 to 269 of [review_git_diff]). *)
Definition changed_files_step (acc : res (list string)) (line : string)
    : res (list string) :=
  match acc with
  | Raise e => Raise e
  | Return changed_files =>
      if PyStr.startswith line "diff --git" then
        let parts := PyStr.split " " line in
        if (3 <=? length parts)%nat then
          match parts !! 3%nat with
          | Some part => Return (changed_files ++ [PyStr.lstrip_chars "a/" part])
          | None => Raise "list index out of range"
          end
        else Return changed_files
      else Return changed_files
  end.

Definition changed_files (diff : string) : res (list string) :=
  foldl changed_files_step (Return []) (PyStr.split "010" diff).

Definition review_git_diff_prompt (diff_spec : string) (changed : list string)
    (diff : string) : list fpart :=
  flines
    [ [Lit "你是一名经验丰富的代码审查专家，请审查以下Git差异："];
      [];
      [Lit "差异范围："; Field diff_spec ""];
      [Lit "变更文件数："; Field (PyStr.of_Z (Z.of_nat (length changed))) ""];
      [Lit "变更文件列表："; Field (PyStr.join ", " (take 10 changed)) "";
       Field (if (10 <? length changed)%nat then "..." else "") ""];
      [];
      [Lit "差异内容："];
      [Lit "```"];
      [Field (PyStr.take_chars (Z.to_nat 8000) diff) "";
       Lit "  # 限制差异大小，避免超出token限制"];
      [Field (if 8000 <? PyStr.len diff then "... 差异内容过长，已截断 ..." else "") ""];
      [Lit "```"];
      [];
      [Lit "请从以下几个方面进行审查："];
      [Lit "1. 代码质量和可读性"];
      [Lit "2. 潜在的bug和逻辑问题"];
      [Lit "3. 性能优化建议"];
      [Lit "4. 安全性考虑"];
      [Lit "5. 最佳实践符合性"];
      [Lit "6. 总体设计合理性"];
      [Lit "7. 测试覆盖建议"];
      [];
      [Lit "请提供具体的反馈和改进建议，返回格式必须是JSON对象，包含以下字段："];
      [Lit "- summary: 总体总结"];
      [Lit "- file_reviews: [";
       Field "file_path" (" 文件路径, " +:+ quoted "issues" +:+ ": 问题数量, "
                          +:+ quoted "highlights" +:+ ": [亮点列表]");
       Lit "]"];
      [Lit "- critical_issues: [";
       Field "file_path" (" 文件路径, " +:+ quoted "line" +:+ ": 行号, "
                          +:+ quoted "description" +:+ ": 问题描述, "
                          +:+ quoted "severity" +:+ ": " +:+ quoted "critical");
       Lit "]"];
      [Lit "- improvements: [改进建议列表]"];
      [Lit "- test_recommendations: [测试建议列表]"];
      [Lit "- rating: 总体评分(1-5)"];
      [];
      [Lit "请确保返回的JSON可以被正确解析，不要包含任何JSON之外的内容。"] ].

Definition review_git_diff (cfg : CodeReviewConfig) (repo_path branch : string)
    (commit_range : option string) : M dict :=
  let diff_spec :=
    match commit_range with
    | Some ((String _ _) as range) => range
    | _ => branch +:+ "..HEAD"
    end in
  outcome <- get (fun w => git w repo_path diff_spec) ;;
  match outcome with
  | InvalidGitRepositoryError =>
      ret (error_payload (repo_path +:+ " 不是有效的Git仓库"))
  | GitCommandError reason =>
      ret (error_payload ("Git命令执行失败: " +:+ reason))
  | GitOtherError reason =>
      ret (error_payload ("审查Git差异时发生错误: " +:+ reason))
  | Diff diff =>
      if String.eqb diff EmptyString then ret [("message", JStr "没有找到差异")]
      else
        r <- try (changed <- lift (changed_files diff) ;;
                  prompt <- lift (fstring (review_git_diff_prompt diff_spec changed diff)) ;;
                  review_with_prompt cfg diff prompt
                    "你是一名经验丰富的代码审查专家，擅长分析代码变更和版本差异。") ;;
        match r with
        | Return result => ret result
        | Raise e => ret (error_payload ("审查Git差异时发生错误: " +:+ e))
        end
  end.

Definition _review_file_wrapper (cfg : CodeReviewConfig) (file_path : string)
    : M dict :=
  file_info <- get (fun w => FileAnalyzer.analyze_file (files w) file_path) ;;
  if has_key "error" file_info then ret file_info
  else
    match get_key "content" file_info with
    | Some (JStr content) => review_file cfg file_path content
    | _ => raise "'content'"
    end.

Record BatchSummary := Summary {
  total_files : Z;
  successful_reviews : Z;
  failed_reviews : Z;
  failed_files : list string;
  timestamp : string
}.

Record BatchResult := Batch {
  summary : BatchSummary;
  file_reviews : gmap string dict
}.

(** The worker pool: every submitted task runs to its end, here one after
    the other in submission order (the schedule of a pool of one worker);
    a future holds what its task returned or raised. *)
Fixpoint run_tasks (cfg : CodeReviewConfig) (file_paths : list string)
    : M (list (string * res dict)) :=
  match file_paths with
  | [] => ret []
  | file_path :: rest =>
      future <- try (_review_file_wrapper cfg file_path) ;;
      futures <- run_tasks cfg rest ;;
      ret ((file_path, future) :: futures)
  end.

(** The body of [for future in as_completed(future_to_file)]. *)
Definition collect (acc : gmap string dict * list string)
    (future : string * res dict) : gmap string dict * list string :=
  let '(results, failed) := acc in
  match future with
  | (file_path, Return result) => (<[file_path := result]> results, failed)
  | (file_path, Raise e) =>
      (<[file_path := error_payload e]> results, failed ++ [file_path])
  end.

Definition batch_review_files (cfg : CodeReviewConfig) (file_paths : list string)
    : M BatchResult :=
  futures <- run_tasks cfg file_paths ;;
  let '(results, failed) := foldl collect (∅, []) futures in
  stamp <- get now ;;
  ret (Batch
         (Summary (Z.of_nat (length file_paths))
                  (Z.of_nat (size results) - Z.of_nat (length failed))
                  (Z.of_nat (length failed))
                  failed
                  stamp)
         results).

End CodeReviewer.

(** The format specification of the first field of the prompt of
    [review_file] whose specification is not empty: the description of
    [code_quality], written in braces in the f-string (line 206). *)
Definition code_quality_spec : string :=
  " 评分(1-5), " +:+ quoted "comments" +:+ ": [评论列表]".

(* ================================================================== *)
(** * The properties, in the words of the specification *)
(* ================================================================== *)

(** Line classification as the specification words it: every line gets one
    kind, decided from the line and the flag alone. *)
Module LineSpec.

Inductive kind := Blank | Comment | Code.

Definition kind_eqb (a b : kind) : bool :=
  match a, b with
  | Blank, Blank | Comment, Comment | Code, Code => true
  | _, _ => false
  end.

(** Position of the first occurrence of [sub] in [s]. *)
Fixpoint index_of (sub s : string) : option nat :=
  if String.prefix sub s then Some O
  else match s with
       | EmptyString => None
       | String _ r => S <$> index_of sub r
       end.

(** The terminator appears after the (first) starter on the line. *)
Definition terminator_after_starter (t : string) : bool :=
  match index_of "/*" t with
  | Some i => PyStr.contains "*/" (PyStr.skip (i + 2) t)
  | None => false
  end.

(** The kind of a line and the flag after it. *)
Definition classify (inside : bool) (line : string) : kind * bool :=
  let t := PyStr.strip line in
  if String.eqb t EmptyString then (Blank, inside)
  else if inside then (Comment, negb (PyStr.contains "*/" t))
  else if PyStr.startswith t "#" || PyStr.startswith t "//" then (Comment, false)
  else if PyStr.contains "/*" t then (Comment, negb (terminator_after_starter t))
  else (Code, false).

Fixpoint classify_all (inside : bool) (lines : list string) : list kind :=
  match lines with
  | [] => []
  | line :: rest =>
      let '(k, inside') := classify inside line in
      k :: classify_all inside' rest
  end.

Definition count (k : kind) (ks : list kind) : Z :=
  Z.of_nat (length (List.filter (kind_eqb k) ks)).

(** The effect of a line of kind [k] on the counters. *)
Definition bump (st : FileAnalyzer.counters) (k : kind) (inside : bool)
    : FileAnalyzer.counters :=
  let '(FileAnalyzer.Counters code comment blank _) := st in
  match k with
  | Blank => FileAnalyzer.Counters code comment (blank + 1) inside
  | Comment => FileAnalyzer.Counters code (comment + 1) blank inside
  | Code => FileAnalyzer.Counters (code + 1) comment blank inside
  end.

End LineSpec.

(** The bounds of the configuration. *)
Module ConfigSpec.

(** The temperature is a number of the closed interval from 0 to 2. *)
Definition temperature_in_bounds (v : pyfloat) : Prop :=
  exists num den, v = Finite num den /\ 0 <= num /\ num <= 2 * Z.pos den.

Definition in_bounds (temperature : pyfloat) (retry_count concurrent_workers : Z)
    : Prop :=
  temperature_in_bounds temperature /\ 0 <= retry_count /\ 1 <= concurrent_workers.

End ConfigSpec.

(** The retry policy. *)
Module RetrySpec.

(** A rate-limit signal or an API error. *)
Definition transient (o : api_outcome) : Prop :=
  o = RateLimitError \/ exists reason, o = APIError reason.

(** The wait after the failure of attempt [i]. *)
Definition backoff (cfg : CodeReviewConfig) (i : Z) : Z := retry_delay cfg * 2 ^ i.

(** The waits after the attempts [from, from + 1, ..., from + k - 1]. *)
Definition schedule_from (cfg : CodeReviewConfig) (from k : nat) : list Z :=
  map (fun i => backoff cfg (Z.of_nat (from + i))) (seq 0 k).
Definition schedule (cfg : CodeReviewConfig) (k : nat) : list Z :=
  schedule_from cfg 0 k.

(** The world after [k] more requests and the waits [waits]. *)
Definition after (w : world) (k : nat) (waits : list Z) : world :=
  set_slept (set_requests w (requests w + k)) (slept w ++ waits).

(** What the service answers to the [i]-th request from now. *)
Definition outcome_at (w : world) (msgs : messages) (i : nat) : api_outcome :=
  service w (requests w + i) msgs.

(** What [time.sleep] raises for the wait after attempt [i] of a call made
    in [w], when the attempts before it failed transiently. *)
Definition wait_error (cfg : CodeReviewConfig) (w : world) (i : nat) : option string :=
  sleep_error (sleep_refused w) (length (slept w) + i) (backoff cfg (Z.of_nat i)).

(** [time.sleep] accepts the waits after the attempts [0 .. k-1]. *)
Definition waits_accepted (cfg : CodeReviewConfig) (w : world) (k : nat) : Prop :=
  forall i, (i < k)%nat -> wait_error cfg w i = None.


(** No usable entry under the key: no file, a corrupt file, or a stored
    result that is false in a condition. *)
Definition cache_miss (cfg : CodeReviewConfig) (cache_key : string) (w : world)
    : Prop :=
  match cache_files w !! CodeReviewer.cache_path cfg cache_key with
  | Some (Stored (_ :: _)) => False
  | _ => True
  end.

End RetrySpec.

(** Concrete worlds and configurations, for the examples. *)
Module Scenario.

(** A service that gives the same answer to every request. *)
Definition always (o : api_outcome) : nat -> messages -> api_outcome :=
  fun _ _ => o.

(** A fresh world: no source file, an empty writable cache directory, no
    request made yet. *)
Definition fresh (svc : nat -> messages -> api_outcome) : world :=
  World ∅ ∅ true svc 0 [] "2024-01-01T00:00:00" (fun _ _ => Diff EmptyString).



(** The defaults, with another retry count. *)
Definition with_retry_count (n : Z) : CodeReviewConfig :=
  Config "gpt-4o" (Finite 2 10) 4096 None n 2 2 ".cache".

End Scenario.

(** The text that is hashed into a cache key, and the shape of a key. *)
Module CacheKeySpec.

(** [content], a line of three dashes, [prompt]. *)
Definition combined (content prompt : string) : string :=
  content +:+ PyStr.newline +:+ "---" +:+ PyStr.newline +:+ prompt.

Definition is_hex (c : ascii) : bool := PyStr.mem_char c "0123456789abcdef".

Definition is_byte (b : Z) : Prop := 0 <= b < 256.

Fixpoint all_chars (p : ascii -> bool) (s : string) : bool :=
  match s with
  | EmptyString => true
  | String c r => p c && all_chars p r
  end.

(** The value of a hexadecimal digit. *)
Definition unhex (c : ascii) : Z :=
  let n := Z.of_nat (nat_of_ascii c) in
  if n <? 58 then n - 48 else n - 87.

(** The text put between the content and the prompt. *)
Definition separator : string := PyStr.newline +:+ "---" +:+ PyStr.newline.

End CacheKeySpec.

(** The files a recursive walk meets, and the files that are kept. *)
Module WalkSpec.
Import FileAnalyzer.

(** [listed top tree root name]: the walk of the directory [tree], reached
    under the path [top], meets the file [name] in the directory of path
    [root]. *)
Inductive listed : string -> entry -> string -> string -> Prop :=
| listed_here top d es name :
    In (File name) es ->
    listed top (Dir d es) top name
| listed_below top d es sub cs root name :
    In (Dir sub cs) es ->
    listed (OsPath.join top sub) (Dir sub cs) root name ->
    listed top (Dir d es) root name.

(** Hidden: the name begins with a dot. *)
Definition hidden (name : string) : bool := PyStr.startswith name ".".

(** Matching: no extension is asked for, or the lowercased extension of
    the name is one of those asked for. *)
Definition matching (extensions : option (list string)) (name : string) : bool :=
  match extensions with
  | Some ((_ :: _) as exts) =>
      existsb (String.eqb (PyStr.lower (snd (OsPath.splitext name)))) exts
  | _ => true
  end.

Definition selected (extensions : option (list string)) (name : string) : bool :=
  negb (hidden name) && matching extensions name.

(** The paths kept from one triple of the walk. *)
Definition kept (extensions : option (list string))
    (triple : string * list string * list string) : list string :=
  map (OsPath.join triple.1.1) (List.filter (selected extensions) triple.2).

End WalkSpec.

(* ================================================================== *)
(** * The command-line program *)
(* ================================================================== *)

Module Main.

(** The arguments, as [parse_args] returns them. *)
Record Args := {
  arg_file : option string;
  arg_dir : option string;
  arg_repo : option string;
  arg_output : option string;
  arg_format : string;
  arg_model : string;
  arg_temperature : pyfloat;
  arg_max_tokens : Z;
  arg_api_base : option string;
  arg_branch : string;
  arg_commit_range : option string;
  arg_extensions : option string;
  arg_min_size : Z;
  arg_max_size : option Z;
  arg_workers : Z;
  arg_cache_dir : string;
  arg_no_cache : bool
}.

(** What the program reads from its process and file system besides the
    [world]: the environment variables after [load_dotenv], whether a
    directory can be created, the directory [mkdtemp] returns, the tree
    found at a directory path and the sizes of files. *)
Record Env := {
  OPENAI_API_KEY : option string;
  OPENAI_API_BASE : option string;
  makedirs : string -> bool;
  mkdtemp : string;
  tree_at : string -> FileAnalyzer.entry;
  sizes : gmap string Z
}.

(** A string option that holds in a condition: given and not empty. *)
Definition given (o : option string) : bool :=
  match o with
  | Some (String _ _) => true
  | _ => false
  end.

(** [CodeReviewer(config)]: the key must be set; the base URL in effect is
    that of the configuration, else that of the environment; the cache
    directory is created. *)
Definition init (env : Env) (cfg : CodeReviewConfig) : res (option string) :=
  if negb (given (OPENAI_API_KEY env)) then Raise "请设置OPENAI_API_KEY环境变量"
  else
    let base :=
      if given (api_base cfg) then api_base cfg
      else if given (OPENAI_API_BASE env) then OPENAI_API_BASE env
      else None in
    if makedirs env (cache_dir cfg) then Return base
    else Raise "makedirs".

(** How a run ends: the process exits with a status, or reaches the
    formatting of a result. *)
Inductive ending :=
| Exit (status : Z)
| RenderOne (result : dict)
| RenderBatch (result : CodeReviewer.BatchResult).

(** [sum(1 for arg in input_args if arg is not None)] *)
Definition count_inputs (args : Args) : Z :=
  (if bool_decide (arg_file args = None) then 0 else 1)
  + (if bool_decide (arg_dir args = None) then 0 else 1)
  + (if bool_decide (arg_repo args = None) then 0 else 1).

(** [shutil.rmtree(temp_cache)] on the cache files of the world. *)
Definition rmtree (dir : string) : M unit :=
  fun w =>
    (Return tt,
     set_cache_files w
       (filter (fun kv => PyStr.startswith kv.1 (dir +:+ "/") = false) (cache_files w))).

(** The branch of [main] for [--file]. *)
Definition run_file (cfg : CodeReviewConfig) (file : string) : M ending :=
  file_info <- get (fun w => FileAnalyzer.analyze_file (files w) file) ;;
  if has_key "error" file_info then ret (Exit 1)
  else
    match get_key "content" file_info with
    | Some (JStr content) =>
        result <- CodeReviewer.review_file cfg file content ;;
        ret (RenderOne result)
    | _ => raise "'content'"
    end.

(** The [extensions] of the [--dir] branch: the parts of [--extensions]
    between commas, stripped, when the option is given and not empty. *)
Definition extensions_of (args : Args) : option (list string) :=
  if given (arg_extensions args)
  then match arg_extensions args with
       | Some text => Some (map PyStr.strip (PyStr.split "," text))
       | None => None
       end
  else None.

(** The branch of [main] for [--dir]. *)
Definition run_dir (env : Env) (cfg : CodeReviewConfig) (args : Args) (dir : string)
    : M ending :=
  let file_paths := FileAnalyzer.find_files (tree_at env dir) dir (extensions_of args) in
  let file_paths :=
    if (0 <? arg_min_size args)
       || match arg_max_size args with
          | Some m => negb (m =? 0)
          | None => false
          end
    then FileAnalyzer.filter_files_by_size (sizes env) file_paths
           (arg_min_size args) (arg_max_size args)
    else file_paths in
  match file_paths with
  | [] => ret (Exit 0)
  | _ :: _ =>
      result <- CodeReviewer.batch_review_files cfg file_paths ;;
      ret (RenderBatch result)
  end.

(** The branch of [main] for [--repo]. *)
Definition run_repo (cfg : CodeReviewConfig) (args : Args) (repo : string) : M ending :=
  result <- CodeReviewer.review_git_diff cfg repo (arg_branch args)
              (arg_commit_range args) ;;
  ret (RenderOne result).

(** [main()] from the parsed arguments to the formatting of the result.
    [sys.exit] passes through [except Exception]; any exception ends the
    process with status 1; the temporary cache is removed at the end. *)
Definition main (env : Env) (args : Args) : M ending :=
  if negb (count_inputs args =? 1) then ret (Exit 2)
  else
    let cache := if arg_no_cache args then mkdtemp env else arg_cache_dir args in
    let base := if given (arg_api_base args) then arg_api_base args else None in
    outcome <-
      match new_config (arg_model args) (arg_temperature args) (arg_max_tokens args)
              base 3 2 (arg_workers args) cache with
      | inl _ => ret (Exit 1)
      | inr cfg =>
          match init env cfg with
          | Raise _ => ret (Exit 1)
          | Return _ =>
              r <- try (if given (arg_file args)
                        then run_file cfg (default EmptyString (arg_file args))
                        else if given (arg_dir args)
                        then run_dir env cfg args (default EmptyString (arg_dir args))
                        else if given (arg_repo args)
                        then run_repo cfg args (default EmptyString (arg_repo args))
                        else raise "result") ;;
              match r with
              | Return e => ret e
              | Raise _ => ret (Exit 1)
              end
          end
      end ;;
    (if arg_no_cache args then rmtree (mkdtemp env) else ret tt) ;;;
    ret outcome.

End Main.

(** How the outcome of the request that ends a call fixes its result. *)
Module ClientSpec.

Definition settles (o : api_outcome) (result : dict) : Prop :=
  o = Parsed result
  \/ (exists body, o = NotJson body /\ result = CodeReviewer.invalid_json_error)
  \/ (exists e, o = OtherError e /\ result = error_payload e).

End ClientSpec.

(** The diff specification and the prompt of [review_git_diff]. *)
Module GitSpec.

(** The commit range when one is given and not empty, else the branch
    compared with [HEAD]. *)
Definition diff_spec (branch : string) (commit_range : option string) : string :=
  match commit_range with
  | Some ((String _ _) as range) => range
  | _ => branch +:+ "..HEAD"
  end.

(** The format specification of the first field of the diff prompt whose
    specification is not empty: the description of [file_reviews], written
    in braces in the f-string (line 294). *)
Definition file_reviews_spec : string :=
  " 文件路径, " +:+ quoted "issues" +:+ ": 问题数量, "
  +:+ quoted "highlights" +:+ ": [亮点列表]".

Definition no_differences : dict := [("message", JStr "没有找到差异")].

(** The first character of a text is neither [a] nor [/]. *)
Definition starts_clean (s : string) : Prop :=
  match s with
  | EmptyString => True
  | String c _ => c <> "a"%char /\ c <> "/"%char
  end.

End GitSpec.

(** What the futures of a batch hold. *)
Module BatchSpec.

(** The task of a path raised. *)
Definition raised (future : string * res dict) : bool :=
  match future.2 with
  | Raise _ => true
  | Return _ => false
  end.

(** The result recorded for a future. *)
Definition recorded (outcome : res dict) : dict :=
  match outcome with
  | Return result => result
  | Raise e => error_payload e
  end.

(** The file can be read as text. *)
Definition readable (fs : gmap string file_read) (file_path : string) : bool :=
  match fs !! file_path with
  | Some (Text _ _) => true
  | _ => false
  end.

(** What the task of a path ends with: the error payload of the analysis
    for a file that cannot be read; for a readable file, the exception of
    the prompt of [review_file]. *)
Definition task (fs : gmap string file_read) (file_path : string) : res dict :=
  if readable fs file_path
  then Raise (invalid_format_specifier code_quality_spec)
  else Return (FileAnalyzer.analyze_file fs file_path).

End BatchSpec.

(** What a run of [main] leaves and shows. *)
Module MainSpec.
Import Main.

(** The cache directory of the run. *)
Definition cache_of (env : Env) (args : Args) : string :=
  if arg_no_cache args then mkdtemp env else arg_cache_dir args.

(** The clean-up at the end: with [--no-cache] the entries under the
    temporary directory are removed. *)
Definition cleaned (env : Env) (args : Args) (w : world) : world :=
  if arg_no_cache args
  then set_cache_files w
         (filter (fun kv => PyStr.startswith kv.1 (mkdtemp env +:+ "/") = false)
            (cache_files w))
  else w.

(** The run shows no review: it exits, or what it formats is the
    no-differences message or an error payload, or a batch in which every
    result is an error payload. *)
Definition shows_no_review (e : ending) : Prop :=
  match e with
  | Exit status => status = 0 \/ status = 1 \/ status = 2
  | RenderOne result =>
      result = GitSpec.no_differences \/ has_key "error" result = true
  | RenderBatch r =>
      1 <= CodeReviewer.total_files (CodeReviewer.summary r)
      /\ forall p result, CodeReviewer.file_reviews r !! p = Some result ->
                          has_key "error" result = true
  end.

(** The size of a path is known and within the bounds of the options. *)
Definition size_in_range (env : Env) (args : Args) (p : string) : Prop :=
  exists size, sizes env !! p = Some size
               /\ arg_min_size args <= size
               /\ (forall m, arg_max_size args = Some m -> size <= m).

(** Command lines that give one input and, for the others, the defaults of
    the parser. *)
Definition with_file (file : string) : Args :=
  {| arg_file := Some file; arg_dir := None; arg_repo := None; arg_output := None;
     arg_format := "json"; arg_model := "gpt-4o"; arg_temperature := Finite 2 10;
     arg_max_tokens := 4096; arg_api_base := None; arg_branch := "main";
     arg_commit_range := None; arg_extensions := None; arg_min_size := 0;
     arg_max_size := None; arg_workers := 2; arg_cache_dir := ".cache";
     arg_no_cache := false |}.

Definition with_dir (dir : string) (min_size : Z) (max_size : option Z) : Args :=
  {| arg_file := None; arg_dir := Some dir; arg_repo := None; arg_output := None;
     arg_format := "json"; arg_model := "gpt-4o"; arg_temperature := Finite 2 10;
     arg_max_tokens := 4096; arg_api_base := None; arg_branch := "main";
     arg_commit_range := None; arg_extensions := None; arg_min_size := min_size;
     arg_max_size := max_size; arg_workers := 2; arg_cache_dir := ".cache";
     arg_no_cache := false |}.

Definition with_repo (repo : string) : Args :=
  {| arg_file := None; arg_dir := None; arg_repo := Some repo; arg_output := None;
     arg_format := "json"; arg_model := "gpt-4o"; arg_temperature := Finite 2 10;
     arg_max_tokens := 4096; arg_api_base := None; arg_branch := "main";
     arg_commit_range := None; arg_extensions := None; arg_min_size := 0;
     arg_max_size := None; arg_workers := 2; arg_cache_dir := ".cache";
     arg_no_cache := false |}.

(** A process with a key, in which the directory [src] holds [a.py] of 120
    bytes and [notes.txt] of 0 bytes. *)
Definition small_project (key : option string) : Env :=
  {| OPENAI_API_KEY := key; OPENAI_API_BASE := None;
     makedirs := fun _ => true; mkdtemp := "/tmp/tmpcache";
     tree_at := fun _ => FileAnalyzer.Dir "src"
                           [FileAnalyzer.File "a.py"; FileAnalyzer.File "notes.txt"];
     sizes := {[ "src/a.py" := 120; "src/notes.txt" := 0 ]} |}.

End MainSpec.

(** Letter case in the extensions asked for. *)
Module CaseSpec.

(** An upper-case ASCII letter. *)
Definition is_upper (c : ascii) : bool :=
  let n := nat_of_ascii c in ((65 <=? n)%nat && (n <=? 90)%nat)%bool.

(** The text holds an upper-case ASCII letter. *)
Fixpoint has_upper (s : string) : bool :=
  match s with
  | EmptyString => false
  | String c r => is_upper c || has_upper r
  end.

End CaseSpec.

(* ================================================================== *)
(** * The sample module [example_code.py] *)
(* ================================================================== *)

Module ExampleCode.

(** The body of the loop of [process_data], on integers: the global
    [counter] advances, a positive item is doubled, another is kept. *)
Definition process_item (state : list Z * Z) (item : Z) : list Z * Z :=
  let '(result, counter) := state in
  let counter := counter + 1 in
  if 0 <? item then (result ++ [item * 2], counter)
  else (result ++ [item], counter).

(** [process_data(data)] from the value of the global [counter]: the list
    returned and the new value of [counter]. *)
Definition process_data (data : list Z) (counter : Z) : list Z * Z :=
  foldl process_item ([], counter) data.

End ExampleCode.

(* ================================================================== *)
(** * Theorems *)
(* ================================================================== *)

(* ================================================================== *)
(** * Checks of the library models on known values *)
(* ================================================================== *)

Example md5_empty : MD5.hexdigest "" = "d41d8cd98f00b204e9800998ecf8427e".
Proof. vm_compute. reflexivity. Qed.

Example md5_abc : MD5.hexdigest "abc" = "900150983cd24fb0d6963f7d28e17f72".
Proof. vm_compute. reflexivity. Qed.

Example md5_two_blocks :
  MD5.hexdigest "12345678901234567890123456789012345678901234567890123456789012345678901234567890"
  = "57edf4a22be3c955ac49da2e2107b67a".
Proof. vm_compute. reflexivity. Qed.

Example splitext_last_dot : OsPath.splitext "src/a.tar.GZ" = ("src/a.tar", ".GZ").
Proof. reflexivity. Qed.

Example splitext_leading_dot : OsPath.splitext "dir.d/.bashrc" = ("dir.d/.bashrc", "").
Proof. reflexivity. Qed.

Example strip_spaces : PyStr.strip "  x = 1 " = "x = 1".
Proof. reflexivity. Qed.

Example strip_wide_space :
  PyStr.strip (PyStr.of_bytes [227; 128; 128; 120; 194; 160]%nat) = "x".
Proof. reflexivity. Qed.

Example split_header :
  PyStr.split " " "diff --git a/x b/x" = ["diff"; "--git"; "a/x"; "b/x"].
Proof. reflexivity. Qed.

Example lstrip_chars_is_a_set : PyStr.lstrip_chars "a/" "a/api/x.py" = "pi/x.py".
Proof. reflexivity. Qed.

Example of_Z_values :
  PyStr.of_Z 3 = "3" /\ PyStr.of_Z 120 = "120" /\ PyStr.of_Z 0 = "0".
Proof. repeat split; reflexivity. Qed.

Example word_count_runs : PyStr.word_count " a  bc d" = 3.
Proof. reflexivity. Qed.

Example language_of_header : CodeReviewer._get_file_language "src/util.H" = Some "cpp".
Proof. reflexivity. Qed.

Example find_files_example :
  FileAnalyzer.find_files
    (FileAnalyzer.Dir "proj"
       [ FileAnalyzer.File "a.PY"; FileAnalyzer.File ".env";
         FileAnalyzer.Dir ".git" [ FileAnalyzer.File "hook.py" ];
         FileAnalyzer.Dir "doc" [ FileAnalyzer.File "x.md" ] ])
    "proj" (Some [".py"])
  = ["proj/a.PY"; "proj/.git/hook.py"].
Proof. reflexivity. Qed.

(* ================================================================== *)
(** * Line classification *)
(* ================================================================== *)

Section LineClassification.
Import FileAnalyzer LineSpec.

Lemma split_once_index sep s a b :
  PyStr.split_once sep s = Some (a, b) ->
  index_of sep s = Some (String.length a)
  /\ b = PyStr.skip (String.length a + String.length sep) s.
Proof.
  revert a b. induction s as [|c r IH]; intros a b; cbn [PyStr.split_once index_of].
  - destruct (String.prefix sep EmptyString); [|done].
    intros [= <- <-]. done.
  - destruct (String.prefix sep (String c r)).
    + intros [= <- <-]. done.
    + destruct (PyStr.split_once sep r) as [[a' b']|]; [|done].
      intros [= <- <-]. destruct (IH a' b' eq_refl) as [-> ->]. done.
Qed.

Lemma contains_split_once sep s :
  PyStr.contains sep s = true -> PyStr.split_once sep s <> None.
Proof.
  induction s as [|c r IH]; cbn [PyStr.contains PyStr.split_once].
  - destruct (String.prefix sep EmptyString); [done|]. simpl. done.
  - destruct (String.prefix sep (String c r)); [done|]. simpl.
    intros H. specialize (IH H). destruct (PyStr.split_once sep r) as [[??]|]; done.
Qed.

Lemma count_line_classify st line :
  count_line st line =
  bump st (fst (classify (in_multi_comment st) line))
          (snd (classify (in_multi_comment st) line)).
Proof.
  destruct st as [code comment blank inside].
  unfold count_line, classify, single_comment_markers,
    multi_comment_start, multi_comment_end.
  cbn [in_multi_comment existsb].
  destruct (String.eqb (PyStr.strip line) EmptyString); [done|].
  destruct inside.
  { destruct (PyStr.contains "*/" (PyStr.strip line)); done. }
  rewrite orb_false_r.
  destruct (PyStr.startswith (PyStr.strip line) "#" || PyStr.startswith (PyStr.strip line) "//");
    [done|].
  destruct (PyStr.contains "/*" (PyStr.strip line)) eqn:Hc; [|done].
  unfold terminator_after_starter.
  destruct (PyStr.split_once "/*" (PyStr.strip line)) as [[a rest]|] eqn:Hs.
  - apply split_once_index in Hs as [-> ->]. cbn [String.length].
    destruct (PyStr.contains "*/" _); done.
  - by apply contains_split_once in Hc.
Qed.

Lemma count_bump k st k' inside :
  (LineSpec.count k [k'] = if kind_eqb k k' then 1 else 0)
  /\ code_lines (bump st k' inside) = code_lines st + LineSpec.count Code [k']
  /\ comment_lines (bump st k' inside) = comment_lines st + LineSpec.count Comment [k']
  /\ blank_lines (bump st k' inside) = blank_lines st + LineSpec.count Blank [k']
  /\ in_multi_comment (bump st k' inside) = inside.
Proof. destruct st, k, k'; unfold LineSpec.count; cbn; repeat split; lia. Qed.

Lemma count_cons k k' ks :
  LineSpec.count k (k' :: ks) = LineSpec.count k [k'] + LineSpec.count k ks.
Proof.
  unfold LineSpec.count. cbn [List.filter].
  destruct (kind_eqb k k'); cbn [length]; lia.
Qed.

Lemma foldl_count_line lines : forall st,
  let c := foldl count_line st lines in
  let ks := classify_all (in_multi_comment st) lines in
  code_lines c = code_lines st + LineSpec.count Code ks
  /\ comment_lines c = comment_lines st + LineSpec.count Comment ks
  /\ blank_lines c = blank_lines st + LineSpec.count Blank ks
  /\ length ks = length lines.
Proof.
  induction lines as [|line rest IH]; intros st; cbn zeta.
  - unfold LineSpec.count. cbn. repeat split; lia.
  - cbn [foldl classify_all]. rewrite count_line_classify.
    destruct (classify (in_multi_comment st) line) as [k inside] eqn:Hk.
    cbn [fst snd].
    specialize (IH (bump st k inside)). cbn zeta in IH.
    destruct (count_bump Code st k inside) as (_ & Hcode & Hcomment & Hblank & Hin).
    rewrite Hin in IH. destruct IH as (IH1 & IH2 & IH3 & IH4).
    rewrite (count_cons Code k), (count_cons Comment k), (count_cons Blank k).
    cbn [length].
    repeat split; lia.
Qed.

End LineClassification.

(** C7.  [analyze_file] classifies every line in one pass with one flag, as
    the specification words it: blank if empty after trimming; else comment
    inside a block comment, the flag cleared by the terminator; else comment
    if the trimmed line starts with [#] or [//]; else comment if it contains
    the block starter, the flag set unless the terminator follows the
    starter; else code.  The counters are the numbers of lines of each kind,
    and the five-line file of the specification has 3 comment lines, 1 blank
    line and 1 code line. *)
Theorem analyze_file_classifies_lines :
  (forall lines : list string,
     let c := FileAnalyzer.count_lines lines in
     let ks := LineSpec.classify_all false lines in
     length ks = length lines
     /\ FileAnalyzer.blank_lines c = LineSpec.count LineSpec.Blank ks
     /\ FileAnalyzer.comment_lines c = LineSpec.count LineSpec.Comment ks
     /\ FileAnalyzer.code_lines c = LineSpec.count LineSpec.Code ks)
  /\ (forall (path content : string) (size : Z),
        let info := FileAnalyzer.analyze_file {[ path := Text content size ]} path in
        let ks := LineSpec.classify_all false (PyStr.split "010" content) in
        get_key "blank_lines" info = Some (JInt (LineSpec.count LineSpec.Blank ks))
        /\ get_key "comment_lines" info = Some (JInt (LineSpec.count LineSpec.Comment ks))
        /\ get_key "code_lines" info = Some (JInt (LineSpec.count LineSpec.Code ks)))
  /\ (let info :=
        FileAnalyzer.analyze_file
          {[ "f.py" := Text (PyStr.join PyStr.newline
                               ["# header"; ""; "x = 1"; "/* c"; "end */"]) 27 ]}
          "f.py" in
      get_key "line_count" info = Some (JInt 5)
      /\ get_key "comment_lines" info = Some (JInt 3)
      /\ get_key "blank_lines" info = Some (JInt 1)
      /\ get_key "code_lines" info = Some (JInt 1))
  /\ FileAnalyzer.count_lines ["# header"; ""; "x = 1"; "/* c"; "end */"]
     = FileAnalyzer.Counters 1 3 1 false
  /\ LineSpec.classify_all false ["# header"; ""; "x = 1"; "/* c"; "end */"]
     = [LineSpec.Comment; LineSpec.Blank; LineSpec.Code; LineSpec.Comment; LineSpec.Comment].
Proof.
  split; [|split; [|split; [|split]]]; [| |by vm_compute| |].
  - intros lines c ks.
    destruct (foldl_count_line lines (FileAnalyzer.Counters 0 0 0 false))
      as (H1 & H2 & H3 & H4).
    cbn [FileAnalyzer.code_lines FileAnalyzer.comment_lines FileAnalyzer.blank_lines FileAnalyzer.in_multi_comment] in H1, H2, H3, H4.
    subst c ks. unfold FileAnalyzer.count_lines.
    repeat split; [done|lia..].
  - intros path content size info ks. subst info.
    unfold FileAnalyzer.analyze_file. rewrite lookup_singleton_eq.
    destruct (foldl_count_line (PyStr.split "010" content) (FileAnalyzer.Counters 0 0 0 false))
      as (H1 & H2 & H3 & H4).
    cbn [FileAnalyzer.code_lines FileAnalyzer.comment_lines FileAnalyzer.blank_lines FileAnalyzer.in_multi_comment] in H1, H2, H3, H4.
    unfold FileAnalyzer.count_lines. subst ks.
    cbn [get_key List.find fst snd String.eqb Ascii.eqb Bool.eqb fmap option_fmap option_map].
    rewrite H1, H2, H3. rewrite !Z.add_0_l. done.
  - vm_compute. reflexivity.
  - vm_compute. reflexivity.
Qed.

(* ================================================================== *)
(** * Configuration *)
(* ================================================================== *)

Section Configuration.
Import ConfigSpec.

Lemma temperature_check v :
  int_le_float 0 v && float_le_int v 2 = true <-> temperature_in_bounds v.
Proof.
  unfold temperature_in_bounds. split.
  - destruct v as [num den| | |]; cbn [int_le_float float_le_int andb]; try done.
    rewrite andb_true_iff, !Z.leb_le. intros [H1 H2].
    exists num, den. repeat split; lia.
  - intros (num & den & -> & H1 & H2). cbn [int_le_float float_le_int].
    rewrite andb_true_iff, !Z.leb_le. lia.
Qed.

Lemma new_config_accepts m t mt ab rc rd cw cd :
  in_bounds t rc cw ->
  new_config m t mt ab rc rd cw cd = inr (Config m t mt ab rc rd cw cd).
Proof.
  intros (Ht & Hr & Hc). apply temperature_check in Ht.
  unfold new_config, validate_temperature, validate_retry_count,
    validate_concurrent_workers.
  rewrite Ht. cbn [negb].
  destruct (Z.ltb_spec rc 0); [lia|]. destruct (Z.ltb_spec cw 1); [lia|]. done.
Qed.

Lemma new_config_rejects m t mt ab rc rd cw cd :
  ~ in_bounds t rc cw ->
  exists errs, errs <> [] /\ new_config m t mt ab rc rd cw cd = inl errs.
Proof.
  intros Hn.
  unfold new_config, validate_temperature, validate_retry_count,
    validate_concurrent_workers.
  destruct (int_le_float 0 t && float_le_int t 2) eqn:Ht; cbn [negb].
  - apply temperature_check in Ht.
    destruct (Z.ltb_spec rc 0); [eexists; split; [|reflexivity]; done|].
    destruct (Z.ltb_spec cw 1); [eexists; split; [|reflexivity]; done|].
    destruct Hn. repeat split; [done|lia..].
  - destruct (rc <? 0), (cw <? 1); eexists; (split; [|reflexivity]); done.
Qed.

End Configuration.

(** C9.  Constructing a [CodeReviewConfig] with a temperature outside the
    closed interval from 0 to 2, a negative retry count or fewer than one
    worker fails with validation errors and builds no object; with every
    value inside the bounds the object holds exactly the values given.  A
    value is never replaced by another one. *)
Theorem config_validation (m : string) (t : pyfloat) (mt : Z) (ab : option string)
    (rc rd cw : Z) (cd : string) :
  (ConfigSpec.in_bounds t rc cw <->
     new_config m t mt ab rc rd cw cd = inr (Config m t mt ab rc rd cw cd))
  /\ (~ ConfigSpec.in_bounds t rc cw <->
      exists errs, errs <> [] /\ new_config m t mt ab rc rd cw cd = inl errs)
  /\ (forall cfg, new_config m t mt ab rc rd cw cd = inr cfg ->
        cfg = Config m t mt ab rc rd cw cd).
Proof.
  assert (Hdec : ConfigSpec.in_bounds t rc cw \/ ~ ConfigSpec.in_bounds t rc cw).
  { unfold ConfigSpec.in_bounds.
    destruct (int_le_float 0 t && float_le_int t 2) eqn:Ht.
    - apply temperature_check in Ht.
      destruct (Z_le_dec 0 rc); [|right; tauto].
      destruct (Z_le_dec 1 cw); [|right; tauto]. by left.
    - right. intros (H & _). apply temperature_check in H. congruence. }
  split; [|split].
  - split; [apply new_config_accepts|].
    intros Heq. destruct Hdec as [|Hn]; [done|].
    destruct (new_config_rejects m t mt ab rc rd cw cd Hn) as (errs & _ & He).
    congruence.
  - split; [apply new_config_rejects|].
    intros (errs & _ & He) Hin.
    rewrite (new_config_accepts m t mt ab rc rd cw cd Hin) in He. done.
  - intros cfg Heq. destruct Hdec as [Hin|Hn].
    + rewrite (new_config_accepts m t mt ab rc rd cw cd Hin) in Heq. congruence.
    + destruct (new_config_rejects m t mt ab rc rd cw cd Hn) as (errs & _ & He).
      congruence.
Qed.

(* ================================================================== *)
(** * Bounded retries with exponential backoff *)
(* ================================================================== *)

Section Retries.
Import CodeReviewer RetrySpec.

Variable cfg : CodeReviewConfig.
Variable msgs : messages.

Lemma after_0 w : after w 0 [] = w.
Proof.
  destruct w. unfold after, set_slept, set_requests. cbn.
  by rewrite Nat.add_0_r, app_nil_r.
Qed.

Lemma after_after w j k l1 l2 :
  after (after w j l1) k l2 = after w (j + k) (l1 ++ l2).
Proof.
  destruct w. unfold after, set_slept, set_requests. cbn.
  by rewrite Nat.add_assoc, app_assoc.
Qed.

Lemma after_fields w k l :
  requests (after w k l) = (requests w + k)%nat
  /\ slept (after w k l) = slept w ++ l
  /\ cache_files (after w k l) = cache_files w
  /\ cache_writable (after w k l) = cache_writable w
  /\ service (after w k l) = service w
  /\ files (after w k l) = files w.
Proof. by destruct w. Qed.

Lemma schedule_from_S a k :
  schedule_from cfg a (S k) = backoff cfg (Z.of_nat a) :: schedule_from cfg (S a) k.
Proof.
  unfold schedule_from. cbn [seq map]. rewrite Nat.add_0_r. f_equal.
  rewrite <- seq_shift, map_map. apply map_ext. intros i. f_equal. lia.
Qed.

Lemma schedule_from_length a k : length (schedule_from cfg a k) = k.
Proof. unfold schedule_from. by rewrite length_map, length_seq. Qed.

Lemma backoff_nonneg i : 0 <= retry_delay cfg -> 0 <= backoff cfg i.
Proof. intros H. unfold backoff. pose proof (Z.pow_nonneg 2 i). nia. Qed.



(** A length that [time.sleep] accepts is not negative and converts. *)
Lemma sleep_error_none refused n secs :
  sleep_error refused n secs = None -> 0 <= secs <= SLEEP_MAX.
Proof.
  unfold sleep_error.
  destruct (Z.ltb_spec secs (- SLEEP_MAX)); [done|].
  destruct (Z.ltb_spec SLEEP_MAX secs); [done|]. cbn [orb].
  destruct (Z.ltb_spec secs 0); [done|]. lia.
Qed.

(** An accepted first wait shows that the delay is not negative. *)
Lemma waits_accepted_delay w k :
  (0 < k)%nat -> waits_accepted cfg w k -> 0 <= retry_delay cfg.
Proof.
  intros Hk Hacc. specialize (Hacc 0%nat Hk). unfold wait_error in Hacc.
  apply sleep_error_none in Hacc. unfold backoff in Hacc. cbn in Hacc. lia.
Qed.

Lemma after_sleep_refused w k l :
  sleep_refused (after w k l) = sleep_refused w.
Proof. by destruct w. Qed.

(** The sleep of an iteration, in the world its request has left. *)
Lemma sleep_after_request secs w :
  sleep secs (set_requests w (S (requests w)))
  = match sleep_error (sleep_refused w) (length (slept w)) secs with
    | Some e => (Raise e, after w 1 [])
    | None => (Return tt, after w 1 [secs])
    end.
Proof.
  unfold sleep. destruct w. unfold after, set_slept, set_requests. cbn.
  rewrite Nat.add_1_r, app_nil_r. by destruct (sleep_error _ _ _).
Qed.

(** A transient failure costs one request; then the wait is slept and the
    loop goes on with the next attempt, or the exception of [time.sleep]
    leaves the call. *)
Lemma attempts_transient_iteration k a w :
  transient (outcome_at w msgs 0) ->
  attempts cfg msgs (S k) a w
  = match sleep_error (sleep_refused w) (length (slept w)) (backoff cfg a) with
    | Some e => (Raise e, after w 1 [])
    | None => attempts cfg msgs k (a + 1) (after w 1 [backoff cfg a])
    end.
Proof.
  intros Ht. unfold outcome_at in Ht. rewrite Nat.add_0_r in Ht.
  cbn [attempts]. unfold bind at 1, create. fold (backoff cfg a).
  destruct Ht as [-> | [reason ->]]; unfold bind; rewrite sleep_after_request;
    by destruct (sleep_error _ _ _).
Qed.




Lemma sleep_fields secs w r w' :
  sleep secs w = (r, w') ->
  requests w' = requests w
  /\ cache_files w' = cache_files w
  /\ cache_writable w' = cache_writable w.
Proof.
  unfold sleep. destruct (sleep_error _ _ _); intros [= <- <-]; by destruct w.
Qed.

(** The loop issues at most [remaining] requests, and at least one when
    it has an iteration to run; it never touches the cache. *)
Lemma attempts_requests remaining : forall a w r w',
  attempts cfg msgs remaining a w = (r, w') ->
  (requests w <= requests w' <= requests w + remaining)%nat
  /\ ((0 < remaining)%nat -> (requests w < requests w')%nat)
  /\ cache_files w' = cache_files w
  /\ cache_writable w' = cache_writable w.
Proof.
  induction remaining as [|k IH]; intros a w r w'.
  - cbn. intros [= <- <-]. repeat split; lia.
  - cbn [attempts]. unfold bind at 1, create, ret.
    assert (Hw1 : forall n, requests (set_requests w n) = n
                  /\ cache_files (set_requests w n) = cache_files w
                  /\ cache_writable (set_requests w n) = cache_writable w)
      by (by destruct w).
    destruct (Hw1 (S (requests w))) as (Hr1 & Hc1 & Hcw1).
    assert (Hloop :
      bind (sleep (retry_delay cfg * 2 ^ a))
        (fun _ => attempts cfg msgs k (a + 1)) (set_requests w (S (requests w)))
      = (r, w') ->
      (requests w <= requests w' <= requests w + S k)%nat
      /\ ((0 < S k)%nat -> (requests w < requests w')%nat)
      /\ cache_files w' = cache_files w
      /\ cache_writable w' = cache_writable w).
    { unfold bind.
      destruct (sleep (retry_delay cfg * 2 ^ a) (set_requests w (S (requests w))))
        as [[[]|e] w2] eqn:Hs; apply sleep_fields in Hs as (Hr2 & Hc2 & Hcw2).
      - intros H. apply IH in H as (Hle & _ & Hc & Hcw).
        rewrite Hr2, Hr1 in Hle. rewrite Hc, Hcw, Hc2, Hcw2, Hc1, Hcw1.
        repeat split; lia.
      - intros [= <- <-]. rewrite Hr2, Hc2, Hcw2, Hr1, Hc1, Hcw1. repeat split; lia. }
    destruct (service w (requests w) msgs); try exact Hloop;
      intros [= <- <-]; rewrite Hr1, Hc1, Hcw1; repeat split; lia.
Qed.

(** What stops the loop at its first iteration. *)
Lemma attempts_stop k a w :
  (forall result, outcome_at w msgs 0 = Parsed result ->
     attempts cfg msgs (S k) a w = (Return result, after w 1 []))
  /\ (forall body, outcome_at w msgs 0 = NotJson body ->
       attempts cfg msgs (S k) a w = (Return invalid_json_error, after w 1 []))
  /\ (forall e, outcome_at w msgs 0 = OtherError e ->
       attempts cfg msgs (S k) a w = (Return (error_payload e), after w 1 [])).
Proof.
  unfold outcome_at. rewrite Nat.add_0_r.
  assert (Hw : set_requests w (S (requests w)) = after w 1 []).
  { destruct w. unfold after, set_slept, set_requests. cbn.
    by rewrite Nat.add_1_r, app_nil_r. }
  cbn [attempts]. unfold bind, create, ret.
  repeat split; intros ? ->; by rewrite Hw.
Qed.


End Retries.

Section Reviews.
Import CodeReviewer RetrySpec.

Variable cfg : CodeReviewConfig.

(** On a miss, [review_with_prompt] is the service call followed by the
    conditional store. *)
Lemma review_with_prompt_miss content prompt sys w :
  cache_miss cfg (_get_cache_key content prompt) w ->
  review_with_prompt cfg content prompt sys w
  = match _call_openai_api cfg (CodeReviewer.chat sys prompt) w with
    | (Return result, w') =>
        if negb (has_key "error" result)
        then (Return result,
              if cache_writable w'
              then set_cache_files w'
                     (<[cache_path cfg (_get_cache_key content prompt) := Stored result]>
                        (cache_files w'))
              else w')
        else (Return result, w')
    | (Raise e, w') => (Raise e, w')
    end.
Proof.
  unfold cache_miss, review_with_prompt, _get_cached_result, bind.
  intros Hmiss.
  assert (Hcall : forall w0,
    match _call_openai_api cfg (CodeReviewer.chat sys prompt) w0 with
    | (Return a, w') =>
        (let (r, w'0) :=
           (if negb (has_key "error" a)
            then _cache_result cfg (_get_cache_key content prompt) a
            else ret ()) w' in
         match r with
         | Return _ => ret a w'0
         | Raise e => (Raise e, w'0)
         end)
    | (Raise e, w') => (Raise e, w')
    end
    = match _call_openai_api cfg (CodeReviewer.chat sys prompt) w0 with
      | (Return result, w') =>
          if negb (has_key "error" result)
          then (Return result,
                if cache_writable w'
                then set_cache_files w'
                       (<[cache_path cfg (_get_cache_key content prompt) := Stored result]>
                          (cache_files w'))
                else w')
          else (Return result, w')
      | (Raise e, w') => (Raise e, w')
      end).
  { intros w0. destruct (_call_openai_api _ _ w0) as [[result|e] w']; [|done].
    unfold _cache_result, ret.
    destruct (negb (has_key "error" result)); [|done].
    destruct (cache_writable w'); done. }
  destruct (cache_files w !! cache_path cfg (_get_cache_key content prompt))
    as [[[|kv result]|]|]; try done; apply Hcall.
Qed.

(** On a hit, the stored result is returned and nothing else happens. *)
Lemma review_with_prompt_hit content prompt sys w kv result :
  cache_files w !! cache_path cfg (_get_cache_key content prompt)
    = Some (Stored (kv :: result)) ->
  review_with_prompt cfg content prompt sys w = (Return (kv :: result), w).
Proof.
  unfold review_with_prompt, _get_cached_result, bind. intros ->. reflexivity.
Qed.

(** A miss with at least one attempt allowed reaches the service. *)
Lemma review_with_prompt_miss_requests content prompt sys w :
  cache_miss cfg (_get_cache_key content prompt) w ->
  (0 < Z.to_nat (retry_count cfg))%nat ->
  (requests w < requests (review_with_prompt cfg content prompt sys w).2)%nat.
Proof.
  intros Hmiss Hn. rewrite review_with_prompt_miss by done.
  unfold _call_openai_api.
  destruct (attempts cfg (CodeReviewer.chat sys prompt) (Z.to_nat (retry_count cfg)) 0 w)
    as [r w'] eqn:Hrun.
  apply attempts_requests in Hrun as (_ & Hlt & _ & _). specialize (Hlt Hn).
  destruct r as [result|e]; [|done].
  destruct (negb (has_key "error" result)); [|done].
  destruct (cache_writable w'); [|done]. by destruct w'.
Qed.

End Reviews.




(* ================================================================== *)
(** * Single-file review and its cache *)
(* ================================================================== *)

Section ReviewFile.
Import CodeReviewer RetrySpec.

(** The construction of the prompt raises, whatever the file. *)
Lemma review_file_prompt_raises file_path language file_content language_prompt :
  fstring (review_file_prompt file_path language file_content language_prompt)
  = Raise (invalid_format_specifier code_quality_spec).
Proof. vm_compute. reflexivity. Qed.

Lemma review_file_raises cfg file_path file_content w :
  review_file cfg file_path file_content w
  = (Raise (invalid_format_specifier code_quality_spec), w).
Proof.
  unfold review_file, bind, lift. by rewrite review_file_prompt_raises.
Qed.

(** The cache round trip of the statements after the prompt: a result
    that has no error field and is not empty is stored by the first
    review, and the second review returns it from the cache without any
    request. *)
Lemma review_with_prompt_round_trip cfg content prompt sys w kv result w1 :
  cache_miss cfg (_get_cache_key content prompt) w ->
  cache_writable w = true ->
  _call_openai_api cfg (CodeReviewer.chat sys prompt) w = (Return (kv :: result), w1) ->
  has_key "error" (kv :: result) = false ->
  let first := review_with_prompt cfg content prompt sys w in
  let second := review_with_prompt cfg content prompt sys first.2 in
  first.1 = Return (kv :: result)
  /\ second = (Return (kv :: result), first.2)
  /\ cache_files first.2 !! cache_path cfg (_get_cache_key content prompt)
     = Some (Stored (kv :: result)).
Proof.
  intros Hmiss Hw Hcall Herr first second. subst second first.
  rewrite review_with_prompt_miss by done. rewrite Hcall, Herr. cbn [negb fst snd].
  unfold _call_openai_api in Hcall.
  apply attempts_requests in Hcall as (_ & _ & _ & Hcw). rewrite Hcw, Hw.
  assert (Hl : cache_files
                 (set_cache_files w1
                    (<[cache_path cfg (_get_cache_key content prompt) := Stored (kv :: result)]>
                       (cache_files w1)))
               !! cache_path cfg (_get_cache_key content prompt)
               = Some (Stored (kv :: result))).
  { destruct w1. cbn. apply lookup_insert_eq. }
  split; [done|]. split; [|done].
  by apply review_with_prompt_hit.
Qed.

End ReviewFile.

(** C3 (the code departs from the claim).  [review_file] raises
    [ValueError] while it formats its prompt, for every path, content and
    world, and leaves the world as it was: no result is returned, stored or
    found again.  And in the statements that follow the prompt, a stored
    result that is an empty object counts as a miss: when the service
    answers with the empty object, the first review stores it and the
    second review contacts the service again. *)
Theorem review_file_twice_contacts_service :
  (forall cfg file_path file_content w,
     CodeReviewer.review_file cfg file_path file_content w
     = (Raise (invalid_format_specifier code_quality_spec), w))
  /\ (let w0 := Scenario.fresh (Scenario.always (Parsed [])) in
      let first := CodeReviewer.review_with_prompt default_config "x = 1" "review" "expert" w0 in
      let second :=
        CodeReviewer.review_with_prompt default_config "x = 1" "review" "expert" first.2 in
      first.1 = Return []
      /\ cache_files first.2
           !! CodeReviewer.cache_path default_config
                (CodeReviewer._get_cache_key "x = 1" "review")
         = Some (Stored [])
      /\ requests first.2 = 1%nat
      /\ second.1 = Return []
      /\ requests second.2 = 2%nat).
Proof.
  split; [apply review_file_raises|].
  vm_compute. repeat split; reflexivity.
Qed.

(* ================================================================== *)
(** * Batch review *)
(* ================================================================== *)

Section Batch.
Import CodeReviewer.

(** An unreadable file makes the task return an error payload: the task
    does not raise. *)
Lemma review_file_wrapper_unreadable cfg file_path w :
  has_key "error" (FileAnalyzer.analyze_file (files w) file_path) = true ->
  _review_file_wrapper cfg file_path w
  = (Return (FileAnalyzer.analyze_file (files w) file_path), w).
Proof.
  intros H. unfold _review_file_wrapper, bind, get. by rewrite H.
Qed.

(** A readable file makes the task raise, since [review_file] does. *)
Lemma review_file_wrapper_readable cfg file_path content size w :
  files w !! file_path = Some (Text content size) ->
  _review_file_wrapper cfg file_path w
  = (Raise (invalid_format_specifier code_quality_spec), w).
Proof.
  intros H. unfold _review_file_wrapper, bind, get, FileAnalyzer.analyze_file.
  rewrite H. cbn [has_key existsb fst String.eqb Ascii.eqb Bool.eqb orb].
  cbn [get_key List.find fst snd String.eqb Ascii.eqb Bool.eqb fmap option_fmap option_map].
  apply review_file_raises.
Qed.

End Batch.

(** C1 (the code departs from the claim).  A batch made of one missing
    file returns its error payload and a summary that counts it as a
    success: [failed_reviews] is 0 and [failed_files] is empty.  In a batch
    of a readable file and a missing one, both results are error payloads,
    and the file listed as failed is the readable one. *)
Theorem batch_counts_unreadable_file_as_success :
  (let w := Scenario.fresh (Scenario.always (Parsed [("summary", JStr "fine")])) in
   let run := CodeReviewer.batch_review_files default_config ["missing.py"] w in
   exists r, run.1 = Return r
     /\ CodeReviewer.file_reviews r !! "missing.py"
        = Some (error_payload "文件 missing.py 不存在")
     /\ size (CodeReviewer.file_reviews r) = 1%nat
     /\ CodeReviewer.summary r
        = CodeReviewer.Summary 1 1 0 [] "2024-01-01T00:00:00")
  /\ (let w := World {[ "a.py" := Text "x = 1" 5 ]} ∅ true
                 (Scenario.always (Parsed [("summary", JStr "fine")]))
                 0 [] "2024-01-01T00:00:00" (fun _ _ => Diff EmptyString) in
      let run := CodeReviewer.batch_review_files default_config ["a.py"; "missing.py"] w in
      exists r, run.1 = Return r
        /\ CodeReviewer.file_reviews r !! "missing.py"
           = Some (error_payload "文件 missing.py 不存在")
        /\ CodeReviewer.file_reviews r !! "a.py"
           = Some (error_payload (invalid_format_specifier code_quality_spec))
        /\ size (CodeReviewer.file_reviews r) = 2%nat
        /\ CodeReviewer.summary r
           = CodeReviewer.Summary 2 1 1 ["a.py"] "2024-01-01T00:00:00"
        /\ requests run.2 = 0%nat).
Proof.
  split.
  - eexists. vm_compute. repeat split; reflexivity.
  - eexists. vm_compute. repeat split; reflexivity.
Qed.

(* ================================================================== *)
(** * Changed files of a diff *)
(* ================================================================== *)

Section ChangedFiles.
Import CodeReviewer.

Lemma split_without c s :
  PyStr.mem_char c s = false -> PyStr.split c s = [s].
Proof.
  induction s as [|x r IH]; [done|]. cbn [PyStr.mem_char PyStr.split].
  intros [Hx Hr]%orb_false_iff. rewrite (IH Hr).
  rewrite Ascii.eqb_sym, Hx. done.
Qed.

Lemma split_at_first c p rest :
  PyStr.mem_char c p = false ->
  PyStr.split c (p +:+ String c rest) = p :: PyStr.split c rest.
Proof.
  induction p as [|x r IH].
  - intros _. change (EmptyString +:+ String c rest) with (String c rest).
    cbn [PyStr.split]. by rewrite Ascii.eqb_refl.
  - cbn [PyStr.mem_char]. intros [Hx Hr]%orb_false_iff.
    change (String x r +:+ String c rest) with (String x (r +:+ String c rest)).
    cbn [PyStr.split]. rewrite (IH Hr), Ascii.eqb_sym, Hx. done.
Qed.

Lemma mem_char_app c s1 s2 :
  PyStr.mem_char c (s1 +:+ s2) = PyStr.mem_char c s1 || PyStr.mem_char c s2.
Proof.
  induction s1 as [|x r IH]; [done|].
  change (String x r +:+ s2) with (String x (r +:+ s2)).
  cbn [PyStr.mem_char]. by rewrite IH, orb_assoc.
Qed.

(** The header line of a file [p] whose name has no space: the token
    taken is the new-file path, and stripping the characters [a] and [/]
    from its left removes nothing, since it starts with [b]. *)
Lemma changed_files_header p :
  PyStr.mem_char " " p = false ->
  PyStr.mem_char "010" p = false ->
  changed_files ("diff --git a/" +:+ p +:+ " b/" +:+ p) = Return ["b/" +:+ p].
Proof.
  intros Hsp Hnl. unfold changed_files.
  rewrite split_without.
  2:{ rewrite !mem_char_app, Hnl. reflexivity. }
  cbn [foldl]. unfold changed_files_step.
  change (PyStr.startswith ("diff --git a/" +:+ p +:+ " b/" +:+ p) "diff --git") with true.
  cbn iota.
  change ("diff --git a/" +:+ p +:+ " b/" +:+ p)
    with ("diff" +:+ String " " ("--git" +:+ String " "
            (("a/" +:+ p) +:+ String " " ("b/" +:+ p)))).
  rewrite !split_at_first; [|by cbn; rewrite ?Hsp..].
  rewrite split_without by (by cbn; rewrite ?Hsp).
  cbn [length Nat.leb lookup list_lookup].
  reflexivity.
Qed.

End ChangedFiles.

(** C2 (the code departs from the claim).  For the header line of a
    changed file the extraction takes the fourth token, the new-file path
    [b/...], and strips the characters [a] and [/] from its left, which
    removes nothing: the list holds [b/src/app.py], not the bare path
    [src/app.py].  A header of exactly three tokens raises [IndexError]. *)
Theorem changed_files_keeps_prefix :
  CodeReviewer.changed_files
    (PyStr.join PyStr.newline
       [ "diff --git a/src/app.py b/src/app.py";
         "index 83db48f..bf269f4 100644";
         "--- a/src/app.py";
         "+++ b/src/app.py";
         "@@ -1 +1 @@";
         "-x = 1";
         "+x = 2" ])
  = Return ["b/src/app.py"]
  /\ CodeReviewer.changed_files "diff --git a/src/app.py b/src/app.py"
     <> Return ["src/app.py"]
  /\ CodeReviewer.changed_files "diff --git a/src/app.py"
     = Raise "list index out of range".
Proof.
  split; [vm_compute; reflexivity|]. split; [|vm_compute; reflexivity].
  vm_compute. discriminate.
Qed.

(* ================================================================== *)
(** * The cache key *)
(* ================================================================== *)

Section CacheKey.
Import CacheKeySpec.

Lemma le_bytes_spec n x :
  length (MD5.le_bytes n x) = n /\ Forall is_byte (MD5.le_bytes n x).
Proof.
  unfold MD5.le_bytes. split.
  - by rewrite length_map, length_seq.
  - apply Forall_forall. intros b Hb%list_elem_of_In.
    apply in_map_iff in Hb as [k [<- _]].
    unfold is_byte. apply Z.mod_pos_bound. lia.
Qed.

Lemma digest_spec msg :
  length (MD5.digest msg) = 16%nat /\ Forall is_byte (MD5.digest msg).
Proof.
  unfold MD5.digest. destruct (MD5.digest_state msg) as [a b c d].
  destruct (le_bytes_spec 4 a) as [La Fa], (le_bytes_spec 4 b) as [Lb Fb],
    (le_bytes_spec 4 c) as [Lc Fc], (le_bytes_spec 4 d) as [Ld Fd].
  split.
  - rewrite !length_app. lia.
  - by repeat apply Forall_app_2.
Qed.

Lemma nibble_cases x :
  0 <= x < 16 ->
  x = 0 \/ x = 1 \/ x = 2 \/ x = 3 \/ x = 4 \/ x = 5 \/ x = 6 \/ x = 7 \/
  x = 8 \/ x = 9 \/ x = 10 \/ x = 11 \/ x = 12 \/ x = 13 \/ x = 14 \/ x = 15.
Proof. lia. Qed.

Lemma hex_digit_spec x :
  0 <= x < 16 -> is_hex (MD5.hex_digit x) = true /\ unhex (MD5.hex_digit x) = x.
Proof.
  intros H. apply nibble_cases in H.
  repeat (destruct H as [->|H]; [by vm_compute|]). subst. by vm_compute.
Qed.

Lemma byte_nibbles b :
  is_byte b -> 0 <= b / 16 < 16 /\ 0 <= b mod 16 < 16 /\ b = 16 * (b / 16) + b mod 16.
Proof.
  unfold is_byte. intros H. repeat split.
  - apply Z.div_pos; lia.
  - apply Z.div_lt_upper_bound; lia.
  - apply Z.mod_pos_bound; lia.
  - apply Z.mod_pos_bound; lia.
  - apply Z.div_mod. lia.
Qed.

Lemma hex_spec bs :
  Forall is_byte bs ->
  String.length (MD5.hex bs) = (2 * length bs)%nat
  /\ all_chars is_hex (MD5.hex bs) = true.
Proof.
  induction 1 as [|b bs Hb _ [IHl IHc]]; [done|].
  destruct (byte_nibbles b Hb) as (Hhi & Hlo & _).
  destruct (hex_digit_spec _ Hhi) as [Hh1 _], (hex_digit_spec _ Hlo) as [Hh2 _].
  cbn [MD5.hex String.length all_chars length]. rewrite IHl, Hh1, Hh2, IHc.
  split; [lia|done].
Qed.

Lemma hex_inj bs1 : forall bs2,
  Forall is_byte bs1 -> Forall is_byte bs2 ->
  MD5.hex bs1 = MD5.hex bs2 -> bs1 = bs2.
Proof.
  induction bs1 as [|b1 bs1 IH]; intros [|b2 bs2] H1 H2; cbn [MD5.hex];
    try done.
  intros [= Hhi Hlo Hrest].
  apply Forall_cons in H1 as [Hb1 H1], H2 as [Hb2 H2].
  destruct (byte_nibbles b1 Hb1) as (Hhi1 & Hlo1 & E1).
  destruct (byte_nibbles b2 Hb2) as (Hhi2 & Hlo2 & E2).
  destruct (hex_digit_spec _ Hhi1) as [_ U1], (hex_digit_spec _ Hlo1) as [_ U2],
    (hex_digit_spec _ Hhi2) as [_ U3], (hex_digit_spec _ Hlo2) as [_ U4].
  rewrite Hhi in U1. rewrite Hlo in U2.
  f_equal; [lia|by apply IH].
Qed.

End CacheKey.

(* ================================================================== *)
(** * Finding files *)
(* ================================================================== *)

Section FindFiles.
Import FileAnalyzer WalkSpec.

Variable extensions : option (list string).

(** Induction on directory trees. *)
Lemma entry_induction (P : entry -> Prop) :
  (forall name, P (File name)) ->
  (forall name es, Forall P es -> P (Dir name es)) ->
  forall e, P e.
Proof.
  intros Hfile Hdir. fix IH 1. intros [name|name es]; [apply Hfile|].
  apply Hdir. induction es as [|e es IHes]; constructor; [apply IH|apply IHes].
Qed.

Lemma visit_file_selected root acc file :
  visit_file extensions root acc file
  = acc ++ (if selected extensions file then [OsPath.join root file] else []).
Proof.
  unfold visit_file, selected, hidden, matching.
  destruct (PyStr.startswith file "."); cbn [negb andb]; [by rewrite app_nil_r|].
  destruct extensions as [[|ext exts]|]; try done.
  destruct (existsb _ _); [done|by rewrite app_nil_r].
Qed.

Lemma foldl_visit_file root files : forall acc,
  foldl (visit_file extensions root) acc files
  = acc ++ map (OsPath.join root) (List.filter (selected extensions) files).
Proof.
  induction files as [|file files IH]; intros acc; cbn [foldl List.filter map].
  - by rewrite app_nil_r.
  - rewrite IH, visit_file_selected.
    destruct (selected extensions file); cbn [map]; by rewrite <- app_assoc.
Qed.

Lemma foldl_walk triples : forall acc,
  foldl (fun result_files '(root, _, files) =>
           foldl (visit_file extensions root) result_files files)
        acc triples
  = acc ++ flat_map (kept extensions) triples.
Proof.
  induction triples as [|[[root ds] fs] triples IH]; intros acc;
    cbn [foldl flat_map].
  - by rewrite app_nil_r.
  - rewrite IH, foldl_visit_file. unfold kept at 2. cbn [fst snd].
    by rewrite <- app_assoc.
Qed.

Lemma in_file_names name es : In name (file_names es) <-> In (File name) es.
Proof.
  unfold file_names. rewrite in_flat_map. split.
  - intros ([n|n cs] & Hin & Hn); cbn in Hn; [|done].
    destruct Hn as [->|[]]. done.
  - intros Hin. exists (File name). split; [done|]. by left.
Qed.

Lemma os_walk_listed e : forall top root ds fs name,
  In (root, ds, fs) (os_walk top e) -> In name fs -> listed top e root name.
Proof.
  induction e as [n|n es IH] using entry_induction; intros top root ds fs name;
    cbn [os_walk]; [done|].
  intros [[= <- <- <-]|Hsub] Hname.
  - apply listed_here. by apply in_file_names.
  - apply in_flat_map in Hsub as ([m|m cs] & Hin & Hw); [done|].
    rewrite Forall_forall in IH.
    apply listed_below with m cs; [done|].
    apply (IH (Dir m cs)) with ds fs; [by apply list_elem_of_In|done..].
Qed.

Lemma listed_os_walk top e root name :
  listed top e root name ->
  exists ds fs, In (root, ds, fs) (os_walk top e) /\ In name fs.
Proof.
  induction 1 as [top d es name Hin|top d es sub cs root name Hin _ (ds & fs & Hw & Hn)].
  - exists (dir_names es), (file_names es). cbn [os_walk]. split; [by left|].
    by apply in_file_names.
  - exists ds, fs. split; [|done]. cbn [os_walk]. right.
    apply in_flat_map. exists (Dir sub cs). by split.
Qed.

Lemma in_find_files tree directory p :
  In p (find_files tree directory extensions)
  <-> exists root name,
        listed directory tree root name
        /\ selected extensions name = true
        /\ p = OsPath.join root name.
Proof.
  unfold find_files. rewrite foldl_walk. cbn [app]. rewrite in_flat_map. split.
  - intros ([[root ds] fs] & Hw & Hp). unfold kept in Hp. cbn [fst snd] in Hp.
    apply in_map_iff in Hp as (name & <- & Hname).
    apply filter_In in Hname as [Hname Hsel].
    exists root, name. split; [|done]. by apply os_walk_listed with ds fs.
  - intros (root & name & Hl & Hsel & ->).
    apply listed_os_walk in Hl as (ds & fs & Hw & Hname).
    exists (root, ds, fs). split; [done|]. unfold kept. cbn [fst snd].
    apply in_map_iff. exists name. split; [done|]. by apply filter_In.
Qed.

End FindFiles.


(* ================================================================== *)
(** * Further properties of the file inspector *)
(* ================================================================== *)

Section Inspector.
Import FileAnalyzer.

Lemma split_nonempty c s : (1 <= length (PyStr.split c s))%nat.
Proof.
  induction s as [|x r IH]; cbn [PyStr.split]; [cbn; lia|].
  destruct (Ascii.eqb x c); [cbn [length]; lia|].
  destruct (PyStr.split c r); cbn [length] in *; lia.
Qed.

Lemma count_kinds_total ks :
  LineSpec.count LineSpec.Blank ks + LineSpec.count LineSpec.Comment ks
  + LineSpec.count LineSpec.Code ks = Z.of_nat (length ks)
  /\ 0 <= LineSpec.count LineSpec.Blank ks
  /\ 0 <= LineSpec.count LineSpec.Comment ks
  /\ 0 <= LineSpec.count LineSpec.Code ks.
Proof.
  induction ks as [|k ks IH].
  - unfold LineSpec.count. cbn. lia.
  - rewrite (count_cons LineSpec.Blank k), (count_cons LineSpec.Comment k),
      (count_cons LineSpec.Code k).
    assert (LineSpec.count LineSpec.Blank [k] + LineSpec.count LineSpec.Comment [k]
            + LineSpec.count LineSpec.Code [k] = 1
            /\ 0 <= LineSpec.count LineSpec.Blank [k]
            /\ 0 <= LineSpec.count LineSpec.Comment [k]
            /\ 0 <= LineSpec.count LineSpec.Code [k])
      by (destruct k; unfold LineSpec.count; cbn; lia).
    cbn [length]. lia.
Qed.

Lemma keep_by_size_filter sizes min_size max_size file_paths : forall acc,
  foldl (keep_by_size sizes min_size max_size) acc file_paths
  = acc ++ List.filter
             (fun p => match sizes !! p with
                       | Some size =>
                           (min_size <=? size)
                           && match max_size with
                              | None => true
                              | Some m => size <=? m
                              end
                       | None => false
                       end) file_paths.
Proof.
  induction file_paths as [|p ps IH]; intros acc; cbn [foldl List.filter].
  - by rewrite app_nil_r.
  - rewrite IH. unfold keep_by_size.
    destruct (sizes !! p) as [size|]; [|done].
    destruct (_ && _); [by rewrite <- app_assoc|done].
Qed.

End Inspector.

(** X1.  For a file that can be read as text, [analyze_file] reports a
    line count of at least 1 (an empty file has one blank line) that is the
    sum of its code, comment and blank line counts, none of them negative;
    it reports the size given by the file system and returns the content
    unchanged, without an error field. *)
Theorem analyze_file_counts_add_up (fs : gmap string file_read)
    (path content : string) (size : Z) :
  fs !! path = Some (Text content size) ->
  let info := FileAnalyzer.analyze_file fs path in
  exists lines code comment blank,
    get_key "line_count" info = Some (JInt lines)
    /\ get_key "code_lines" info = Some (JInt code)
    /\ get_key "comment_lines" info = Some (JInt comment)
    /\ get_key "blank_lines" info = Some (JInt blank)
    /\ lines = code + comment + blank
    /\ 1 <= lines /\ 0 <= code /\ 0 <= comment /\ 0 <= blank
    /\ get_key "file_size" info = Some (JInt size)
    /\ get_key "content" info = Some (JStr content)
    /\ has_key "error" info = false.
Proof.
  intros Hfile info. subst info. unfold FileAnalyzer.analyze_file. rewrite Hfile.
  destruct (foldl_count_line (PyStr.split "010" content) (FileAnalyzer.Counters 0 0 0 false))
    as (H1 & H2 & H3 & H4).
  cbn [FileAnalyzer.code_lines FileAnalyzer.comment_lines FileAnalyzer.blank_lines
       FileAnalyzer.in_multi_comment] in H1, H2, H3, H4.
  destruct (count_kinds_total (LineSpec.classify_all false (PyStr.split "010" content)))
    as (Hsum & Hb & Hc & Hk).
  pose proof (split_nonempty "010" content) as Hne.
  eexists _, _, _, _. unfold FileAnalyzer.count_lines.
  repeat split; try reflexivity; lia.
Qed.

Lemma analyze_file_counts_add_up_witness :
  exists lines code comment blank,
    get_key "line_count" (FileAnalyzer.analyze_file {[ "empty.py" := Text "" 0 ]} "empty.py")
      = Some (JInt lines)
    /\ lines = code + comment + blank /\ 1 <= lines.
Proof.
  assert (Hfile : ({[ "empty.py" := Text "" 0 ]} : gmap string file_read) !! "empty.py"
                  = Some (Text "" 0)) by apply lookup_singleton_eq.
  destruct (analyze_file_counts_add_up _ "empty.py" "" 0 Hfile)
    as (lines & code & comment & blank & H1 & _ & _ & _ & H5 & H6 & _).
  exists lines, code, comment, blank. repeat split; assumption.
Defined.

(** X2.  [filter_files_by_size] keeps, in their order, exactly the paths
    whose size can be read and lies between [min_size] and [max_size] (no
    upper bound when [max_size] is [None]); a path whose size cannot be
    read is dropped and nothing is raised.  Filtering the result again with
    the same bounds changes nothing. *)
Theorem filter_files_by_size_keeps_sizes_in_range (sizes : gmap string Z)
    (file_paths : list string) (min_size : Z) (max_size : option Z) :
  let kept := FileAnalyzer.filter_files_by_size sizes file_paths min_size max_size in
  (forall p, In p kept <->
     In p file_paths
     /\ exists size, sizes !! p = Some size /\ min_size <= size
                     /\ (forall m, max_size = Some m -> size <= m))
  /\ sublist kept file_paths
  /\ FileAnalyzer.filter_files_by_size sizes kept min_size max_size = kept.
Proof.
  intros kept. subst kept. unfold FileAnalyzer.filter_files_by_size.
  rewrite !keep_by_size_filter. cbn [app].
  set (ok := fun p : string => match sizes !! p with
                      | Some size =>
                          (min_size <=? size)
                          && match max_size with
                             | None => true
                             | Some m => size <=? m
                             end
                      | None => false
                      end).
  split; [|split].
  - intros p. rewrite filter_In. unfold ok. split.
    + intros [Hin Hok]. split; [done|].
      destruct (sizes !! p) as [size|]; [|done].
      apply andb_true_iff in Hok as [Hmin Hmax]. exists size.
      split; [done|]. split; [lia|]. intros m ->. lia.
    + intros [Hin (size & -> & Hmin & Hmax)]. split; [done|].
      apply andb_true_iff. split; [lia|].
      destruct max_size as [m|]; [|done]. specialize (Hmax m eq_refl). lia.
  - induction file_paths as [|p ps IH]; cbn [List.filter]; [constructor|].
    destruct (ok p); by constructor.
  - induction file_paths as [|p ps IH]; cbn [List.filter]; [done|].
    destruct (ok p) eqn:Hp; [|done]. cbn [List.filter]. by rewrite Hp, IH.
Qed.
(* ================================================================== *)
(** * Further properties of the completion client *)
(* ================================================================== *)

Section Client.
Import CodeReviewer RetrySpec ClientSpec.

Variable cfg : CodeReviewConfig.
Variable msgs : messages.

Lemma settles_not_transient o result : settles o result -> ~ transient o.
Proof.
  intros [->|[(body & -> & _)|(e & -> & _)]] [H|[reason H]]; discriminate H.
Qed.

Lemma outcome_at_after_1 w waits i :
  outcome_at (after w 1 waits) msgs i = outcome_at w msgs (S i).
Proof.
  unfold outcome_at.
  destruct (after_fields w 1 waits) as (-> & _ & _ & _ & -> & _).
  by replace (requests w + 1 + i)%nat with (requests w + S i)%nat by lia.
Qed.

Lemma sleep_error_after_1 w x i secs :
  sleep_error (sleep_refused (after w 1 [x])) (length (slept (after w 1 [x])) + i) secs
  = sleep_error (sleep_refused w) (length (slept w) + S i) secs.
Proof.
  rewrite after_sleep_refused.
  destruct (after_fields w 1 [x]) as (_ & -> & _).
  rewrite length_app. cbn [length].
  by replace (length (slept w) + 1 + i)%nat with (length (slept w) + S i)%nat by lia.
Qed.

(** Every run of the loop: [k] transient failures whose waits were
    accepted, and then the attempts are used up, or attempt [k] settles
    the call, or [time.sleep] refuses the wait after attempt [k]. *)
Lemma attempts_total remaining : forall (a : nat) w,
  exists k,
    (k <= remaining)%nat
    /\ (forall i, (i < k)%nat -> transient (outcome_at w msgs i))
    /\ (forall i, (i < k)%nat ->
          sleep_error (sleep_refused w) (length (slept w) + i)
            (backoff cfg (Z.of_nat (a + i))) = None)
    /\ ((k = remaining
         /\ attempts cfg msgs remaining (Z.of_nat a) w
            = (Return (max_retries_error cfg), after w k (schedule_from cfg a k)))
        \/ ((k < remaining)%nat
            /\ exists result,
                 settles (outcome_at w msgs k) result
                 /\ attempts cfg msgs remaining (Z.of_nat a) w
                    = (Return result, after w (S k) (schedule_from cfg a k)))
        \/ ((k < remaining)%nat
            /\ transient (outcome_at w msgs k)
            /\ exists e,
                 sleep_error (sleep_refused w) (length (slept w) + k)
                   (backoff cfg (Z.of_nat (a + k))) = Some e
                 /\ attempts cfg msgs remaining (Z.of_nat a) w
                    = (Raise e, after w (S k) (schedule_from cfg a k)))).
Proof.
  induction remaining as [|rem IH]; intros a w.
  - exists 0%nat. split; [lia|]. split; [intros i Hi; lia|]. split; [intros i Hi; lia|].
    left. split; [done|]. cbn [attempts schedule_from seq map]. by rewrite after_0.
  - destruct (attempts_stop cfg msgs rem (Z.of_nat a) w) as (Hp & Hn & Ho).
    assert (Hw1 : after w 1 (schedule_from cfg a 0) = after w 1 []) by done.
    assert (Hstop : forall result,
              settles (outcome_at w msgs 0) result ->
              attempts cfg msgs (S rem) (Z.of_nat a) w = (Return result, after w 1 []) ->
              exists k,
                (k <= S rem)%nat
                /\ (forall i, (i < k)%nat -> transient (outcome_at w msgs i))
                /\ (forall i, (i < k)%nat ->
                      sleep_error (sleep_refused w) (length (slept w) + i)
                        (backoff cfg (Z.of_nat (a + i))) = None)
                /\ ((k = S rem
                     /\ attempts cfg msgs (S rem) (Z.of_nat a) w
                        = (Return (max_retries_error cfg),
                           after w k (schedule_from cfg a k)))
                    \/ ((k < S rem)%nat
                        /\ exists result,
                             settles (outcome_at w msgs k) result
                             /\ attempts cfg msgs (S rem) (Z.of_nat a) w
                                = (Return result, after w (S k) (schedule_from cfg a k)))
                    \/ ((k < S rem)%nat
                        /\ transient (outcome_at w msgs k)
                        /\ exists e,
                             sleep_error (sleep_refused w) (length (slept w) + k)
                               (backoff cfg (Z.of_nat (a + k))) = Some e
                             /\ attempts cfg msgs (S rem) (Z.of_nat a) w
                                = (Raise e, after w (S k) (schedule_from cfg a k))))).
    { intros result Hset Hrun. exists 0%nat. split; [lia|].
      split; [intros i Hi; lia|]. split; [intros i Hi; lia|].
      right; left. split; [lia|]. exists result. split; [done|]. by rewrite Hw1. }
    assert (Hgo : transient (outcome_at w msgs 0) ->
              exists k,
                (k <= S rem)%nat
                /\ (forall i, (i < k)%nat -> transient (outcome_at w msgs i))
                /\ (forall i, (i < k)%nat ->
                      sleep_error (sleep_refused w) (length (slept w) + i)
                        (backoff cfg (Z.of_nat (a + i))) = None)
                /\ ((k = S rem
                     /\ attempts cfg msgs (S rem) (Z.of_nat a) w
                        = (Return (max_retries_error cfg),
                           after w k (schedule_from cfg a k)))
                    \/ ((k < S rem)%nat
                        /\ exists result,
                             settles (outcome_at w msgs k) result
                             /\ attempts cfg msgs (S rem) (Z.of_nat a) w
                                = (Return result, after w (S k) (schedule_from cfg a k)))
                    \/ ((k < S rem)%nat
                        /\ transient (outcome_at w msgs k)
                        /\ exists e,
                             sleep_error (sleep_refused w) (length (slept w) + k)
                               (backoff cfg (Z.of_nat (a + k))) = Some e
                             /\ attempts cfg msgs (S rem) (Z.of_nat a) w
                                = (Raise e, after w (S k) (schedule_from cfg a k))))).
    { intros Ht. rewrite (attempts_transient_iteration cfg msgs rem (Z.of_nat a) w Ht).
      destruct (sleep_error (sleep_refused w) (length (slept w)) (backoff cfg (Z.of_nat a)))
        as [e|] eqn:Hsleep.
      - exists 0%nat. split; [lia|]. split; [intros i Hi; lia|].
        split; [intros i Hi; lia|]. right; right. split; [lia|]. split; [done|].
        exists e. rewrite !Nat.add_0_r. split; [done|]. by rewrite Hw1.
      - replace (Z.of_nat a + 1) with (Z.of_nat (S a)) by lia.
        destruct (IH (S a) (after w 1 [backoff cfg (Z.of_nat a)]))
          as (k & Hk & Hpre & Hacc & Hend).
        exists (S k). split; [lia|]. split; [|split].
        { intros [|i] Hi; [done|]. rewrite <- (outcome_at_after_1 w [backoff cfg (Z.of_nat a)]).
          apply Hpre. lia. }
        { intros [|i] Hi; [by rewrite !Nat.add_0_r|].
          rewrite <- (sleep_error_after_1 w (backoff cfg (Z.of_nat a))).
          replace (a + S i)%nat with (S a + i)%nat by lia. apply Hacc. lia. }
        rewrite schedule_from_S.
        destruct Hend as [(-> & ->)|[(Hlt & result & Hset & ->)|(Hlt & Htk & e & He & ->)]].
        + left. split; [done|]. by rewrite after_after.
        + right; left. split; [lia|]. exists result.
          rewrite <- (outcome_at_after_1 w [backoff cfg (Z.of_nat a)]).
          split; [done|]. by rewrite after_after.
        + right; right. split; [lia|].
          rewrite <- (outcome_at_after_1 w [backoff cfg (Z.of_nat a)]).
          split; [done|]. exists e.
          rewrite <- (sleep_error_after_1 w (backoff cfg (Z.of_nat a))).
          replace (a + S k)%nat with (S a + k)%nat by lia.
          split; [done|]. by rewrite after_after. }
    destruct (outcome_at w msgs 0) as [result|body| |reason|e] eqn:Hout.
    + apply (Hstop result); [by left|by apply Hp].
    + apply (Hstop invalid_json_error); [right; left; by exists body|by apply (Hn body)].
    + apply Hgo. by left.
    + apply Hgo. right. by exists reason.
    + apply (Hstop (error_payload e)); [right; right; by exists e|by apply Ho].
Qed.

(** The same for the whole call. *)
Lemma call_openai_api_total w :
  exists k,
    (k <= Z.to_nat (retry_count cfg))%nat
    /\ (forall i, (i < k)%nat -> transient (outcome_at w msgs i))
    /\ waits_accepted cfg w k
    /\ ((k = Z.to_nat (retry_count cfg)
         /\ _call_openai_api cfg msgs w
            = (Return (max_retries_error cfg), after w k (schedule cfg k)))
        \/ ((k < Z.to_nat (retry_count cfg))%nat
            /\ exists result,
                 settles (outcome_at w msgs k) result
                 /\ _call_openai_api cfg msgs w
                    = (Return result, after w (S k) (schedule cfg k)))
        \/ ((k < Z.to_nat (retry_count cfg))%nat
            /\ transient (outcome_at w msgs k)
            /\ exists e,
                 wait_error cfg w k = Some e
                 /\ _call_openai_api cfg msgs w
                    = (Raise e, after w (S k) (schedule cfg k)))).
Proof.
  destruct (attempts_total (Z.to_nat (retry_count cfg)) 0%nat w)
    as (k & Hk & Hpre & Hacc & Hend).
  change (Z.of_nat 0) with 0 in Hend. exists k. split; [done|]. split; [done|].
  split; [intros i Hi; apply (Hacc i Hi)|]. exact Hend.
Qed.

Lemma schedule_from_sum a k :
  foldr Z.add 0 (schedule_from cfg a k)
  = retry_delay cfg * 2 ^ Z.of_nat a * (2 ^ Z.of_nat k - 1).
Proof.
  revert a. induction k as [|k IH]; intros a.
  - cbn. lia.
  - rewrite schedule_from_S. cbn [foldr]. rewrite IH. unfold backoff.
    replace (Z.of_nat (S a)) with (Z.of_nat a + 1) by lia.
    replace (Z.of_nat (S k)) with (Z.of_nat k + 1) by lia.
    rewrite !Z.pow_add_r by lia. lia.
Qed.

End Client.

(** X3.  When [time.sleep] accepts every wait the call can ask for (each
    wait [retry_delay * 2^i], [i < retry_count], is not negative, converts
    and is not refused by the platform), [_call_openai_api] always returns
    and never raises, whatever the service does.  There is a number [k] of
    leading transient failures, at most [retry_count]; the call has waited
    [retry_delay * 2^i] after each of them.  If [k] is [retry_count] the
    result is the retry-limit error after [k] requests; otherwise request
    [k] ended the call after [k + 1] requests, with the parsed answer, the
    invalid-format error or the error of the failure. *)
Theorem call_openai_api_always_returns (cfg : CodeReviewConfig) (msgs : messages)
    (w : world) :
  RetrySpec.waits_accepted cfg w (Z.to_nat (retry_count cfg)) ->
  exists k result w',
    CodeReviewer._call_openai_api cfg msgs w = (Return result, w')
    /\ (k <= Z.to_nat (retry_count cfg))%nat
    /\ (forall i, (i < k)%nat -> RetrySpec.transient (RetrySpec.outcome_at w msgs i))
    /\ slept w' = slept w ++ RetrySpec.schedule cfg k
    /\ cache_files w' = cache_files w
    /\ ((k = Z.to_nat (retry_count cfg)
         /\ result = CodeReviewer.max_retries_error cfg
         /\ requests w' = (requests w + k)%nat)
        \/ ((k < Z.to_nat (retry_count cfg))%nat
            /\ ClientSpec.settles (RetrySpec.outcome_at w msgs k) result
            /\ requests w' = (requests w + k + 1)%nat)).
Proof.
  intros Hall.
  destruct (call_openai_api_total cfg msgs w) as (k & Hk & Hpre & _ & Hend).
  destruct Hend as [(Hkn & Hrun)|[(Hlt & result & Hset & Hrun)|(Hlt & _ & e & He & _)]].
  - exists k, (CodeReviewer.max_retries_error cfg),
      (RetrySpec.after w k (RetrySpec.schedule cfg k)).
    destruct (after_fields w k (RetrySpec.schedule cfg k)) as (Hr & Hs & Hc & _).
    split; [done|]. split; [done|]. split; [done|]. split; [done|]. split; [done|].
    left. repeat split; try done; lia.
  - exists k, result, (RetrySpec.after w (S k) (RetrySpec.schedule cfg k)).
    destruct (after_fields w (S k) (RetrySpec.schedule cfg k)) as (Hr & Hs & Hc & _).
    split; [done|]. split; [done|]. split; [done|]. split; [done|]. split; [done|].
    right. repeat split; try done; lia.
  - rewrite (Hall k Hlt) in He. discriminate He.
Qed.

Lemma call_openai_api_always_returns_witness :
  exists k result w',
    CodeReviewer._call_openai_api default_config []
      (Scenario.fresh (Scenario.always (OtherError "boom"))) = (Return result, w')
    /\ (k <= 3)%nat.
Proof.
  destruct (call_openai_api_always_returns default_config []
              (Scenario.fresh (Scenario.always (OtherError "boom"))))
    as (k & result & w' & Hrun & Hk & _).
  - intros i Hi. destruct i as [|[|[|i]]]; [reflexivity..|].
    vm_compute in Hi. lia.
  - exists k, result, w'. split; [exact Hrun|exact Hk].
Defined.

(** X4.  When [time.sleep] accepts every wait the call can ask for, the
    time a call of [_call_openai_api] spends waiting is
    [retry_delay * (2^k - 1)], where [k] is the number of transient
    failures before the call ends (the attempts [0 .. k-1] fail
    transiently, and attempt [k] does not or does not exist); hence it is
    at most [retry_delay * (2^retry_count - 1)]: 14 seconds with the
    defaults. *)
Theorem call_openai_api_total_wait (cfg : CodeReviewConfig) (msgs : messages)
    (w : world) :
  RetrySpec.waits_accepted cfg w (Z.to_nat (retry_count cfg)) ->
  exists k,
    (k <= Z.to_nat (retry_count cfg))%nat
    /\ (forall i, (i < k)%nat -> RetrySpec.transient (RetrySpec.outcome_at w msgs i))
    /\ (k = Z.to_nat (retry_count cfg)
        \/ ~ RetrySpec.transient (RetrySpec.outcome_at w msgs k))
    /\ slept (CodeReviewer._call_openai_api cfg msgs w).2
       = slept w ++ RetrySpec.schedule cfg k
    /\ foldr Z.add 0 (RetrySpec.schedule cfg k)
       = retry_delay cfg * (2 ^ Z.of_nat k - 1)
    /\ foldr Z.add 0 (RetrySpec.schedule cfg k)
       <= retry_delay cfg * (2 ^ Z.of_nat (Z.to_nat (retry_count cfg)) - 1).
Proof.
  intros Hall.
  destruct (call_openai_api_total cfg msgs w) as (k & Hk & Hpre & _ & Hend).
  exists k. split; [done|]. split; [done|].
  assert (Hsum : foldr Z.add 0 (RetrySpec.schedule cfg k)
                 = retry_delay cfg * (2 ^ Z.of_nat k - 1)).
  { unfold RetrySpec.schedule. rewrite schedule_from_sum.
    change (Z.of_nat 0) with 0. by rewrite Z.pow_0_r, Z.mul_1_r. }
  assert (Hbound : foldr Z.add 0 (RetrySpec.schedule cfg k)
                   <= retry_delay cfg * (2 ^ Z.of_nat (Z.to_nat (retry_count cfg)) - 1)).
  { rewrite Hsum. destruct k as [|k'].
    - destruct (Z.to_nat (retry_count cfg)) as [|n] eqn:Hn; [cbn; lia|].
      assert (0 <= retry_delay cfg)
        by (apply (waits_accepted_delay cfg w (S n)); [lia|done]).
      assert (1 <= 2 ^ Z.of_nat (S n)) by (apply Z.pow_le_mono_r with (b := 0); lia).
      change (2 ^ Z.of_nat 0) with 1. nia.
    - assert (0 <= retry_delay cfg).
      { apply (waits_accepted_delay cfg w (Z.to_nat (retry_count cfg))); [lia|done]. }
      assert (2 ^ Z.of_nat (S k') <= 2 ^ Z.of_nat (Z.to_nat (retry_count cfg)))
        by (apply Z.pow_le_mono_r; lia).
      nia. }
  destruct Hend as [(Hkn & Hrun)|[(Hlt & result & Hset & Hrun)|(Hlt & _ & e & He & _)]].
  - split; [by left|]. rewrite Hrun. cbn [snd].
    destruct (after_fields w k (RetrySpec.schedule cfg k)) as (_ & -> & _). done.
  - split; [right; by apply (settles_not_transient _ result)|]. rewrite Hrun. cbn [snd].
    destruct (after_fields w (S k) (RetrySpec.schedule cfg k)) as (_ & -> & _). done.
  - rewrite (Hall k Hlt) in He. discriminate He.
Qed.

Lemma call_openai_api_total_wait_witness :
  exists k,
    slept (CodeReviewer._call_openai_api default_config []
             (Scenario.fresh (Scenario.always RateLimitError))).2
    = RetrySpec.schedule default_config k
    /\ foldr Z.add 0 (RetrySpec.schedule default_config k) <= 14.
Proof.
  destruct (call_openai_api_total_wait default_config []
              (Scenario.fresh (Scenario.always RateLimitError)))
    as (k & _ & _ & _ & Hs & _ & Hle).
  - intros i Hi. destruct i as [|[|[|i]]]; [reflexivity..|].
    vm_compute in Hi. lia.
  - exists k. split; [exact Hs|exact Hle].
Defined.

(** X5.  [retry_delay] is not validated.  With a negative delay and at
    least one attempt allowed, a transient failure of the first request
    makes [_call_openai_api] raise the exception of [time.sleep]: its
    [ValueError], or its [OverflowError] when the delay is below
    -9223372036.  The exception leaves the call, after one request and
    without any wait. *)
Theorem call_openai_api_negative_delay_raises (cfg : CodeReviewConfig)
    (msgs : messages) (w : world) :
  retry_delay cfg < 0 ->
  (0 < Z.to_nat (retry_count cfg))%nat ->
  RetrySpec.transient (RetrySpec.outcome_at w msgs 0) ->
  CodeReviewer._call_openai_api cfg msgs w
  = (Raise (if retry_delay cfg <? - SLEEP_MAX
            then "timestamp too large to convert to C _PyTime_t"
            else "sleep length must be non-negative"),
     RetrySpec.after w 1 []).
Proof.
  intros Hd Hn Ht. unfold CodeReviewer._call_openai_api.
  destruct (Z.to_nat (retry_count cfg)) as [|rem]; [lia|].
  rewrite (attempts_transient_iteration cfg msgs rem 0 w Ht).
  unfold RetrySpec.backoff. rewrite Z.pow_0_r, Z.mul_1_r. unfold sleep_error.
  destruct (Z.ltb_spec (retry_delay cfg) (- SLEEP_MAX)); [done|].
  destruct (Z.ltb_spec SLEEP_MAX (retry_delay cfg)); [unfold SLEEP_MAX in *; lia|].
  cbn [orb]. destruct (Z.ltb_spec (retry_delay cfg) 0); [done|lia].
Qed.

Lemma call_openai_api_negative_delay_raises_witness :
  CodeReviewer._call_openai_api (Config "gpt-4o" (Finite 2 10) 4096 None 3 (-1) 2 ".cache") []
    (Scenario.fresh (Scenario.always RateLimitError))
  = (Raise "sleep length must be non-negative",
     RetrySpec.after (Scenario.fresh (Scenario.always RateLimitError)) 1 []).
Proof.
  exact (call_openai_api_negative_delay_raises
           (Config "gpt-4o" (Finite 2 10) 4096 None 3 (-1) 2 ".cache") []
           (Scenario.fresh (Scenario.always RateLimitError))
           eq_refl ltac:(vm_compute; lia) (or_introl eq_refl)).
Defined.

(* ================================================================== *)
(** * Further properties of the result cache *)
(* ================================================================== *)

Lemma cache_key_of_combined_text_aux content prompt :
  String.length (CodeReviewer._get_cache_key content prompt) = 32%nat
  /\ CacheKeySpec.all_chars CacheKeySpec.is_hex
       (CodeReviewer._get_cache_key content prompt) = true.
Proof.
  destruct (digest_spec (MD5.bytes_of (CacheKeySpec.combined content prompt)))
    as [Hlen Hbytes].
  destruct (hex_spec _ Hbytes) as [Hl Hc].
  unfold CodeReviewer._get_cache_key, MD5.hexdigest.
  fold (CacheKeySpec.combined content prompt). by rewrite Hl, Hlen.
Qed.

Section Cache.
Import CodeReviewer RetrySpec CacheKeySpec.

Variable cfg : CodeReviewConfig.

Lemma append_same_length s1 : forall s2 t1 t2,
  String.length s1 = String.length s2 ->
  s1 +:+ t1 = s2 +:+ t2 -> s1 = s2.
Proof.
  induction s1 as [|x r IH]; intros [|y r'] t1 t2 Hlen; try done.
  change (String x r +:+ t1) with (String x (r +:+ t1)).
  change (String y r' +:+ t2) with (String y (r' +:+ t2)).
  intros [= -> Hrest]. f_equal. apply (IH r' t1 t2); [|done].
  cbn in Hlen. lia.
Qed.

(** The cache file of a key made of hexadecimal digits is the directory
    path, a separator where needed, and the file name. *)
Lemma cache_path_of_hex key :
  all_chars is_hex key = true ->
  exists dir, forall key',
    all_chars is_hex key' = true ->
    cache_path cfg key' = dir +:+ key' +:+ ".json".
Proof.
  intros _. unfold cache_path, OsPath.join.
  assert (Habs : forall k, all_chars is_hex k = true ->
                           PyStr.startswith (k +:+ ".json") "/" = false).
  { intros [|c k]; [done|]. cbn [all_chars]. intros [Hc _]%andb_true_iff.
    change (String c k +:+ ".json") with (String c (k +:+ ".json")).
    unfold PyStr.startswith. cbn [String.prefix].
    destruct (Ascii.ascii_dec "/" c) as [<-|Hne]; [by vm_compute in Hc|done]. }
  destruct (cache_dir cfg) as [|c dir] eqn:Hdir.
  - exists EmptyString. intros key' Hk. by rewrite (Habs key' Hk).
  - destruct (String.prefix "/" (String.rev (String c dir))).
    + exists (String c dir). intros key' Hk. by rewrite (Habs key' Hk).
    + exists (String c dir +:+ "/"). intros key' Hk. rewrite (Habs key' Hk).
      clear. induction (String c dir) as [|x r IH]; [done|].
      change (String x r +:+ "/" +:+ key' +:+ ".json")
        with (String x (r +:+ "/" +:+ key' +:+ ".json")).
      change ((String x r +:+ "/") +:+ key' +:+ ".json")
        with (String x ((r +:+ "/") +:+ key' +:+ ".json")).
      by rewrite IH.
Qed.

Lemma cache_path_inj c1 p1 c2 p2 :
  cache_path cfg (_get_cache_key c1 p1) = cache_path cfg (_get_cache_key c2 p2) ->
  _get_cache_key c1 p1 = _get_cache_key c2 p2.
Proof.
  destruct (cache_key_of_combined_text_aux c1 p1) as [L1 H1].
  destruct (cache_key_of_combined_text_aux c2 p2) as [L2 H2].
  destruct (cache_path_of_hex _ H1) as (dir & Hdir).
  rewrite (Hdir _ H1), (Hdir _ H2). intros Heq.
  apply String.app_inj in Heq.
  apply append_same_length in Heq; [done|]. by rewrite L1, L2.
Qed.

Lemma review_with_prompt_cache_miss content prompt sys w :
  cache_miss cfg (_get_cache_key content prompt) w ->
  let path := cache_path cfg (_get_cache_key content prompt) in
  let run := review_with_prompt cfg content prompt sys w in
  (forall other, other <> path -> cache_files run.2 !! other = cache_files w !! other)
  /\ (forall result, run.1 = Return result -> has_key "error" result = true ->
        cache_files run.2 = cache_files w)
  /\ (forall e, run.1 = Raise e -> cache_files run.2 = cache_files w)
  /\ (cache_writable w = false -> cache_files run.2 = cache_files w).
Proof.
  intros Hmiss path run. subst run. rewrite review_with_prompt_miss by done.
  unfold _call_openai_api.
  destruct (attempts cfg (chat sys prompt) (Z.to_nat (retry_count cfg)) 0 w)
    as [[result|e] w'] eqn:Hrun;
    apply attempts_requests in Hrun as (_ & _ & Hc & Hcw).
  - destruct (has_key "error" result) eqn:Herr; cbn [negb fst snd].
    + repeat split; try done. intros; by rewrite Hc.
    + destruct (cache_writable w') eqn:Hw'; cbn [snd].
      * assert (Hcf : cache_files (set_cache_files w'
                         (<[path := Stored result]> (cache_files w')))
                      = <[path := Stored result]> (cache_files w)).
        { destruct w'. cbn in *. by rewrite Hc. }
        fold path. rewrite Hcf. split; [|split; [|split]].
        -- intros other Hne. by rewrite lookup_insert_ne.
        -- intros r [= <-]. congruence.
        -- done.
        -- congruence.
      * repeat split; try done. intros; by rewrite Hc.
  - cbn [fst snd]. repeat split; try done. intros; by rewrite Hc.
Qed.

End Cache.

(** X6.  Storing a result under the key of a content and prompt makes the
    lookup under that key return it, and changes the lookup under no other
    key; a cache that cannot be written is left as it was, without any
    exception.  Neither operation makes a request. *)
Theorem cache_store_then_lookup (cfg : CodeReviewConfig)
    (content prompt : string) (result : dict) (w : world) :
  let key := CodeReviewer._get_cache_key content prompt in
  let stored := CodeReviewer._cache_result cfg key result w in
  stored.1 = Return tt
  /\ requests stored.2 = requests w
  /\ (cache_writable w = true ->
      CodeReviewer._get_cached_result cfg key stored.2 = (Return (Some result), stored.2))
  /\ (forall content' prompt',
        CodeReviewer._get_cache_key content' prompt' <> key ->
        (CodeReviewer._get_cached_result cfg
           (CodeReviewer._get_cache_key content' prompt') stored.2).1
        = (CodeReviewer._get_cached_result cfg
             (CodeReviewer._get_cache_key content' prompt') w).1)
  /\ (cache_writable w = false -> stored.2 = w).
Proof.
  intros key stored. subst stored. unfold CodeReviewer._cache_result.
  destruct (cache_writable w) eqn:Hw; cbn [fst snd].
  - assert (Hcf : cache_files (set_cache_files w
                     (<[CodeReviewer.cache_path cfg key := Stored result]> (cache_files w)))
                  = <[CodeReviewer.cache_path cfg key := Stored result]> (cache_files w))
      by (by destruct w).
    split; [done|]. split; [by destruct w|]. split; [|split; [|done]].
    + intros _. unfold CodeReviewer._get_cached_result.
      by rewrite Hcf, lookup_insert_eq.
    + intros content' prompt' Hne. unfold CodeReviewer._get_cached_result.
      rewrite Hcf, lookup_insert_ne.
      * by destruct (cache_files w !! _) as [[|]|].
      * intros Heq. apply Hne. symmetry. by apply (cache_path_inj cfg).
  - repeat split; done.
Qed.

(** X7.  The cache round trip of a review, on the statements that follow
    the prompt: when the key misses (no entry, a corrupt entry or an empty
    stored object), the cache can be written and the service call returns
    an object that is not empty and has no error field, the review returns
    it and stores it; the next review of the same content and prompt
    returns the same result from the cache and leaves the world as it is,
    so it makes no request. *)
Theorem review_stores_then_reuses (cfg : CodeReviewConfig)
    (content prompt sys : string) (w w1 : world) (kv : string * json) (result : dict) :
  RetrySpec.cache_miss cfg (CodeReviewer._get_cache_key content prompt) w ->
  cache_writable w = true ->
  CodeReviewer._call_openai_api cfg (CodeReviewer.chat sys prompt) w
    = (Return (kv :: result), w1) ->
  has_key "error" (kv :: result) = false ->
  let first := CodeReviewer.review_with_prompt cfg content prompt sys w in
  let second := CodeReviewer.review_with_prompt cfg content prompt sys first.2 in
  first.1 = Return (kv :: result)
  /\ requests first.2 = requests w1
  /\ second = (Return (kv :: result), first.2).
Proof.
  intros Hmiss Hw Hcall Herr first second.
  destruct (review_with_prompt_round_trip cfg content prompt sys w kv result w1
              Hmiss Hw Hcall Herr) as (H1 & H2 & _).
  split; [exact H1|]. split; [|exact H2].
  subst first. rewrite review_with_prompt_miss by done. rewrite Hcall, Herr.
  cbn [negb snd]. destruct (cache_writable w1); [by destruct w1|done].
Qed.

Lemma review_stores_then_reuses_witness :
  CodeReviewer.review_with_prompt default_config "x = 1" "review" "expert"
    (CodeReviewer.review_with_prompt default_config "x = 1" "review" "expert"
       (Scenario.fresh (Scenario.always (Parsed [("summary", JStr "fine")])))).2
  = (Return [("summary", JStr "fine")],
     (CodeReviewer.review_with_prompt default_config "x = 1" "review" "expert"
        (Scenario.fresh (Scenario.always (Parsed [("summary", JStr "fine")])))).2).
Proof.
  exact (proj2 (proj2 (review_stores_then_reuses default_config
           "x = 1" "review" "expert"
           (Scenario.fresh (Scenario.always (Parsed [("summary", JStr "fine")])))
           (RetrySpec.after
              (Scenario.fresh (Scenario.always (Parsed [("summary", JStr "fine")]))) 1 [])
           ("summary", JStr "fine") [] I eq_refl eq_refl eq_refl))).
Defined.

(** X8.  Whatever the service does, a review (the statements that follow
    the prompt) changes no cache file other than that of its own key; it
    stores nothing when its result has an error field, when an exception
    leaves it, or when the cache cannot be written; and on a hit it leaves
    the whole world as it was, so it makes no request and waits for
    nothing. *)
Theorem review_cache_discipline (cfg : CodeReviewConfig)
    (content prompt sys : string) (w : world) :
  let path := CodeReviewer.cache_path cfg (CodeReviewer._get_cache_key content prompt) in
  let run := CodeReviewer.review_with_prompt cfg content prompt sys w in
  (forall other, other <> path -> cache_files run.2 !! other = cache_files w !! other)
  /\ (forall result, run.1 = Return result -> has_key "error" result = true ->
        cache_files run.2 = cache_files w)
  /\ (forall e, run.1 = Raise e -> cache_files run.2 = cache_files w)
  /\ (cache_writable w = false -> cache_files run.2 = cache_files w)
  /\ (forall kv stored, cache_files w !! path = Some (Stored (kv :: stored)) ->
        run = (Return (kv :: stored), w)).
Proof.
  intros path run.
  assert (Hhit : forall kv stored, cache_files w !! path = Some (Stored (kv :: stored)) ->
                   run = (Return (kv :: stored), w)).
  { intros kv stored Hlook. by apply review_with_prompt_hit. }
  destruct (cache_files w !! path) as [[[|kv stored]|]|] eqn:Hlook.
  2:{ rewrite (Hhit kv stored eq_refl). cbn [fst snd]. repeat split; try done.
      intros kv' stored' [= <- <-]. done. }
  all: assert (Hmiss : RetrySpec.cache_miss cfg
                         (CodeReviewer._get_cache_key content prompt) w)
         by (unfold RetrySpec.cache_miss; fold path; by rewrite Hlook).
  all: destruct (review_with_prompt_cache_miss cfg content prompt sys w Hmiss)
         as (H1 & H2 & H3 & H4).
  all: split; [exact H1|]; split; [exact H2|]; split; [exact H3|]; split; [exact H4|];
       intros kv stored; discriminate.
Qed.

(* ================================================================== *)
(** * Further properties of the diff review *)
(* ================================================================== *)

Section DiffReview.
Import CodeReviewer GitSpec.

Lemma review_git_diff_prompt_raises spec changed diff :
  fstring (review_git_diff_prompt spec changed diff)
  = Raise (invalid_format_specifier file_reviews_spec).
Proof. vm_compute. reflexivity. Qed.

Lemma lstrip_chars_head chars s :
  match PyStr.lstrip_chars chars s with
  | EmptyString => True
  | String c _ => PyStr.mem_char c chars = false
  end.
Proof.
  induction s as [|x r IH]; cbn [PyStr.lstrip_chars]; [done|].
  destruct (PyStr.mem_char x chars) eqn:Hx; [done|]. by rewrite Hx.
Qed.

Lemma lstrip_chars_clean s : starts_clean (PyStr.lstrip_chars "a/" s).
Proof.
  pose proof (lstrip_chars_head "a/" s) as H. unfold starts_clean.
  destruct (PyStr.lstrip_chars "a/" s) as [|c r]; [done|].
  cbn [PyStr.mem_char] in H. apply orb_false_iff in H as [Ha H].
  apply orb_false_iff in H as [Hs _].
  split; intros ->; by vm_compute in Ha, Hs.
Qed.

Lemma changed_files_step_clean acc line files0 files :
  acc = Return files0 -> Forall starts_clean files0 ->
  changed_files_step acc line = Return files -> Forall starts_clean files.
Proof.
  intros -> H0. unfold changed_files_step.
  destruct (PyStr.startswith line "diff --git"); [|by intros [= <-]].
  destruct (3 <=? length (PyStr.split " " line))%nat; [|by intros [= <-]].
  destruct (PyStr.split " " line !! 3%nat) as [part|]; [|done].
  intros [= <-]. apply Forall_app. split; [done|].
  constructor; [apply lstrip_chars_clean|constructor].
Qed.

Lemma foldl_changed_files_clean lines : forall acc files0 files,
  acc = Return files0 -> Forall starts_clean files0 ->
  foldl changed_files_step acc lines = Return files -> Forall starts_clean files.
Proof.
  induction lines as [|line lines IH]; intros acc files0 files -> H0; cbn [foldl].
  - by intros [= <-].
  - destruct (changed_files_step (Return files0) line) as [files1|e] eqn:Hstep.
    + apply (IH (Return files1) files1); [done|].
      by apply (changed_files_step_clean (Return files0) line files0).
    + assert (Hraise : forall ls, foldl changed_files_step (Raise e) ls = Raise e)
        by (induction ls; [done|by cbn]).
      by rewrite Hraise.
Qed.

(** A diff that is not empty ends in the handler of [review_git_diff]. *)
Lemma review_git_diff_nonempty cfg repo_path branch commit_range w text :
  git w repo_path (diff_spec branch commit_range) = Diff text ->
  text <> EmptyString ->
  exists e,
    review_git_diff cfg repo_path branch commit_range w
    = (Return (error_payload ("审查Git差异时发生错误: " +:+ e)), w).
Proof.
  intros Hgit Hne. unfold review_git_diff, bind, get, ret.
  fold (diff_spec branch commit_range). rewrite Hgit.
  destruct (String.eqb_spec text EmptyString) as [->|_]; [done|].
  unfold try, bind, lift.
  destruct (changed_files text) as [changed|e]; [|by exists e].
  rewrite review_git_diff_prompt_raises. by eexists.
Qed.

Lemma handler_error_is_not_retry_limit cfg e :
  error_payload ("审查Git差异时发生错误: " +:+ e) <> max_retries_error cfg.
Proof.
  unfold max_retries_error, error_payload. intros H. discriminate H.
Qed.

End DiffReview.

(** X9.  [review_git_diff] never raises, never contacts the service and
    leaves the world as it was.  It returns the no-differences message for
    an empty diff, the error of the version-control tool when it fails, and
    for every diff that is not empty an error payload: either the changed
    files cannot be read off a header ([IndexError]) or the prompt cannot
    be formatted ([ValueError], braces in the f-string). *)
Theorem review_git_diff_never_calls_service (cfg : CodeReviewConfig)
    (repo_path branch : string) (commit_range : option string) (w : world) :
  let outcome := git w repo_path (GitSpec.diff_spec branch commit_range) in
  exists result,
    CodeReviewer.review_git_diff cfg repo_path branch commit_range w = (Return result, w)
    /\ (outcome = Diff EmptyString -> result = GitSpec.no_differences)
    /\ (outcome = InvalidGitRepositoryError ->
        result = error_payload (repo_path +:+ " 不是有效的Git仓库"))
    /\ (forall reason, outcome = GitCommandError reason ->
          result = error_payload ("Git命令执行失败: " +:+ reason))
    /\ (forall text, outcome = Diff text -> text <> EmptyString ->
          result = error_payload ("审查Git差异时发生错误: " +:+ "list index out of range")
          \/ result = error_payload
                        ("审查Git差异时发生错误: "
                         +:+ invalid_format_specifier GitSpec.file_reviews_spec))
    /\ (outcome <> Diff EmptyString -> has_key "error" result = true).
Proof.
  intros outcome. subst outcome.
  unfold CodeReviewer.review_git_diff, bind, get, ret.
  fold (GitSpec.diff_spec branch commit_range).
  destruct (git w repo_path (GitSpec.diff_spec branch commit_range))
    as [text| |reason|reason].
  - destruct (String.eqb_spec text EmptyString) as [->|Hne].
    + eexists. split; [reflexivity|]. repeat split; try done;
        first [intros t [= <-] Hn; by destruct Hn | intros Hn; by destruct Hn].
    + unfold try, bind, lift.
      assert (Hstep : forall e, CodeReviewer.changed_files text = Raise e ->
                                e = "list index out of range").
      { unfold CodeReviewer.changed_files.
        generalize (PyStr.split "010" text). intros lines.
        assert (H : forall acc, (forall e, acc = Raise e -> e = "list index out of range") ->
                      forall e, foldl CodeReviewer.changed_files_step acc lines = Raise e ->
                                e = "list index out of range").
        { induction lines as [|line lines IH]; intros acc Hacc e; cbn [foldl]; [apply Hacc|].
          apply IH. intros e'. unfold CodeReviewer.changed_files_step.
          destruct acc as [files|e0]; [|apply Hacc].
          destruct (PyStr.startswith line "diff --git"); [|done].
          destruct (3 <=? length (PyStr.split " " line))%nat; [|done].
          destruct (PyStr.split " " line !! 3%nat); [done|by intros [= <-]]. }
        apply H. done. }
      destruct (CodeReviewer.changed_files text) as [changed|e] eqn:Hch.
      * rewrite review_git_diff_prompt_raises. eexists. split; [reflexivity|].
        split; [intros [= ->]; by destruct Hne|]. split; [done|]. split; [done|].
        split; [intros t [= <-] _; by right|done].
      * rewrite (Hstep e eq_refl). eexists. split; [reflexivity|].
        split; [intros [= ->]; by destruct Hne|]. split; [done|]. split; [done|].
        split; [intros t [= <-] _; by left|done].
  - eexists. split; [reflexivity|]. repeat split; done.
  - eexists. split; [reflexivity|]. repeat split; try done. by intros r [= <-].
  - eexists. split; [reflexivity|]. repeat split; done.
Qed.

(** X10.  For a header line [diff --git a/p b/q] whose paths have no space
    (a rename when [p] and [q] differ), [changed_files] returns the
    new-file token as it stands, [b/q]: the prefix is not removed and the
    old path is ignored. *)
Theorem changed_files_returns_new_path_token (p q : string) :
  PyStr.mem_char " " p = false -> PyStr.mem_char "010" p = false ->
  PyStr.mem_char " " q = false -> PyStr.mem_char "010" q = false ->
  CodeReviewer.changed_files ("diff --git a/" +:+ p +:+ " b/" +:+ q)
  = Return ["b/" +:+ q].
Proof.
  intros Hsp Hnp Hsq Hnq. unfold CodeReviewer.changed_files.
  rewrite split_without by (rewrite !mem_char_app, Hnp, Hnq; reflexivity).
  cbn [foldl]. unfold CodeReviewer.changed_files_step.
  change (PyStr.startswith ("diff --git a/" +:+ p +:+ " b/" +:+ q) "diff --git") with true.
  cbn iota.
  change ("diff --git a/" +:+ p +:+ " b/" +:+ q)
    with ("diff" +:+ String " " ("--git" +:+ String " "
            (("a/" +:+ p) +:+ String " " ("b/" +:+ q)))).
  rewrite !split_at_first; [|by cbn; rewrite ?Hsp..].
  rewrite split_without by (by cbn; rewrite ?Hsq).
  cbn [length Nat.leb lookup list_lookup].
  reflexivity.
Qed.

Lemma changed_files_returns_new_path_token_witness :
  CodeReviewer.changed_files ("diff --git a/" +:+ "old.py" +:+ " b/" +:+ "new.py")
  = Return ["b/" +:+ "new.py"].
Proof.
  exact (changed_files_returns_new_path_token "old.py" "new.py"
           eq_refl eq_refl eq_refl eq_refl).
Defined.

(** X11.  No entry of the list [changed_files] returns begins with [a] or
    with [/]: the strip removes every leading character of the set, not
    the prefix [a/].  So a header written without prefixes loses the
    leading [a]s and slashes of its path. *)
Theorem changed_files_entries_start_clean (diff : string) (files : list string) :
  CodeReviewer.changed_files diff = Return files ->
  Forall GitSpec.starts_clean files.
Proof.
  unfold CodeReviewer.changed_files.
  apply (foldl_changed_files_clean _ (Return []) []); [done|constructor].
Qed.

Lemma changed_files_entries_start_clean_witness :
  CodeReviewer.changed_files "diff --git app/api.py app/api.py" = Return ["pp/api.py"]
  /\ Forall GitSpec.starts_clean ["pp/api.py"].
Proof.
  split; [reflexivity|].
  exact (changed_files_entries_start_clean
           "diff --git app/api.py app/api.py" ["pp/api.py"] eq_refl).
Defined.

(* ================================================================== *)
(** * Reviews and the client *)
(* ================================================================== *)

(** C5 (the code departs from the claim).  The call itself does what the
    claim says: an answer that is not JSON ends [_call_openai_api] at once
    with the invalid-format error, after one request and without a wait.
    But the review the claim speaks of never reaches the call:
    [review_file] raises [ValueError] while it formats its prompt, so it
    returns no error result, and re-invoking it makes no request either,
    although nothing was cached. *)
Theorem unparseable_response_never_requested (body : string) :
  let w := Scenario.fresh (Scenario.always (NotJson body)) in
  let first := CodeReviewer.review_file default_config "a.py" "x = 1" w in
  let second := CodeReviewer.review_file default_config "a.py" "x = 1" first.2 in
  (forall msgs,
     CodeReviewer._call_openai_api default_config msgs w
     = (Return CodeReviewer.invalid_json_error, RetrySpec.after w 1 []))
  /\ first.1 = Raise (invalid_format_specifier code_quality_spec)
  /\ requests first.2 = 0%nat
  /\ cache_files first.2 = ∅
  /\ second.1 = Raise (invalid_format_specifier code_quality_spec)
  /\ requests second.2 = 0%nat.
Proof.
  intros w first second. subst second first.
  rewrite !review_file_raises. cbn [fst snd].
  split; [|done].
  intros msgs. unfold CodeReviewer._call_openai_api.
  change (Z.to_nat (retry_count default_config)) with 3%nat.
  destruct (attempts_stop default_config msgs 2 0 w) as (_ & Hnot & _).
  by apply (Hnot body).
Qed.

(** C10 (the code departs from the claim).  The validator accepts a retry
    count of 0, and with such a configuration [_call_openai_api] makes no
    request and returns the retry-limit error, leaving the world as it
    was.  But no review resolves to it: [review_file] raises [ValueError]
    while it formats its prompt instead of returning an error payload, and
    [review_git_diff] returns, for a diff that is not empty, the error
    payload of its handler, which is not the retry-limit error. *)
Theorem zero_retry_count_review_raises (m : string) (t : pyfloat) (mt : Z)
    (ab : option string) (rd cw : Z) (cd : string) :
  let cfg := Config m t mt ab 0 rd cw cd in
  validate_retry_count 0 = Return 0
  /\ (ConfigSpec.in_bounds t 0 cw -> new_config m t mt ab 0 rd cw cd = inr cfg)
  /\ (forall msgs w,
        CodeReviewer._call_openai_api cfg msgs w
        = (Return (CodeReviewer.max_retries_error cfg), w))
  /\ (forall file_path file_content w,
        CodeReviewer.review_file cfg file_path file_content w
        = (Raise (invalid_format_specifier code_quality_spec), w))
  /\ (forall repo_path branch commit_range w text,
        git w repo_path (GitSpec.diff_spec branch commit_range) = Diff text ->
        text <> EmptyString ->
        exists result,
          CodeReviewer.review_git_diff cfg repo_path branch commit_range w
          = (Return result, w)
          /\ has_key "error" result = true
          /\ result <> CodeReviewer.max_retries_error cfg).
Proof.
  intros cfg. split; [done|]. split; [intros Hok; by apply new_config_accepts|].
  split; [done|]. split; [intros; apply review_file_raises|].
  intros repo_path branch commit_range w text Hgit Hne.
  destruct (review_git_diff_nonempty cfg repo_path branch commit_range w text Hgit Hne)
    as [e ->].
  eexists. split; [reflexivity|]. split; [done|].
  apply handler_error_is_not_retry_limit.
Qed.

(* ================================================================== *)
(** * Further properties of the batch review *)
(* ================================================================== *)

Section BatchReview.
Import CodeReviewer BatchSpec.

Variable cfg : CodeReviewConfig.

Lemma review_file_wrapper_task file_path w :
  _review_file_wrapper cfg file_path w = (task (files w) file_path, w).
Proof.
  unfold task, readable.
  destruct (files w !! file_path) as [[content size| |reason]|] eqn:Hf.
  - by apply review_file_wrapper_readable with content size.
  - rewrite review_file_wrapper_unreadable;
      unfold FileAnalyzer.analyze_file; by rewrite Hf.
  - rewrite review_file_wrapper_unreadable;
      unfold FileAnalyzer.analyze_file; by rewrite Hf.
  - rewrite review_file_wrapper_unreadable;
      unfold FileAnalyzer.analyze_file; by rewrite Hf.
Qed.

Lemma run_tasks_all file_paths w :
  run_tasks cfg file_paths w
  = (Return (map (fun p => (p, task (files w) p)) file_paths), w).
Proof.
  induction file_paths as [|p ps IH]; [done|].
  cbn [run_tasks map]. unfold bind, try. rewrite review_file_wrapper_task.
  rewrite IH. done.
Qed.

(** What the collection loop builds from the futures. *)
Lemma foldl_collect futures : forall results failed,
  let acc := foldl collect (results, failed) futures in
  acc.2 = failed ++ map fst (List.filter raised futures)
  /\ dom acc.1 = dom results ∪ list_to_set (map fst futures)
  /\ (forall p d, acc.1 !! p = Some d ->
        results !! p = Some d \/ exists o, In (p, o) futures /\ d = recorded o).
Proof.
  induction futures as [|[p o] futures IH]; intros results failed; cbn [foldl].
  - cbn. rewrite app_nil_r. split; [done|].
    split; [by rewrite (right_id_L ∅ (∪))|]. by left.
  - destruct o as [result|e]; cbn [collect].
    + destruct (IH (<[p := result]> results) failed) as (Hf & Hd & Hl).
      cbn zeta in *. split; [|split].
      * rewrite Hf. done.
      * rewrite Hd, dom_insert_L. cbn [map fst list_to_set].
        by rewrite (comm_L (∪) {[p]}), <- (assoc_L (∪)).
      * intros q d Hq. destruct (Hl q d Hq) as [Hin|(o & Hin & ->)].
        -- destruct (decide (p = q)) as [<-|Hne].
           ++ rewrite lookup_insert_eq in Hin. injection Hin as <-.
              right. exists (Return result). split; [by left|done].
           ++ rewrite lookup_insert_ne in Hin by done. by left.
        -- right. exists o. split; [by right|done].
    + destruct (IH (<[p := error_payload e]> results) (failed ++ [p])) as (Hf & Hd & Hl).
      cbn zeta in *. split; [|split].
      * rewrite Hf. cbn [List.filter raised snd map fst]. by rewrite <- app_assoc.
      * rewrite Hd, dom_insert_L. cbn [map fst list_to_set].
        by rewrite (comm_L (∪) {[p]}), <- (assoc_L (∪)).
      * intros q d Hq. destruct (Hl q d Hq) as [Hin|(o & Hin & ->)].
        -- destruct (decide (p = q)) as [<-|Hne].
           ++ rewrite lookup_insert_eq in Hin. injection Hin as <-.
              right. exists (Raise e). split; [by left|done].
           ++ rewrite lookup_insert_ne in Hin by done. by left.
        -- right. exists o. split; [by right|done].
Qed.

Lemma batch_review_files_run file_paths w :
  let futures := map (fun p => (p, task (files w) p)) file_paths in
  let acc := foldl collect (∅, []) futures in
  batch_review_files cfg file_paths w
  = (Return (Batch (Summary (Z.of_nat (length file_paths))
                      (Z.of_nat (size acc.1) - Z.of_nat (length acc.2))
                      (Z.of_nat (length acc.2)) acc.2 (now w))
               acc.1), w).
Proof.
  intros futures acc. unfold batch_review_files, bind. rewrite run_tasks_all.
  fold futures. fold acc. destruct acc as [results failed]. done.
Qed.

Lemma filter_raised_tasks fs file_paths :
  map fst (List.filter raised (map (fun p => (p, task fs p)) file_paths))
  = List.filter (readable fs) file_paths.
Proof.
  induction file_paths as [|p ps IH]; [done|].
  cbn [map List.filter]. unfold raised at 1, task at 1. cbn [snd].
  destruct (readable fs p); cbn [map fst]; by rewrite IH.
Qed.

Lemma batch_review_files_results file_paths w :
  exists r,
    batch_review_files cfg file_paths w = (Return r, w)
    /\ total_files (summary r) = Z.of_nat (length file_paths)
    /\ (forall p, p ∈ file_paths <-> is_Some (file_reviews r !! p))
    /\ (forall p result, file_reviews r !! p = Some result ->
          has_key "error" result = true).
Proof.
  eexists. split; [apply batch_review_files_run|].
  set (futures := map (fun p => (p, task (files w) p)) file_paths).
  destruct (foldl_collect futures ∅ []) as (_ & Hd & Hl). cbn zeta in Hd, Hl.
  cbn [summary file_reviews total_files].
  assert (Hfst : map fst futures = file_paths).
  { subst futures. rewrite map_map. cbn [fst]. apply map_id. }
  rewrite Hfst, dom_empty_L, (left_id_L ∅ (∪)) in Hd.
  split; [done|]. split.
  - intros p. by rewrite <- elem_of_dom, Hd, elem_of_list_to_set.
  - intros p d Hp. destruct (Hl p d Hp) as [Hempty|(o & Hin & ->)].
    + by rewrite lookup_empty in Hempty.
    + subst futures. apply in_map_iff in Hin as (q & [= <- <-] & Hq).
      unfold task, readable, FileAnalyzer.analyze_file.
      by destruct (files w !! _) as [[| |]|].
Qed.

End BatchReview.

(** X12.  With at least one worker (the thread pool refuses fewer),
    [batch_review_files] never raises and its summary is consistent with
    its results: [total_files] is the number of paths given, every path
    given and no other has a result, [failed_reviews] is the length of
    [failed_files], every failed file is one of the paths, and
    [successful_reviews] is the number of results minus the number of
    failed files; when no path is given twice, successes and failures add
    up to the total. *)
Theorem batch_summary_is_consistent (cfg : CodeReviewConfig)
    (file_paths : list string) (w : world) :
  1 <= concurrent_workers cfg ->
  exists r w',
    CodeReviewer.batch_review_files cfg file_paths w = (Return r, w')
    /\ CodeReviewer.total_files (CodeReviewer.summary r) = Z.of_nat (length file_paths)
    /\ CodeReviewer.failed_reviews (CodeReviewer.summary r)
       = Z.of_nat (length (CodeReviewer.failed_files (CodeReviewer.summary r)))
    /\ CodeReviewer.successful_reviews (CodeReviewer.summary r)
       = Z.of_nat (size (CodeReviewer.file_reviews r))
         - CodeReviewer.failed_reviews (CodeReviewer.summary r)
    /\ (forall p, p ∈ file_paths <-> is_Some (CodeReviewer.file_reviews r !! p))
    /\ (forall p, In p (CodeReviewer.failed_files (CodeReviewer.summary r)) ->
                  In p file_paths)
    /\ CodeReviewer.timestamp (CodeReviewer.summary r) = now w
    /\ (NoDup file_paths ->
        CodeReviewer.successful_reviews (CodeReviewer.summary r)
        + CodeReviewer.failed_reviews (CodeReviewer.summary r)
        = CodeReviewer.total_files (CodeReviewer.summary r)).
Proof.
  intros _. eexists _, _. split; [apply batch_review_files_run|].
  set (futures := map (fun p => (p, BatchSpec.task (files w) p)) file_paths).
  destruct (foldl_collect futures ∅ []) as (Hf & Hd & Hl). cbn zeta in Hf, Hd, Hl.
  cbn [CodeReviewer.summary CodeReviewer.file_reviews CodeReviewer.total_files
       CodeReviewer.failed_reviews CodeReviewer.successful_reviews
       CodeReviewer.failed_files CodeReviewer.timestamp].
  assert (Hfst : map fst futures = file_paths).
  { subst futures. rewrite map_map. cbn [fst]. apply map_id. }
  rewrite Hfst in Hd. rewrite dom_empty_L, (left_id_L ∅ (∪)) in Hd.
  split; [done|]. split; [done|]. split; [done|]. split; [|split; [|split]].
  - intros p. rewrite <- elem_of_dom, Hd. by rewrite elem_of_list_to_set.
  - intros p. rewrite Hf. cbn [app]. intros Hin.
    apply in_map_iff in Hin as ([q o] & <- & Hin). apply filter_In in Hin as [Hin _].
    rewrite <- Hfst. apply in_map_iff. by exists (q, o).
  - done.
  - intros Hnd.
    assert (Hsize : size (foldl CodeReviewer.collect (∅, []) futures).1 = length file_paths).
    { rewrite <- size_dom, Hd. by apply size_list_to_set. }
    rewrite Hsize. lia.
Qed.

Lemma batch_summary_is_consistent_witness :
  exists r w',
    CodeReviewer.batch_review_files default_config ["a.py"; "missing.py"]
      (Scenario.fresh (Scenario.always (Parsed []))) = (Return r, w')
    /\ CodeReviewer.total_files (CodeReviewer.summary r) = 2
    /\ CodeReviewer.successful_reviews (CodeReviewer.summary r)
       + CodeReviewer.failed_reviews (CodeReviewer.summary r) = 2.
Proof.
  destruct (batch_summary_is_consistent default_config ["a.py"; "missing.py"]
              (Scenario.fresh (Scenario.always (Parsed []))))
    as (r & w' & Hrun & Htotal & _ & _ & _ & _ & _ & Hsum); [cbn; lia|].
  exists r, w'. split; [exact Hrun|]. split; [exact Htotal|].
  rewrite Hsum; [exact Htotal|].
  apply NoDup_cons. split; [|apply NoDup_singleton].
  intros Hin. apply list_elem_of_singleton in Hin. discriminate Hin.
Defined.

(** X13.  As [review_file] raises for every file, a batch (with at least
    one worker) never contacts the service and leaves the world as it was;
    every result it returns is an error payload; the files it lists as
    failed are, up to their order, exactly the paths that can be read,
    while a path that cannot be read is not listed and, when no path is
    given twice, counts as a success. *)
Theorem batch_fails_exactly_the_readable_files (cfg : CodeReviewConfig)
    (file_paths : list string) (w : world) :
  1 <= concurrent_workers cfg ->
  exists r,
    CodeReviewer.batch_review_files cfg file_paths w = (Return r, w)
    /\ CodeReviewer.failed_files (CodeReviewer.summary r)
       ≡ₚ List.filter (BatchSpec.readable (files w)) file_paths
    /\ (forall p result, CodeReviewer.file_reviews r !! p = Some result ->
          has_key "error" result = true)
    /\ (forall p, p ∈ file_paths ->
          CodeReviewer.file_reviews r !! p
          = Some (BatchSpec.recorded (BatchSpec.task (files w) p)))
    /\ (NoDup file_paths ->
        CodeReviewer.successful_reviews (CodeReviewer.summary r)
        = Z.of_nat (length (List.filter (fun p => negb (BatchSpec.readable (files w) p))
                              file_paths))).
Proof.
  intros _. eexists. split; [apply batch_review_files_run|].
  set (futures := map (fun p => (p, BatchSpec.task (files w) p)) file_paths).
  destruct (foldl_collect futures ∅ []) as (Hf & Hd & Hl). cbn zeta in Hf, Hd, Hl.
  cbn [CodeReviewer.summary CodeReviewer.file_reviews CodeReviewer.total_files
       CodeReviewer.failed_reviews CodeReviewer.successful_reviews
       CodeReviewer.failed_files CodeReviewer.timestamp].
  assert (Hfst : map fst futures = file_paths).
  { subst futures. rewrite map_map. cbn [fst]. apply map_id. }
  assert (Hfailed : (foldl CodeReviewer.collect (∅, []) futures).2
                    = List.filter (BatchSpec.readable (files w)) file_paths).
  { rewrite Hf. cbn [app]. subst futures. apply filter_raised_tasks. }
  assert (Hrec : forall p d, (foldl CodeReviewer.collect (∅, []) futures).1 !! p = Some d ->
                   In p file_paths /\ d = BatchSpec.recorded (BatchSpec.task (files w) p)).
  { intros p d Hp. destruct (Hl p d Hp) as [Hempty|(o & Hin & ->)].
    - by rewrite lookup_empty in Hempty.
    - subst futures. apply in_map_iff in Hin as (q & [= <- <-] & Hq). done. }
  split; [by rewrite Hfailed|]. split; [|split].
  - intros p d Hp. destruct (Hrec p d Hp) as [_ ->].
    unfold BatchSpec.task, BatchSpec.readable, FileAnalyzer.analyze_file.
    by destruct (files w !! p) as [[| |]|].
  - intros p Hp.
    assert (Hsome : is_Some ((foldl CodeReviewer.collect (∅, []) futures).1 !! p)).
    { rewrite <- elem_of_dom, Hd, Hfst. apply elem_of_union_r.
      by apply elem_of_list_to_set. }
    destruct Hsome as [d Hd']. rewrite Hd'. by destruct (Hrec p d Hd') as [_ ->].
  - intros Hnd.
    assert (Hsize : size (foldl CodeReviewer.collect (∅, []) futures).1 = length file_paths).
    { rewrite <- size_dom, Hd, Hfst, dom_empty_L, (left_id_L ∅ (∪)).
      by apply size_list_to_set. }
    rewrite Hsize, Hfailed.
    assert (Hsplit : forall l : list string,
              length l = (length (List.filter (BatchSpec.readable (files w)) l)
                          + length (List.filter
                                      (fun p => negb (BatchSpec.readable (files w) p)) l))%nat).
    { induction l as [|x l IHl]; [done|]. cbn [List.filter length].
      destruct (BatchSpec.readable (files w) x); cbn [negb length]; lia. }
    rewrite (Hsplit file_paths) at 1. lia.
Qed.

Lemma batch_fails_exactly_the_readable_files_witness :
  exists r,
    CodeReviewer.batch_review_files default_config ["a.py"; "missing.py"]
      (World {[ "a.py" := Text "x = 1" 5 ]} ∅ true (Scenario.always (Parsed []))
         0 [] "2024-01-01T00:00:00" (fun _ _ => Diff EmptyString))
    = (Return r,
       World {[ "a.py" := Text "x = 1" 5 ]} ∅ true (Scenario.always (Parsed []))
         0 [] "2024-01-01T00:00:00" (fun _ _ => Diff EmptyString))
    /\ CodeReviewer.successful_reviews (CodeReviewer.summary r)
       = Z.of_nat (length (List.filter
                             (fun p => negb (BatchSpec.readable {[ "a.py" := Text "x = 1" 5 ]} p))
                             ["a.py"; "missing.py"])).
Proof.
  destruct (batch_fails_exactly_the_readable_files default_config ["a.py"; "missing.py"]
              (World {[ "a.py" := Text "x = 1" 5 ]} ∅ true (Scenario.always (Parsed []))
                 0 [] "2024-01-01T00:00:00" (fun _ _ => Diff EmptyString)))
    as (r & Hrun & _ & _ & _ & Hsucc); [cbn; lia|].
  exists r. split; [exact Hrun|]. apply Hsucc.
  apply NoDup_cons. split; [|apply NoDup_singleton].
  intros Hin. apply list_elem_of_singleton in Hin. discriminate Hin.
Defined.

(* ================================================================== *)
(** * Further properties of the command line program *)
(* ================================================================== *)

Section Program.
Import Main MainSpec.

Lemma review_git_diff_result cfg repo_path branch commit_range w :
  exists result,
    CodeReviewer.review_git_diff cfg repo_path branch commit_range w = (Return result, w)
    /\ (result = GitSpec.no_differences \/ has_key "error" result = true).
Proof.
  unfold CodeReviewer.review_git_diff, bind, get, ret.
  fold (GitSpec.diff_spec branch commit_range).
  destruct (git w repo_path (GitSpec.diff_spec branch commit_range))
    as [text| |reason|reason]; try (eexists; split; [done|by right]).
  destruct (String.eqb text EmptyString); [eexists; split; [done|by left]|].
  unfold try, bind, lift.
  destruct (CodeReviewer.changed_files text) as [changed|e];
    [|eexists; split; [done|by right]].
  rewrite review_git_diff_prompt_raises. eexists; split; [done|by right].
Qed.

Lemma run_file_exits cfg file w :
  exists r, run_file cfg file w = (r, w) /\ (r = Return (Exit 1) \/ exists e, r = Raise e).
Proof.
  unfold run_file, bind, get, ret, raise.
  destruct (has_key "error" (FileAnalyzer.analyze_file (files w) file));
    [eexists; split; [done|by left]|].
  destruct (get_key "content" (FileAnalyzer.analyze_file (files w) file)) as [[]|];
    try rewrite review_file_raises; eexists; (split; [done|right; by eexists]).
Qed.

(** The paths the [--dir] branch passes on to the batch. *)
Lemma run_dir_selection env cfg args dir w :
  let found := FileAnalyzer.find_files (tree_at env dir) dir (extensions_of args) in
  let selected :=
    if (0 <? arg_min_size args)
       || match arg_max_size args with
          | Some m => negb (m =? 0)
          | None => false
          end
    then FileAnalyzer.filter_files_by_size (sizes env) found
           (arg_min_size args) (arg_max_size args)
    else found in
  exists e,
    run_dir env cfg args dir w = (Return e, w)
    /\ shows_no_review e
    /\ match e with
       | Exit status => status = 0 /\ selected = []
       | RenderOne _ => False
       | RenderBatch r =>
           CodeReviewer.total_files (CodeReviewer.summary r)
           = Z.of_nat (length selected)
           /\ forall p, p ∈ selected <-> is_Some (CodeReviewer.file_reviews r !! p)
       end.
Proof.
  intros found selected. unfold run_dir. fold found. fold selected.
  destruct selected as [|p ps] eqn:Hsel.
  - exists (Exit 0). split; [done|]. split; [by left|done].
  - unfold bind, ret.
    destruct (batch_review_files_results cfg (p :: ps) w) as (r & -> & Htotal & Hdom & Herr).
    exists (RenderBatch r). split; [done|]. split; [|done].
    split; [|done]. rewrite Htotal. cbn [length]. lia.
Qed.

Lemma run_repo_ends cfg args repo w :
  exists r, run_repo cfg args repo w = (Return (RenderOne r), w)
            /\ shows_no_review (RenderOne r).
Proof.
  unfold run_repo, bind, ret.
  destruct (review_git_diff_result cfg repo (arg_branch args) (arg_commit_range args) w)
    as (result & -> & Hres). by eexists.
Qed.

(** The review itself: the dispatch of [main] under its [try]. *)
Lemma dispatch_ends env cfg args w :
  exists e,
    bind (try (if given (arg_file args)
               then run_file cfg (default EmptyString (arg_file args))
               else if given (arg_dir args)
               then run_dir env cfg args (default EmptyString (arg_dir args))
               else if given (arg_repo args)
               then run_repo cfg args (default EmptyString (arg_repo args))
               else raise "result"))
      (fun r => match r with
                | Return e => ret e
                | Raise _ => ret (Exit 1)
                end) w = (Return e, w)
    /\ e <> Exit 2
    /\ shows_no_review e
    /\ (arg_file args <> None -> arg_dir args = None -> arg_repo args = None ->
        e = Exit 1)
    /\ (arg_file args = None -> arg_dir args = None -> given (arg_repo args) = true ->
        exists result, e = RenderOne result).
Proof.
  unfold bind at 1, try.
  destruct (given (arg_file args)) eqn:Hf.
  - destruct (run_file_exits cfg (default EmptyString (arg_file args)) w)
      as (r & -> & [->|[e ->]]); cbn; eexists; (split; [done|]);
      (split; [done|]); (split; [by right; left|]); (split; [done|]);
      intros Hfile; by rewrite Hfile in Hf.
  - destruct (given (arg_dir args)) eqn:Hd.
    + destruct (run_dir_selection env cfg args (default EmptyString (arg_dir args)) w)
        as (e & -> & Hshow & Hsel).
      exists e. split; [done|].
      split; [destruct e as [status|result|r]; [|done|done]; by destruct Hsel as [-> _]|].
      split; [done|]. split; intros _ Hdir; by rewrite Hdir in Hd.
    + destruct (given (arg_repo args)) eqn:Hr.
      * destruct (run_repo_ends cfg args (default EmptyString (arg_repo args)) w)
          as (r & -> & Hshow); cbn; eexists; (split; [done|]); (split; [done|]).
        split; [done|]. split; [|by eexists].
        intros _ _ Hrepo. by rewrite Hrepo in Hr.
      * cbn. eexists; (split; [done|]); (split; [done|]). split; [by right; left|].
        by split.
Qed.

Lemma main_ends env args w :
  count_inputs args = 1 ->
  exists e, main env args w = (Return e, cleaned env args w)
            /\ e <> Exit 2
            /\ shows_no_review e
            /\ (arg_file args <> None -> arg_dir args = None -> arg_repo args = None ->
                e = Exit 1)
            /\ (given (OPENAI_API_KEY env) = false -> e = Exit 1)
            /\ (arg_file args = None -> arg_dir args = None ->
                given (arg_repo args) = true ->
                ((exists result, e = RenderOne result)
                 <-> ConfigSpec.temperature_in_bounds (arg_temperature args)
                     /\ 1 <= arg_workers args
                     /\ given (OPENAI_API_KEY env) = true
                     /\ makedirs env (cache_of env args) = true)
                /\ (e = Exit 1 \/ exists result, e = RenderOne result)).
Proof.
  intros Hone. unfold main. rewrite Hone. cbn [Z.eqb Pos.eqb negb].
  fold (cache_of env args).
  set (base := if given (arg_api_base args) then arg_api_base args else None).
  assert (Hfinish : forall e : ending,
            bind (if arg_no_cache args then rmtree (mkdtemp env) else ret tt)
              (fun _ => ret e) w = (Return e, cleaned env args w)).
  { intros e. unfold bind, cleaned, rmtree, ret. by destruct (arg_no_cache args). }
  unfold bind at 1.
  assert (Hdec : ConfigSpec.in_bounds (arg_temperature args) 3 (arg_workers args)
                 \/ ~ ConfigSpec.in_bounds (arg_temperature args) 3 (arg_workers args)).
  { destruct (int_le_float 0 (arg_temperature args)
              && float_le_int (arg_temperature args) 2) eqn:Ht.
    - apply temperature_check in Ht.
      destruct (Z.le_gt_cases 1 (arg_workers args)) as [Hw|Hw].
      + left. split; [done|]. split; [lia|done].
      + right. intros (_ & _ & Hw'). lia.
    - right. intros (Ht' & _). apply temperature_check in Ht'. congruence. }
  destruct Hdec as [Hok|Hbad].
  - rewrite (new_config_accepts _ _ _ _ _ _ _ _ Hok).
    destruct Hok as (Ht & _ & Hw).
    unfold init. cbn [api_base cache_dir].
    destruct (given (OPENAI_API_KEY env)) eqn:Hkey; cbn [negb].
    + destruct (makedirs env (cache_of env args)) eqn:Hmk.
      * destruct (dispatch_ends env
                    (Config (arg_model args) (arg_temperature args) (arg_max_tokens args)
                       base 3 2 (arg_workers args) (cache_of env args)) args w)
          as (e & -> & Hne & Hshow & Hfile & Hrepo).
        exists e. split; [apply Hfinish|]. split; [done|]. split; [done|].
        split; [done|]. split; [done|]. intros H1 H2 H3.
        split; [|right; by apply Hrepo]. split; [done|].
        intros _. by apply Hrepo.
      * cbn [ret]. exists (Exit 1). split; [apply Hfinish|]. split; [done|].
        split; [by right; left|]. split; [done|]. split; [done|].
        intros _ _ _. split; [|by left].
        split; [by intros [? ?]|]. by intros (_ & _ & _ & ?).
    + cbn [ret]. exists (Exit 1). split; [apply Hfinish|]. split; [done|].
      split; [by right; left|]. split; [done|]. split; [done|].
      intros _ _ _. split; [|by left].
      split; [by intros [? ?]|]. by intros (_ & _ & ? & _).
  - destruct (new_config_rejects (arg_model args) (arg_temperature args)
                (arg_max_tokens args) base 3 2 (arg_workers args) (cache_of env args) Hbad)
      as (errs & _ & ->).
    cbn [ret]. exists (Exit 1). split; [apply Hfinish|]. split; [done|].
    split; [by right; left|]. split; [done|]. split; [done|].
    intros _ _ _. split; [|by left].
    split; [by intros [? ?]|]. intros (Ht & Hw & _ & _).
    destruct Hbad. split; [done|]. split; [lia|done].
Qed.

Lemma count_inputs_one args :
  count_inputs args = 1
  <-> (arg_file args <> None /\ arg_dir args = None /\ arg_repo args = None)
      \/ (arg_file args = None /\ arg_dir args <> None /\ arg_repo args = None)
      \/ (arg_file args = None /\ arg_dir args = None /\ arg_repo args <> None).
Proof.
  unfold count_inputs.
  destruct (arg_file args), (arg_dir args), (arg_repo args); cbn;
    intuition (try congruence; try lia).
Qed.

Lemma cleaned_keeps env args w :
  requests (cleaned env args w) = requests w
  /\ slept (cleaned env args w) = slept w
  /\ files (cleaned env args w) = files w
  /\ cache_files (cleaned env args w) ⊆ cache_files w
  /\ (arg_no_cache args = false -> cleaned env args w = w).
Proof.
  unfold cleaned. destruct (arg_no_cache args); cbn; [|done].
  split; [done|]. split; [done|]. split; [done|].
  split; [apply map_filter_subseteq|done].
Qed.

End Program.

(** X14.  Every run of [main] on parsed arguments exits or reaches the
    formatting of a result, and it exits with status 2, having touched
    nothing, exactly when the number of inputs given among [--file],
    [--dir] and [--repo] is not one. *)
Theorem main_exits_2_iff_not_one_input (env : Main.Env) (args : Main.Args) (w : world) :
  exists e w',
    Main.main env args w = (Return e, w')
    /\ (e = Main.Exit 2
        <-> ~ ((Main.arg_file args <> None /\ Main.arg_dir args = None
                /\ Main.arg_repo args = None)
               \/ (Main.arg_file args = None /\ Main.arg_dir args <> None
                   /\ Main.arg_repo args = None)
               \/ (Main.arg_file args = None /\ Main.arg_dir args = None
                   /\ Main.arg_repo args <> None)))
    /\ (e = Main.Exit 2 -> w' = w).
Proof.
  pose proof (count_inputs_one args) as Hiff.
  destruct (Z.eq_dec (Main.count_inputs args) 1) as [Hone|Hne].
  - destruct (main_ends env args w Hone) as (e & Hrun & Hne & _).
    exists e, (MainSpec.cleaned env args w). split; [done|]. split; [|done].
    split; [done|]. intros Hn. destruct Hn. by apply Hiff.
  - exists (Main.Exit 2), w. split.
    + unfold Main.main. apply Z.eqb_neq in Hne. by rewrite Hne.
    + split; [|done]. split; [|done]. intros _ Hn. apply Hne. by apply Hiff.
Qed.

(** X15.  A run with [--file] alone never produces a review: whatever the
    file, the key, the cache and the service, it ends with status 1, and no
    request has been made. *)
Theorem main_file_always_exits_1 (env : Main.Env) (args : Main.Args) (w : world)
    (file : string) :
  Main.arg_file args = Some file ->
  Main.arg_dir args = None ->
  Main.arg_repo args = None ->
  exists w',
    Main.main env args w = (Return (Main.Exit 1), w')
    /\ requests w' = requests w /\ slept w' = slept w.
Proof.
  intros Hfile Hdir Hrepo.
  assert (Hone : Main.count_inputs args = 1).
  { unfold Main.count_inputs. by rewrite Hfile, Hdir, Hrepo. }
  destruct (main_ends env args w Hone) as (e & Hrun & _ & _ & Hexit & _).
  exists (MainSpec.cleaned env args w).
  destruct (cleaned_keeps env args w) as (Hr & Hs & _).
  split; [|by split].
  rewrite Hrun. f_equal. f_equal. apply Hexit; [by rewrite Hfile|done|done].
Qed.

Lemma main_file_always_exits_1_witness :
  exists w',
    Main.main (MainSpec.small_project (Some "sk-test")) (MainSpec.with_file "src/a.py")
      (Scenario.fresh (Scenario.always (Parsed [])))
    = (Return (Main.Exit 1), w')
    /\ requests w' = 0%nat /\ slept w' = [].
Proof.
  apply (main_file_always_exits_1 (MainSpec.small_project (Some "sk-test"))
           (MainSpec.with_file "src/a.py")
           (Scenario.fresh (Scenario.always (Parsed []))) "src/a.py"); reflexivity.
Defined.

(** X16.  Up to the formatting of its result, no run of [main] contacts
    the service, waits, or changes a source file; the only change it makes
    is the removal of the temporary cache with [--no-cache]: no cache entry
    is added or changed. *)
Theorem main_never_contacts_service (env : Main.Env) (args : Main.Args) (w : world) :
  exists e w',
    Main.main env args w = (Return e, w')
    /\ requests w' = requests w
    /\ slept w' = slept w
    /\ files w' = files w
    /\ cache_files w' ⊆ cache_files w
    /\ (Main.arg_no_cache args = false -> w' = w).
Proof.
  destruct (Z.eq_dec (Main.count_inputs args) 1) as [Hone|Hne].
  - destruct (main_ends env args w Hone) as (e & Hrun & _).
    exists e, (MainSpec.cleaned env args w). split; [done|]. apply cleaned_keeps.
  - exists (Main.Exit 2), w. unfold Main.main.
    apply Z.eqb_neq in Hne. rewrite Hne. cbn [negb]. by split.
Qed.

(** X17.  No run of [main] shows a review: it exits with status 0, 1 or 2,
    or what it formats is the no-differences message or an error payload
    (for [--repo]), or a batch of at least one file in which every result
    is an error payload (for [--dir]). *)
Theorem main_shows_no_review (env : Main.Env) (args : Main.Args) (w : world) :
  exists e w',
    Main.main env args w = (Return e, w') /\ MainSpec.shows_no_review e.
Proof.
  destruct (Z.eq_dec (Main.count_inputs args) 1) as [Hone|Hne].
  - destruct (main_ends env args w Hone) as (e & Hrun & _ & Hshow & _).
    by exists e, (MainSpec.cleaned env args w).
  - exists (Main.Exit 2), w. unfold Main.main.
    apply Z.eqb_neq in Hne. rewrite Hne. cbn [negb]. split; [done|].
    by right; right.
Qed.

(** X18.  In the [--dir] branch (run with a configuration of at least one
    worker), [--max-size 0] is no bound: when no minimum size is asked for,
    every file found is passed to the batch, whatever its size, and the run
    exits with status 0 only when no file was found. *)
Theorem run_dir_max_size_zero_is_no_bound (env : Main.Env) (cfg : CodeReviewConfig)
    (args : Main.Args) (dir : string) (w : world) :
  1 <= concurrent_workers cfg ->
  Main.arg_min_size args <= 0 ->
  Main.arg_max_size args = Some 0 ->
  let found := FileAnalyzer.find_files (Main.tree_at env dir) dir
                 (Main.extensions_of args) in
  exists e,
    Main.run_dir env cfg args dir w = (Return e, w)
    /\ match e with
       | Main.Exit status => status = 0 /\ found = []
       | Main.RenderOne _ => False
       | Main.RenderBatch r =>
           CodeReviewer.total_files (CodeReviewer.summary r) = Z.of_nat (length found)
           /\ forall p, p ∈ found <-> is_Some (CodeReviewer.file_reviews r !! p)
       end.
Proof.
  intros _ Hmin Hmax found.
  destruct (run_dir_selection env cfg args dir w) as (e & Hrun & _ & Hsel).
  exists e. split; [done|]. fold found in Hsel. rewrite Hmax in Hsel.
  destruct (Z.ltb_spec 0 (Main.arg_min_size args)); [lia|]. exact Hsel.
Qed.

Lemma run_dir_max_size_zero_is_no_bound_witness :
  exists e,
    Main.run_dir (MainSpec.small_project (Some "sk-test")) default_config
      (MainSpec.with_dir "src" 0 (Some 0)) "src"
      (Scenario.fresh (Scenario.always (Parsed []))) = (Return e, Scenario.fresh (Scenario.always (Parsed [])))
    /\ match e with
       | Main.Exit status => False
       | Main.RenderOne _ => False
       | Main.RenderBatch r =>
           CodeReviewer.total_files (CodeReviewer.summary r) = 2
           /\ is_Some (CodeReviewer.file_reviews r !! "src/a.py")
       end.
Proof.
  destruct (run_dir_max_size_zero_is_no_bound (MainSpec.small_project (Some "sk-test"))
              default_config (MainSpec.with_dir "src" 0 (Some 0)) "src"
              (Scenario.fresh (Scenario.always (Parsed []))))
    as (e & Hrun & He); [cbn; lia|cbn; lia|reflexivity|].
  exists e. split; [exact Hrun|].
  destruct e as [status|result|r].
  - destruct He as [_ He]. vm_compute in He. discriminate He.
  - exact He.
  - destruct He as [Htotal Hdom]. split; [exact Htotal|].
    apply Hdom. vm_compute. left.
Defined.

(** X19.  In the [--dir] branch (run with a configuration of at least one
    worker), when a minimum size above 0 or a maximum size other than 0 is
    asked for, the files passed to the batch are exactly the files found
    whose size can be read and lies within the bounds; the run exits with
    status 0 exactly when there is none: an exit means that no file found
    is within the bounds, and a batch holds at least one that is. *)
Theorem run_dir_reviews_sizes_in_range (env : Main.Env) (cfg : CodeReviewConfig)
    (args : Main.Args) (dir : string) (w : world) :
  1 <= concurrent_workers cfg ->
  0 < Main.arg_min_size args
  \/ (exists m, Main.arg_max_size args = Some m /\ m <> 0) ->
  let found := FileAnalyzer.find_files (Main.tree_at env dir) dir
                 (Main.extensions_of args) in
  exists e,
    Main.run_dir env cfg args dir w = (Return e, w)
    /\ match e with
       | Main.Exit status =>
           status = 0
           /\ forall p, In p found -> ~ MainSpec.size_in_range env args p
       | Main.RenderOne _ => False
       | Main.RenderBatch r =>
           (exists p, In p found /\ MainSpec.size_in_range env args p)
           /\ forall p, is_Some (CodeReviewer.file_reviews r !! p)
                        <-> In p found /\ MainSpec.size_in_range env args p
       end.
Proof.
  intros _ Hbound found.
  destruct (run_dir_selection env cfg args dir w) as (e & Hrun & Hshow & Hsel).
  exists e. split; [done|]. fold found in Hsel.
  assert (Hcond : (0 <? Main.arg_min_size args)
                  || match Main.arg_max_size args with
                     | Some m => negb (m =? 0)
                     | None => false
                     end = true).
  { apply orb_true_iff. destruct Hbound as [Hmin|(m & -> & Hm)].
    - left. by apply Z.ltb_lt.
    - right. apply negb_true_iff. by apply Z.eqb_neq. }
  rewrite Hcond in Hsel.
  assert (Hin : forall p,
            In p (FileAnalyzer.filter_files_by_size (Main.sizes env) found
                    (Main.arg_min_size args) (Main.arg_max_size args))
            <-> In p found /\ MainSpec.size_in_range env args p).
  { intros p. unfold FileAnalyzer.filter_files_by_size.
    rewrite keep_by_size_filter. cbn [app]. rewrite filter_In.
    unfold MainSpec.size_in_range. split.
    - intros [Hp Hok]. split; [done|].
      destruct (Main.sizes env !! p) as [size|]; [|done].
      apply andb_true_iff in Hok as [Hlo Hhi]. exists size.
      split; [done|]. split; [lia|]. intros m Hm. rewrite Hm in Hhi. lia.
    - intros [Hp (size & -> & Hlo & Hhi)]. split; [done|].
      apply andb_true_iff. split; [lia|].
      destruct (Main.arg_max_size args) as [m|]; [|done].
      specialize (Hhi m eq_refl). lia. }
  destruct e as [status|result|r].
  - destruct Hsel as [-> Hnil]. split; [done|]. intros p Hp Hrange.
    assert (Hp' : In p []) by (rewrite <- Hnil; by apply Hin). done.
  - done.
  - destruct Hsel as [Htotal Hdom]. destruct Hshow as [Hone _]. split.
    + destruct (FileAnalyzer.filter_files_by_size (Main.sizes env) found
                  (Main.arg_min_size args) (Main.arg_max_size args)) as [|p ps] eqn:Hkept.
      * rewrite Htotal in Hone. cbn in Hone. lia.
      * exists p. apply Hin. by left.
    + intros p. rewrite <- Hdom, <- Hin. by rewrite list_elem_of_In.
Qed.

Lemma run_dir_reviews_sizes_in_range_witness :
  exists e,
    Main.run_dir (MainSpec.small_project (Some "sk-test")) default_config
      (MainSpec.with_dir "src" 1 None) "src"
      (Scenario.fresh (Scenario.always (Parsed [])))
    = (Return e, Scenario.fresh (Scenario.always (Parsed [])))
    /\ match e with
       | Main.Exit status => False
       | Main.RenderOne _ => False
       | Main.RenderBatch r =>
           CodeReviewer.file_reviews r !! "src/notes.txt" = None
       end.
Proof.
  destruct (run_dir_reviews_sizes_in_range (MainSpec.small_project (Some "sk-test"))
              default_config (MainSpec.with_dir "src" 1 None) "src"
              (Scenario.fresh (Scenario.always (Parsed []))))
    as (e & Hrun & He); [cbn; lia|left; cbn; lia|].
  exists e. split; [exact Hrun|].
  assert (Ha : ({[ "src/a.py" := 120; "src/notes.txt" := 0 ]} : gmap string Z)
               !! "src/a.py" = Some 120).
  { rewrite lookup_insert_eq. reflexivity. }
  assert (Hn : ({[ "src/a.py" := 120; "src/notes.txt" := 0 ]} : gmap string Z)
               !! "src/notes.txt" = Some 0).
  { rewrite lookup_insert_ne by discriminate. apply lookup_singleton_eq. }
  destruct e as [status|result|r].
  - destruct He as [_ He]. apply (He "src/a.py").
    + vm_compute. left. reflexivity.
    + exists 120. split; [exact Ha|]. split; [cbn; lia|]. intros m Hm. discriminate Hm.
  - exact He.
  - destruct (CodeReviewer.file_reviews r !! "src/notes.txt") as [d|] eqn:Hd;
      [|reflexivity].
    assert (Hsome : is_Some (CodeReviewer.file_reviews r !! "src/notes.txt"))
      by (rewrite Hd; eexists; reflexivity).
    apply He in Hsome. destruct Hsome as [_ (size & Hsize & Hlo & _)].
    cbn [MainSpec.small_project Main.sizes] in Hsize. rewrite Hn in Hsize.
    injection Hsize as <-. cbn in Hlo. lia.
Defined.

(** X20.  A run with [--repo] alone reaches the formatting of a result
    exactly when the temperature lies between 0 and 2, at least one worker
    is asked for, the key [OPENAI_API_KEY] is set and not empty, and the
    cache directory can be created; otherwise it ends with status 1. *)
Theorem main_repo_needs_key_and_config (env : Main.Env) (args : Main.Args) (w : world)
    (repo : string) :
  Main.arg_file args = None ->
  Main.arg_dir args = None ->
  Main.arg_repo args = Some repo ->
  repo <> EmptyString ->
  exists e w',
    Main.main env args w = (Return e, w')
    /\ ((exists result, e = Main.RenderOne result)
        <-> ConfigSpec.temperature_in_bounds (Main.arg_temperature args)
            /\ 1 <= Main.arg_workers args
            /\ Main.given (Main.OPENAI_API_KEY env) = true
            /\ Main.makedirs env (MainSpec.cache_of env args) = true)
    /\ (e = Main.Exit 1 \/ exists result, e = Main.RenderOne result).
Proof.
  intros Hfile Hdir Hrepo Hne.
  assert (Hone : Main.count_inputs args = 1).
  { unfold Main.count_inputs. by rewrite Hfile, Hdir, Hrepo. }
  assert (Hgiven : Main.given (Main.arg_repo args) = true).
  { rewrite Hrepo. by destruct repo. }
  destruct (main_ends env args w Hone) as (e & Hrun & _ & _ & _ & _ & Hiff).
  destruct (Hiff Hfile Hdir Hgiven) as [Hreach Hkind].
  by exists e, (MainSpec.cleaned env args w).
Qed.

Lemma main_repo_needs_key_and_config_witness :
  exists e w',
    Main.main (MainSpec.small_project None) (MainSpec.with_repo "repo")
      (Scenario.fresh (Scenario.always (Parsed []))) = (Return e, w')
    /\ e = Main.Exit 1.
Proof.
  destruct (main_repo_needs_key_and_config (MainSpec.small_project None)
              (MainSpec.with_repo "repo")
              (Scenario.fresh (Scenario.always (Parsed []))) "repo")
    as (e & w' & Hrun & Hreach & Hkind);
    [reflexivity|reflexivity|reflexivity|discriminate|].
  exists e, w'. split; [exact Hrun|].
  destruct Hkind as [He|Hrender]; [exact He|].
  apply Hreach in Hrender. destruct Hrender as (_ & _ & Hkey & _).
  vm_compute in Hkey. discriminate Hkey.
Defined.

(* ================================================================== *)
(** * Further properties of the language table *)
(* ================================================================== *)

(** X21.  [_get_file_language] returns the first language of
    [SUPPORTED_LANGUAGES] that lists the lower-cased extension of the
    path, and [None] exactly when no language lists it.  As [.h] is listed
    by [cpp] before [c], a header file is always [cpp], and [c] is returned
    for the extension [.c] only. *)
Theorem get_file_language_first_listed (file_path : string) :
  let ext := PyStr.lower (snd (OsPath.splitext file_path)) in
  (forall lang, CodeReviewer._get_file_language file_path = Some lang ->
     exists exts, In (lang, exts) CodeReviewer.SUPPORTED_LANGUAGES /\ In ext exts)
  /\ (CodeReviewer._get_file_language file_path = None <->
      forall lang exts, In (lang, exts) CodeReviewer.SUPPORTED_LANGUAGES -> ~ In ext exts)
  /\ (ext = ".h" -> CodeReviewer._get_file_language file_path = Some "cpp")
  /\ (CodeReviewer._get_file_language file_path = Some "c" <-> ext = ".c").
Proof.
  intros ext. unfold CodeReviewer._get_file_language. fold ext.
  generalize ext. clear ext. intros ext.
  assert (Hex : forall exts, existsb (String.eqb ext) exts = true <-> In ext exts).
  { intros exts. rewrite existsb_exists. split.
    - intros (x & Hin & Heq). apply String.eqb_eq in Heq. by subst.
    - intros Hin. exists ext. split; [done|]. apply String.eqb_refl. }
  split; [|split; [|split]].
  - intros lang.
    destruct (List.find _ CodeReviewer.SUPPORTED_LANGUAGES) as [[l exts]|] eqn:Hfind;
      [|done].
    intros [= <-]. apply find_some in Hfind as [Hin Hok]. exists exts.
    split; [done|]. by apply Hex.
  - destruct (List.find _ CodeReviewer.SUPPORTED_LANGUAGES) as [[l exts]|] eqn:Hfind.
    + split; [done|]. intros Hnone. apply find_some in Hfind as [Hin Hok].
      destruct (Hnone l exts Hin). by apply Hex.
    + split; [|done]. intros _ lang exts Hin Hext.
      pose proof (find_none _ _ Hfind (lang, exts) Hin) as Hno. cbn [snd] in Hno.
      apply Hex in Hext. congruence.
  - intros ->. reflexivity.
  - split; [|intros ->; reflexivity].
    unfold CodeReviewer.SUPPORTED_LANGUAGES. cbn [List.find existsb snd fst orb].
    repeat match goal with
           | |- context [String.eqb ext ?lit] =>
               destruct (String.eqb_spec ext lit) as [->|?]; [by vm_compute|];
               cbn [orb]
           end.
    done.
Qed.

(* ================================================================== *)
(** * Further properties of the file search *)
(* ================================================================== *)

Section ExtensionCase.
Import CaseSpec.

Lemma lower_char_not_upper c : is_upper (PyStr.lower_char c) = false.
Proof. destruct c as [[] [] [] [] [] [] [] []]; reflexivity. Qed.

Lemma lower_has_no_upper s : has_upper (PyStr.lower s) = false.
Proof.
  induction s as [|c r IH]; [done|].
  cbn [PyStr.lower has_upper]. by rewrite lower_char_not_upper, IH.
Qed.

Lemma upper_never_matches exts name :
  exts <> [] -> Forall (fun e => has_upper e = true) exts ->
  WalkSpec.matching (Some exts) name = false.
Proof.
  intros Hne Hall. unfold WalkSpec.matching. destruct exts as [|e0 exts]; [done|].
  apply not_true_iff_false. intros Hex. apply existsb_exists in Hex as (e & Hin & Heq).
  apply String.eqb_eq in Heq. rewrite Forall_forall in Hall.
  apply list_elem_of_In in Hin. specialize (Hall e Hin).
  rewrite <- Heq, lower_has_no_upper in Hall. done.
Qed.

End ExtensionCase.

(** X22.  [find_files] compares the lower-cased extension of a file with
    the extensions asked for as they are given: when every extension asked
    for holds an upper-case letter, no file is found, whatever the tree. *)
Theorem find_files_upper_case_extension_finds_nothing (tree : FileAnalyzer.entry)
    (directory : string) (exts : list string) :
  exts <> [] ->
  Forall (fun e => CaseSpec.has_upper e = true) exts ->
  FileAnalyzer.find_files tree directory (Some exts) = [].
Proof.
  intros Hne Hall.
  destruct (FileAnalyzer.find_files tree directory (Some exts)) as [|p ps] eqn:Hfound;
    [done|].
  assert (Hin : In p (FileAnalyzer.find_files tree directory (Some exts)))
    by (rewrite Hfound; by left).
  apply in_find_files in Hin as (root & name & _ & Hsel & _).
  unfold WalkSpec.selected in Hsel. apply andb_true_iff in Hsel as [_ Hm].
  by rewrite (upper_never_matches exts name Hne Hall) in Hm.
Qed.

Lemma find_files_upper_case_extension_finds_nothing_witness :
  FileAnalyzer.find_files
    (FileAnalyzer.Dir "src" [FileAnalyzer.File "a.py"; FileAnalyzer.File "B.PY"])
    "src" (Some [".PY"]) = [].
Proof.
  apply (find_files_upper_case_extension_finds_nothing
           (FileAnalyzer.Dir "src" [FileAnalyzer.File "a.py"; FileAnalyzer.File "B.PY"])
           "src" [".PY"]).
  - discriminate.
  - constructor; [reflexivity|constructor].
Defined.

(* ================================================================== *)
(** * Properties of the sample module *)
(* ================================================================== *)

Section Sample.
Import ExampleCode.

Lemma foldl_process_item data : forall result counter,
  foldl process_item (result, counter) data
  = (result ++ map (fun item => if 0 <? item then item * 2 else item) data,
     counter + Z.of_nat (length data)).
Proof.
  induction data as [|item data IH]; intros result counter; cbn [foldl map length].
  - rewrite app_nil_r. f_equal. lia.
  - unfold process_item at 2.
    destruct (0 <? item); rewrite IH, <- app_assoc; cbn [app]; f_equal; lia.
Qed.

End Sample.

(** X23.  [process_data] on a list of integers returns a list of the same
    length, advances the global [counter] by that length, doubles each
    positive item and keeps every other item, so that each item of the
    result has the sign of the item it comes from and no positive item of
    the result is odd. *)
Theorem process_data_doubles_positive_items (data : list Z) (counter : Z) :
  exists result,
    ExampleCode.process_data data counter = (result, counter + Z.of_nat (length data))
    /\ length result = length data
    /\ forall (i : nat) (item : Z), data !! i = Some item ->
         exists out, result !! i = Some out
                     /\ (0 < item -> out = 2 * item)
                     /\ (item <= 0 -> out = item)
                     /\ (0 < out <-> 0 < item)
                     /\ (0 < out -> Z.even out = true).
Proof.
  unfold ExampleCode.process_data. rewrite foldl_process_item. cbn [app].
  eexists. split; [reflexivity|]. split; [by rewrite length_map|].
  intros i item Hi. rewrite list_lookup_fmap, Hi. cbn [fmap option_fmap option_map].
  eexists. split; [reflexivity|].
  destruct (Z.ltb_spec 0 item) as [Hpos|Hneg].
  - split; [lia|]. split; [lia|]. split; [lia|]. intros _.
    rewrite Z.even_mul. apply orb_true_r.
  - split; [lia|]. split; [done|]. split; [lia|]. lia.
Qed.

(* ================================================================== *)
(** * Further properties of the cache key *)
(* ================================================================== *)

Section KeyText.
Import CacheKeySpec.

Lemma append_assoc_string (a b c : string) : (a +:+ b) +:+ c = a +:+ (b +:+ c).
Proof.
  induction a as [|x a IH]; [done|].
  change ((String x a +:+ b) +:+ c) with (String x ((a +:+ b) +:+ c)).
  change (String x a +:+ (b +:+ c)) with (String x (a +:+ (b +:+ c))).
  by rewrite IH.
Qed.

Lemma append_not_longer (a x : string) : a +:+ x = a -> x = EmptyString.
Proof.
  induction a as [|c a IH]; [done|].
  change (String c a +:+ x) with (String c (a +:+ x)). intros [= H]. by apply IH.
Qed.

Lemma combined_separator content prompt :
  combined content prompt = content +:+ separator +:+ prompt.
Proof.
  unfold combined, separator.
  by rewrite !append_assoc_string.
Qed.

End KeyText.

(** X24.  The cache key is 32 lower-case hexadecimal digits for every
    content and prompt, and it depends on the pair only through the text
    [content + separator + prompt]: moving a separator from the content to
    the prompt gives another pair with the same key, so for all texts [a],
    [b] and [c] the pairs [(a + separator + b, c)] and
    [(a, b + separator + c)] differ and share their key. *)
Theorem cache_key_separator_ambiguity (a b c : string) :
  let sep := CacheKeySpec.separator in
  String.length (CodeReviewer._get_cache_key a c) = 32%nat
  /\ CacheKeySpec.all_chars CacheKeySpec.is_hex (CodeReviewer._get_cache_key a c) = true
  /\ (a +:+ sep +:+ b, c) <> (a, b +:+ sep +:+ c)
  /\ CodeReviewer._get_cache_key (a +:+ sep +:+ b) c
     = CodeReviewer._get_cache_key a (b +:+ sep +:+ c).
Proof.
  intros sep. subst sep.
  destruct (cache_key_of_combined_text_aux a c) as [Hlen Hhex].
  split; [done|]. split; [done|]. split.
  - intros [= H _]. apply append_not_longer in H.
    unfold CacheKeySpec.separator in H. rewrite !append_assoc_string in H.
    vm_compute in H. discriminate H.
  - assert (Hkey : forall x y, CodeReviewer._get_cache_key x y
                               = MD5.hexdigest (CacheKeySpec.combined x y)) by done.
    rewrite !Hkey, !combined_separator. by rewrite !append_assoc_string.
Qed.
